(** * Automated reminder system: the Discord notifier and the mail scheduler

    A shallow embedding of [scripts/discord_notifier.py] and
    [scripts/mail_scheduler.py], and the properties of their reminder
    windows, dedup keys, ledger and scheduler loops.

    Conventions of the embedding.
    - A Python [str] is the [string] of the bytes of its UTF-8 encoding,
      which is how the string literals of this file are read.  Equality,
      concatenation and the search for an ASCII character are the same on
      the encodings as on the strings.
    - A [datetime] is an integer number of microseconds, a [timedelta] a
      difference of two of them.  The notifier works with naive local
      times throughout.  The scheduler takes the clock in the zone
      [Asia/Kolkata] and puts the naive time it reads from a row into that
      zone with [localize]; its numbers count the microseconds of the
      instants, so differences of aware times are differences of these
      numbers.  [total_seconds()] is the microsecond count divided by 10^6
      and rounded to a float; the scripts only compare it, or its
      difference with a whole number of seconds, against whole numbers of
      seconds, and rounding is monotone and exact on these, so the
      comparisons are written on the microsecond counts.
    - A row of a table is a record of its columns.  Columns that the
      scripts only put into f-strings are strings; a NULL is not modelled.
    - The two dedup ledgers ([sent_reminders], a Python [set] of [str]) are
      [gset string].
    - What the scripts print or send is collected in a log; every reminder
      handed to the transport is logged under the ledger key it was sent
      for. *)

From Stdlib Require Import ZArith Ascii String List Bool Lia.
From stdpp Require Import base decidable option list sets gmap strings pretty.

(** ** Python string primitives *)

Module PyStr.

Definition LF : ascii := "010"%char.
Definition CR : ascii := "013"%char.

(** White space is what [str.strip()] removes and what [str.isspace()]
    holds of: 29 characters, here by their UTF-8 encodings.

    One byte: U+0009 to U+000D (TAB, LF, VT, FF, CR), U+001C to U+001F
    (FS, GS, RS, US) and U+0020 (space). *)
Definition isspace_1 (a : ascii) : bool :=
  let n := nat_of_ascii a in
  ((9 <=? n)%nat && (n <=? 13)%nat) || ((28 <=? n)%nat && (n <=? 32)%nat).

(** Two bytes: U+0085 (C2 85) and U+00A0 (C2 A0). *)
Definition isspace_2 (a b : ascii) : bool :=
  (nat_of_ascii a =? 194)%nat &&
  ((nat_of_ascii b =? 133)%nat || (nat_of_ascii b =? 160)%nat).

(** Three bytes: U+1680 (E1 9A 80), U+2000 to U+200A (E2 80 80 to
    E2 80 8A), U+2028 and U+2029 (E2 80 A8, E2 80 A9), U+202F (E2 80 AF),
    U+205F (E2 81 9F) and U+3000 (E3 80 80). *)
Definition isspace_3 (a b c : ascii) : bool :=
  let '(x, y, z) := (nat_of_ascii a, nat_of_ascii b, nat_of_ascii c) in
  ((x =? 225) && (y =? 154) && (z =? 128))%nat ||
  ((x =? 226) && (y =? 128) &&
   (((128 <=? z) && (z <=? 138)) || (z =? 168) || (z =? 169) || (z =? 175)))%nat ||
  ((x =? 226) && (y =? 129) && (z =? 159))%nat ||
  ((x =? 227) && (y =? 128) && (z =? 128))%nat.

(** What follows the first character of [s], when that character is
    white space. *)
Definition after_space (s : string) : option string :=
  match s with
  | String a s1 =>
      if isspace_1 a then Some s1
      else
        match s1 with
        | String b s2 =>
            if isspace_2 a b then Some s2
            else
              match s2 with
              | String c s3 => if isspace_3 a b c then Some s3 else None
              | EmptyString => None
              end
        | EmptyString => None
        end
  | EmptyString => None
  end.

(** [s.lstrip()] without arguments. *)
Fixpoint lstrip (s : string) : string :=
  match s with
  | String a s1 =>
      if isspace_1 a then lstrip s1
      else
        match s1 with
        | String b s2 =>
            if isspace_2 a b then lstrip s2
            else
              match s2 with
              | String c s3 => if isspace_3 a b c then lstrip s3 else s
              | EmptyString => s
              end
        | EmptyString => s
        end
  | EmptyString => EmptyString
  end.

(** [s.isspace() or not s]: nothing but white space. *)
Definition blank (s : string) : bool :=
  match lstrip s with
  | EmptyString => true
  | String _ _ => false
  end.

(** [s.rstrip()] without arguments: the longest end of [s] that is
    nothing but white space goes. *)
Fixpoint rstrip (s : string) : string :=
  match s with
  | EmptyString => EmptyString
  | String a s' => if blank s then EmptyString else String a (rstrip s')
  end.

(** [s.strip()] *)
Definition strip (s : string) : string := rstrip (lstrip s).

(** A byte that continues a character begun before it (10xxxxxx). *)
Definition continuation (c : ascii) : bool :=
  let n := nat_of_ascii c in (128 <=? n)%nat && (n <=? 191)%nat.

(** [len(s)], the number of characters. *)
Fixpoint len (s : string) : nat :=
  match s with
  | EmptyString => 0
  | String c s' => (if continuation c then 0 else 1) + len s'
  end.

(** [c in s] for an ASCII character [c]. *)
Fixpoint contains (c : ascii) (s : string) : bool :=
  match s with
  | EmptyString => false
  | String d s' => if Ascii.eqb c d then true else contains c s'
  end.

(** [f.readlines()] on a file opened with [open(path, "r")]: text mode
    with the default [newline=None], that is universal newlines.  The
    line ends LF, CR and CR LF all end a line and are handed back as a
    single LF; a last line without line end is handed back as it is. *)
Fixpoint readlines (content : string) : list string :=
  match content with
  | EmptyString => []
  | String c rest =>
      if Ascii.eqb c LF then String LF EmptyString :: readlines rest
      else if Ascii.eqb c CR then
        match rest with
        | String d rest' =>
            if Ascii.eqb d LF then String LF EmptyString :: readlines rest'
            else String LF EmptyString :: readlines rest
        | EmptyString => [String LF EmptyString]
        end
      else
        match readlines rest with
        | [] => [String c EmptyString]
        | line :: lines => String c line :: lines
        end
  end.

End PyStr.

(** ** The ledger file of the Discord notifier *)

Module SentLog.

(** The file [sent_reminders.log]: absent, or its content. *)
Definition file := option string.

(** What [save_sent_log] writes for the keys in iteration order. *)
Fixpoint write_lines (keys : list string) : string :=
  match keys with
  | [] => EmptyString
  | key :: keys' => (key +:+ String PyStr.LF EmptyString) +:+ write_lines keys'
  end.

(** [load_sent_log()] *)
Definition load_sent_log (f : file) : gset string :=
  match f with
  | Some content => list_to_set (PyStr.strip <$> PyStr.readlines content)
  | None => ∅
  end.

(** [save_sent_log(sent_set)]: the file is opened with ["w"], so the old
    content is dropped.  A Python [set] is iterated in an order of its
    own; here in the order of [elements]. *)
Definition save_sent_log (sent_set : gset string) : file :=
  Some (write_lines (elements sent_set)).

End SentLog.

(** ** The database rows and the library functions both scripts rely on *)

(** A value read from a column that the scripts compare or format without
    converting it first: an integer or a string. *)
Inductive pyval :=
  | PyInt (z : Z)
  | PyStr (s : string).

(** [a == b] *)
Definition py_eq (a b : pyval) : bool :=
  match a, b with
  | PyInt x, PyInt y => (x =? y)%Z
  | PyStr s, PyStr t => String.eqb s t
  | _, _ => false
  end.

(** [f"{v}"] *)
Definition py_format (v : pyval) : string :=
  match v with
  | PyInt z => pretty z
  | PyStr s => s
  end.

(** Table [classes].  Columns the scripts only format are strings. *)
Record class_row := {
  cls_course : string;
  cls_batch_name : string;
  cls_year : pyval;
  cls_session_name : string;
  cls_date : string;
  cls_time : string;
  cls_mode : string
}.

(** Table [assignments]. *)
Record assignment_row := {
  asg_course : string;
  asg_batch_name : string;
  asg_year : pyval;
  asg_subject : string;
  asg_due_date : string;
  asg_mode : string
}.

(** Table [students]. *)
Record student := {
  stu_name : string;
  stu_email : string;
  stu_course : string;
  stu_batch_name : string;
  stu_year : pyval;
  stu_mode : string
}.

(** The functions of the Python runtime that the scripts call and that are
    not embedded here. *)
Class Runtime := {
  (** [datetime.strptime(s, "%Y-%m-%d %H:%M")], a naive time; [None] is
      [ValueError]. *)
  strptime : string → option Z;
  (** [IST.localize(t)], the instant of the naive time [t] in the zone
      [Asia/Kolkata]; [None] is an exception of the library that is not a
      [ValueError] (pytz adds and subtracts a day, which is an
      [OverflowError] on the first and the last day of [datetime]). *)
  localize : Z → option Z;
  (** [t.strftime('%I:%M %p on %d-%b-%Y')] *)
  strftime : Z → string;
  (** [int(s)]; [None] is [ValueError]. *)
  py_int : string → option Z;
  (** [s.lower()], which is also what [.str.lower()] does to each string of
      a column. *)
  str_lower : string → string
}.

(** Microseconds in a second. *)
Definition us : Z := 1000000.

(** Exceptions that leave the module-level code. *)
Inductive py_error :=
  | TypeError
  | ValueError (msg : string).

(** [not v] for a value of [os.getenv]: [None] and the empty string are
    false. *)
Definition truthy (v : option string) : bool :=
  match v with
  | Some (String _ _) => true
  | _ => false
  end.

(** What one tick leaves behind: the reminders handed to the channel, each
    under the ledger key it was sent for, and the warnings printed. *)
Inductive log_entry (M : Type) :=
  | Dispatch (key : string) (payload : M)
  | Warning (text : string).
Arguments Dispatch {M} key payload.
Arguments Warning {M} text.

(** The number of dispatches under [key] in a log. *)
Fixpoint dispatches {M} (key : string) (log : list (log_entry M)) : nat :=
  match log with
  | [] => 0
  | Dispatch k _ :: log' =>
      (if bool_decide (k = key) then 1 else 0) + dispatches key log'
  | Warning _ :: log' => dispatches key log'
  end.

(** [for row in rows: body], threading the ledger and collecting the log. *)
Fixpoint for_each {R M} (body : R → gset string → gset string * list (log_entry M))
    (rows : list R) (sent : gset string) : gset string * list (log_entry M) :=
  match rows with
  | [] => (sent, [])
  | row :: rows' =>
      let '(sent1, log1) := body row sent in
      let '(sent2, log2) := for_each body rows' sent1 in
      (sent2, log1 ++ log2)
  end.

(** The same loop when the body can raise: the third component of what
    the body returns tells whether it ran to its end.  An exception in
    one row leaves the loop with the ledger as the rows before it left it;
    the rows behind it are not looked at. *)
Fixpoint for_each_try {R M}
    (body : R → gset string → gset string * list (log_entry M) * bool)
    (rows : list R) (sent : gset string) : gset string * list (log_entry M) * bool :=
  match rows with
  | [] => (sent, [], true)
  | row :: rows' =>
      let '(sent1, log1, ok) := body row sent in
      if ok
      then let '(sent2, log2, ok') := for_each_try body rows' sent1 in
           (sent2, log1 ++ log2, ok')
      else (sent1, log1, false)
  end.

(** ** scripts/discord_notifier.py *)

Module Discord.
Section Script.
Context {rt : Runtime}.
Local Open Scope Z_scope.

Record config := {
  TOKEN : string;
  CHANNEL_ID : Z;
  DB_PATH : string
}.

(** The module-level configuration code, on the environment that
    [load_dotenv()] leaves.  [int(None)] raises [TypeError] before the
    check of the three values is reached. *)
Definition load_config (env : gmap string string) : py_error + config :=
  let token := env !! "DISCORD_TOKEN" in
  match env !! "DISCORD_CHANNEL_ID" with
  | None => inl TypeError
  | Some s =>
      match py_int s with
      | None => inl (ValueError "invalid literal for int()")
      | Some channel_id =>
          let db_path := env !! "DB_PATH" in
          if negb (truthy token) || (channel_id =? 0) || negb (truthy db_path)
          then inl (ValueError "Missing DISCORD_TOKEN, DISCORD_CHANNEL_ID, or DB_PATH in .env")
          else inr {| TOKEN := default "" token;
                      CHANNEL_ID := channel_id;
                      DB_PATH := default "" db_path |}
      end
  end.

(** One dispatch: the message handed to [channel.send] and whether the
    call went through ([send_reminder] catches and prints the failure). *)
Definition entry := log_entry (string * bool).

(** [send_reminder(channel, message)] *)
Definition send_reminder (channel : string → bool) (key message : string) : entry :=
  Dispatch key (message, channel message).

(** [0 <= (seconds_until - lead) <= 600], with [seconds_until] in
    microseconds and [lead] in seconds. *)
Definition in_window (seconds_until lead : Z) : bool :=
  (0 <=? seconds_until - lead * us) && (seconds_until - lead * us <=? 600 * us).

(** The [if] / [elif] of both loops of [check_and_send_reminders]. *)
Definition remind (now : Z) (channel : string → bool) (target : Z)
    (key_24hr key_1hr msg_24hr msg_1hr : string)
    (sent_reminders : gset string) : gset string * list entry :=
  let seconds_until := target - now in
  if in_window seconds_until 86400 && negb (bool_decide (key_24hr ∈ sent_reminders))
  then ({[key_24hr]} ∪ sent_reminders, [send_reminder channel key_24hr msg_24hr])
  else if in_window seconds_until 3600 && negb (bool_decide (key_1hr ∈ sent_reminders))
  then ({[key_1hr]} ∪ sent_reminders, [send_reminder channel key_1hr msg_1hr])
  else (sent_reminders, []).

Definition class_key (row : class_row) (suffix : string) : string :=
  "class-" +:+ cls_course row +:+ "-" +:+ cls_batch_name row +:+ "-" +:+
  cls_session_name row +:+ "-" +:+ cls_date row +:+ suffix.

Definition assign_key (row : assignment_row) (suffix : string) : string :=
  "assign-" +:+ asg_course row +:+ "-" +:+ asg_batch_name row +:+ "-" +:+
  asg_subject row +:+ "-" +:+ asg_due_date row +:+ suffix.

(** The body of the loop over [df_classes], with its [try] / [except]. *)
Definition process_class (now : Z) (channel : string → bool) (row : class_row)
    (sent_reminders : gset string) : gset string * list entry :=
  let class_date := cls_date row in
  let class_time := cls_time row in
  let class_course := cls_course row in
  let batch := cls_batch_name row in
  let class_name := cls_session_name row in
  match strptime (class_date +:+ " " +:+ class_time) with
  | None => (sent_reminders, [Warning "Error reading class data"])
  | Some class_datetime =>
      remind now channel class_datetime
        (class_key row "-24hr") (class_key row "-1hr")
        ("📅 Heads-up! Tomorrow at **" +:+ class_time +:+ "**, your class **'" +:+
         class_name +:+ "'** (" +:+ class_course +:+ " " +:+ batch +:+
         ") will start. Be prepared! 🎓")
        ("⚡ Reminder: **'" +:+ class_name +:+ "'** (" +:+ class_course +:+ " " +:+
         batch +:+ ") starts in 1 hour at **" +:+ class_time +:+ "**. Get ready! 🎒")
        sent_reminders
  end.

(** [not due_date_str or due_date_str.lower() == "nan"] *)
Definition no_due_date (due_date_str : string) : bool :=
  String.eqb due_date_str "" || String.eqb (str_lower due_date_str) "nan".

(** The body of the loop over [df_assignments]. *)
Definition process_assignment (now : Z) (channel : string → bool)
    (row : assignment_row) (sent_reminders : gset string) : gset string * list entry :=
  let due_date_str := asg_due_date row in
  if no_due_date due_date_str
  then (sent_reminders, [])
  else
    let subject := asg_subject row in
    let course := asg_course row in
    let batch := asg_batch_name row in
    let due_time := "23:59" in
    match strptime (due_date_str +:+ " " +:+ due_time) with
    | None => (sent_reminders, [Warning "Error reading assignment data"])
    | Some due_datetime =>
        remind now channel due_datetime
          (assign_key row "-24hr") (assign_key row "-1hr")
          ("📝 Reminder: Assignment **'" +:+ subject +:+ "'** (" +:+ course +:+ " " +:+
           batch +:+ ") is due tomorrow at **" +:+ due_time +:+
           "**! Don’t forget to submit! ⏰")
          ("⚠️ Assignment **'" +:+ subject +:+ "'** (" +:+ course +:+ " " +:+
           batch +:+ ") is due in 1 hour at **" +:+ due_time +:+
           "**! Submit it soon! 🕒")
          sent_reminders
    end.

(** What one iteration of the [while] loop meets: the clock, the two
    queries ([None]: the query raised), the channel, and whether the log
    file can be written. *)
Record world := {
  now : Z;
  classes : option (list class_row);
  assignments : option (list assignment_row);
  channel : string → bool;
  disk_ok : bool
}.

(** The ledger in memory and the ledger file. *)
Record state := {
  sent_reminders : gset string;
  sent_log : SentLog.file
}.

(** One iteration of the [while] loop, up to the [sleep].  The [bool] is
    false when an exception left the iteration: neither the two queries
    nor [save_sent_log] are inside a [try]. *)
Definition tick (w : world) (st : state) : state * list entry * bool :=
  match classes w with
  | None => (st, [], false)
  | Some df_classes =>
      let '(sent1, log1) :=
        for_each (process_class (now w) (channel w)) df_classes (sent_reminders st) in
      match assignments w with
      | None => ({| sent_reminders := sent1; sent_log := sent_log st |}, log1, false)
      | Some df_assignments =>
          let '(sent2, log2) :=
            for_each (process_assignment (now w) (channel w)) df_assignments sent1 in
          if disk_ok w
          then ({| sent_reminders := sent2; sent_log := SentLog.save_sent_log sent2 |},
                log1 ++ log2, true)
          else ({| sent_reminders := sent2; sent_log := sent_log st |},
                log1 ++ log2, false)
      end
  end.

(** [while not bot.is_closed()]: one world per iteration, the bot is
    closed when they run out.  An exception that leaves an iteration ends
    the task.  The result holds the log of every iteration begun and
    whether the loop is still alive. *)
Fixpoint reminder_loop (ws : list world) (st : state)
    : state * list (list entry) * bool :=
  match ws with
  | [] => (st, [], true)
  | w :: ws' =>
      let '(st1, log, alive) := tick w st in
      if alive
      then let '(st2, logs, alive') := reminder_loop ws' st1 in (st2, log :: logs, alive')
      else (st1, [log], false)
  end.

(** [check_and_send_reminders()]: without a channel it returns at once. *)
Definition check_and_send_reminders (channel_found : bool) (ws : list world)
    (st : state) : state * list (list entry) * bool :=
  if channel_found then reminder_loop ws st else (st, [], false).

(** The script from its first line: configuration, the ledger read from
    the file, then the bot and its reminder task. *)
Definition main (env : gmap string string) (f : SentLog.file)
    (channel_found : bool) (ws : list world)
    : py_error + (state * list (list entry) * bool) :=
  match load_config env with
  | inl e => inl e
  | inr _ =>
      inr (check_and_send_reminders channel_found ws
             {| sent_reminders := SentLog.load_sent_log f; sent_log := f |})
  end.

End Script.
End Discord.

(** ** scripts/mail_scheduler.py *)

Module Mail.
Section Script.
Context {rt : Runtime}.
Local Open Scope Z_scope.

Record config := {
  DB_PATH : string;
  SENDER_EMAIL : string;
  SENDER_PASS : string
}.

(** The module-level configuration code.  [DB_PATH] has a default. *)
Definition load_config (env : gmap string string) : py_error + config :=
  let db_path :=
    default "D:\Internship_ICT\Final\automated_reminders\database\reminders.db"
            (env !! "DB_PATH") in
  let sender_email := env !! "SENDER_EMAIL" in
  let sender_pass := env !! "SENDER_PASS" in
  if negb (truthy sender_email) || negb (truthy sender_pass)
  then inl (ValueError "Missing SENDER_EMAIL or SENDER_PASS in .env file!")
  else inr {| DB_PATH := db_path;
              SENDER_EMAIL := default "" sender_email;
              SENDER_PASS := default "" sender_pass |}.

Record email := {
  to : string;
  subject : string;
  body : string
}.

(** One dispatch: the mails of one reminder, one per recipient, each with
    whether the SMTP exchange went through. *)
Definition entry := log_entry (list (email * bool)).

(** [send_email(recipient, subject, body)]: the SMTP exchange is inside a
    [try] whose [except Exception] prints the failure. *)
Definition send_email (smtp : email → bool) (recipient subject body : string)
    : email * bool :=
  let msg := {| to := recipient; subject := subject; body := body |} in
  (msg, smtp msg).

(** [0 <= (now - reminder_time).total_seconds() < 600] *)
Definition due (now reminder_time : Z) : bool :=
  (0 <=? now - reminder_time) && (now - reminder_time <? 600 * us).

(** [timedelta(hours=hours_before)] *)
Definition hours (hours_before : Z) : Z := hours_before * 3600 * us.

(** The row filter on [students_df]. *)
Definition is_recipient (course batch_name : string) (year : pyval) (mode : string)
    (stu : student) : bool :=
  String.eqb (str_lower (stu_course stu)) (str_lower course) &&
  String.eqb (str_lower (stu_batch_name stu)) (str_lower batch_name) &&
  py_eq (stu_year stu) year &&
  String.eqb (str_lower (stu_mode stu)) (str_lower mode).

(** [recipients = students_df[...]] *)
Definition recipients (students_df : list student) (course batch_name : string)
    (year : pyval) (mode : string) : list student :=
  List.filter (is_recipient course batch_name year mode) students_df.

Definition nl : string := String PyStr.LF EmptyString.

(** The body of [for hours_before in [24, 1]], the same in both loops of
    [send_reminders] up to the key, the subject line and the text. *)
Definition remind (now : Z) (smtp : email → bool) (students_df : list student)
    (course batch_name : string) (year : pyval) (mode : string)
    (reminder_time : Z) (key subject : string) (text : student → string)
    (sent_reminders : gset string) : gset string * list entry :=
  if due now reminder_time && negb (bool_decide (key ∈ sent_reminders))
  then
    match recipients students_df course batch_name year mode with
    | [] => (sent_reminders,
             [Warning ("No students found for " +:+ course +:+ " " +:+ batch_name +:+
                       " " +:+ py_format year +:+ " (" +:+ mode +:+ ")")])
    | selected =>
        ({[key]} ∪ sent_reminders,
         [Dispatch key
            (List.map (λ stu, send_email smtp (stu_email stu) subject (text stu))
                      selected)])
    end
  else (sent_reminders, []).

Definition class_key (row : class_row) (hours_before : Z) : string :=
  "class-" +:+ cls_course row +:+ "-" +:+ cls_batch_name row +:+ "-" +:+
  py_format (cls_year row) +:+ "-" +:+ PyStr.strip (cls_mode row) +:+ "-" +:+
  cls_session_name row +:+ "-" +:+ pretty hours_before.

Definition assignment_key (row : assignment_row) (hours_before : Z) : string :=
  "assignment-" +:+ asg_course row +:+ "-" +:+ asg_batch_name row +:+ "-" +:+
  py_format (asg_year row) +:+ "-" +:+ PyStr.strip (asg_mode row) +:+ "-" +:+
  asg_subject row +:+ "-" +:+ pretty hours_before.

(** One threshold of one class. *)
Definition class_reminder (now : Z) (smtp : email → bool) (students_df : list student)
    (row : class_row) (class_time : Z) (hours_before : Z)
    (sent_reminders : gset string) : gset string * list entry :=
  let course := cls_course row in
  let batch_name := cls_batch_name row in
  let year := cls_year row in
  let mode := PyStr.strip (cls_mode row) in
  let session_name := cls_session_name row in
  remind now smtp students_df course batch_name year mode
    (class_time - hours hours_before)
    (class_key row hours_before)
    ("Class Reminder: " +:+ session_name +:+ " (" +:+ pretty hours_before +:+ "h before)")
    (λ stu,
       "Hi " +:+ stu_name stu +:+ "," +:+ nl +:+ nl +:+
       "📚 Reminder: Your class '" +:+ session_name +:+ "' for " +:+ course +:+
       " - " +:+ batch_name +:+ " (" +:+ mode +:+ ") is scheduled at " +:+
       strftime class_time +:+ "." +:+ nl +:+
       "This is your " +:+ pretty hours_before +:+ "-hour reminder." +:+ nl +:+ nl +:+
       "— Automated Reminder System")
    sent_reminders.

(** The body of the loop over [classes_df].  The [try] around the two
    calls that make [class_time] catches [ValueError] only: what
    [localize] raises leaves the loop and [send_reminders]; the [bool] is
    false then. *)
Definition process_class (now : Z) (smtp : email → bool) (students_df : list student)
    (row : class_row) (sent_reminders : gset string)
    : gset string * list entry * bool :=
  match strptime (cls_date row +:+ " " +:+ cls_time row) with
  | None => (sent_reminders, [Warning "Invalid datetime for class"], true)
  | Some naive =>
      match localize naive with
      | None => (sent_reminders, [], false)
      | Some class_time =>
          (for_each (class_reminder now smtp students_df row class_time) [24; 1]
                    sent_reminders,
           true)
      end
  end.

(** One threshold of one assignment. *)
Definition assignment_reminder (now : Z) (smtp : email → bool)
    (students_df : list student) (row : assignment_row) (due_time : Z)
    (hours_before : Z) (sent_reminders : gset string) : gset string * list entry :=
  let course := asg_course row in
  let batch_name := asg_batch_name row in
  let year := asg_year row in
  let mode := PyStr.strip (asg_mode row) in
  let subject := asg_subject row in
  remind now smtp students_df course batch_name year mode
    (due_time - hours hours_before)
    (assignment_key row hours_before)
    ("Assignment Reminder: " +:+ subject +:+ " (" +:+ pretty hours_before +:+ "h before)")
    (λ stu,
       "Hi " +:+ stu_name stu +:+ "," +:+ nl +:+ nl +:+
       "📝 Reminder: Your assignment '" +:+ subject +:+ "' for " +:+ course +:+
       " - " +:+ batch_name +:+ " (" +:+ mode +:+ ") is due at " +:+
       strftime due_time +:+ "." +:+ nl +:+
       "This is your " +:+ pretty hours_before +:+ "-hour reminder." +:+ nl +:+ nl +:+
       "— Automated Reminder System")
    sent_reminders.

(** A due date of ten characters gets the time 09:00. *)
Definition with_default_time (due_str : string) : string :=
  if (PyStr.len (PyStr.strip due_str) =? 10)%nat then due_str +:+ " 09:00" else due_str.

(** The body of the loop over [assignments_df], with the same [try]. *)
Definition process_assignment (now : Z) (smtp : email → bool)
    (students_df : list student) (row : assignment_row)
    (sent_reminders : gset string) : gset string * list entry * bool :=
  let due_str := with_default_time (asg_due_date row) in
  match strptime due_str with
  | None => (sent_reminders, [Warning "Invalid due date for assignment"], true)
  | Some naive =>
      match localize naive with
      | None => (sent_reminders, [], false)
      | Some due_time =>
          (for_each (assignment_reminder now smtp students_df row due_time) [24; 1]
                    sent_reminders,
           true)
      end
  end.

(** What one call of [send_reminders] meets: the clock, the three queries
    ([None]: the query raised) and the mail server. *)
Record world := {
  now : Z;
  students : option (list student);
  classes : option (list class_row);
  assignments : option (list assignment_row);
  smtp : email → bool
}.

(** [send_reminders()].  The [bool] is false when an exception left the
    call: one of the three queries raised, which happens before any row is
    looked at, or a row raised.  The ledger is a global [set] that the call
    changes in place, so the keys added before the exception stay. *)
Definition send_reminders (w : world) (sent_reminders : gset string)
    : gset string * list entry * bool :=
  match students w, classes w, assignments w with
  | Some students_df, Some classes_df, Some assignments_df =>
      let '(sent1, log1, ok) :=
        for_each_try (process_class (now w) (smtp w) students_df) classes_df
                     sent_reminders in
      if ok
      then
        let '(sent2, log2, ok') :=
          for_each_try (process_assignment (now w) (smtp w) students_df)
                       assignments_df sent1 in
        (sent2, log1 ++ log2, ok')
      else (sent1, log1, false)
  | _, _, _ => (sent_reminders, [], false)
  end.

(** The body of [while True] up to the [sleep]: the [try] around
    [send_reminders] catches whatever it raises and prints it. *)
Definition iteration (w : world) (sent_reminders : gset string)
    : gset string * list entry :=
  let '(sent1, log, ok) := send_reminders w sent_reminders in
  if ok then (sent1, log) else (sent1, log ++ [Warning "Error in reminder loop"]).

(** The first iterations of [while True], one per world. *)
Fixpoint main_loop (ws : list world) (sent_reminders : gset string)
    : gset string * list (list entry) :=
  match ws with
  | [] => (sent_reminders, [])
  | w :: ws' =>
      let '(sent1, log) := iteration w sent_reminders in
      let '(sent2, logs) := main_loop ws' sent1 in
      (sent2, log :: logs)
  end.

(** The script run as a program: configuration, an empty ledger, the
    loop. *)
Definition main (env : gmap string string) (ws : list world)
    : py_error + (gset string * list (list entry)) :=
  match load_config env with
  | inl e => inl e
  | inr _ => inr (main_loop ws ∅)
  end.

End Script.
End Mail.

(** ** A runtime for the worked scenarios

    The library functions on the inputs the scenarios use: dates written
    [YYYY-MM-DD HH:MM] in the proleptic Gregorian calendar, a zone whose
    clock never changes (so that instants can be counted on that clock),
    integers written as decimal digits, and strings whose letters are
    ASCII.  The theorems below hold for every [Runtime]; this one only
    serves to run the scripts on concrete rows. *)

Module Calendar.
Local Open Scope Z_scope.

Definition digit (c : ascii) : option Z :=
  let n := Z.of_nat (nat_of_ascii c) in
  if (48 <=? n) && (n <=? 57) then Some (n - 48) else None.

Fixpoint number (cs : list ascii) (acc : Z) : option Z :=
  match cs with
  | [] => Some acc
  | c :: cs' =>
      match digit c with
      | Some d => number cs' (acc * 10 + d)
      | None => None
      end
  end.

Definition is_leap (y : Z) : bool :=
  ((y mod 4 =? 0) && negb (y mod 100 =? 0)) || (y mod 400 =? 0).

Definition days_in_month (y m : Z) : Z :=
  if m =? 2 then (if is_leap y then 29 else 28)
  else if (m =? 4) || (m =? 6) || (m =? 9) || (m =? 11) then 30
  else 31.

(** Days since 1970-01-01. *)
Definition days_from_civil (y m d : Z) : Z :=
  let y' := if m <=? 2 then y - 1 else y in
  let era := y' / 400 in
  let yoe := y' - era * 400 in
  let doy := (153 * (if 2 <? m then m - 3 else m + 9) + 2) / 5 + d - 1 in
  let doe := yoe * 365 + yoe / 4 - yoe / 100 + doy in
  era * 146097 + doe - 719468.

Definition civil_from_days (z : Z) : Z * Z * Z :=
  let z := z + 719468 in
  let era := z / 146097 in
  let doe := z - era * 146097 in
  let yoe := (doe - doe / 1460 + doe / 36524 - doe / 146096) / 365 in
  let doy := doe - (365 * yoe + yoe / 4 - yoe / 100) in
  let mp := (5 * doy + 2) / 153 in
  let d := doy - (153 * mp + 2) / 5 + 1 in
  let m := if mp <? 10 then mp + 3 else mp - 9 in
  ((yoe + era * 400 + (if m <=? 2 then 1 else 0)), m, d).

Definition instant (y m d hh mm : Z) : Z :=
  ((days_from_civil y m d * 24 + hh) * 60 + mm) * 60 * us.

Definition strptime (s : string) : option Z :=
  match list_ascii_of_string s with
  | [y1; y2; y3; y4; s1; m1; m2; s2; d1; d2; s3; h1; h2; s4; n1; n2] =>
      if Ascii.eqb s1 "-" && Ascii.eqb s2 "-" && Ascii.eqb s3 " " && Ascii.eqb s4 ":"
      then
        match number [y1; y2; y3; y4] 0, number [m1; m2] 0, number [d1; d2] 0,
              number [h1; h2] 0, number [n1; n2] 0 with
        | Some y, Some m, Some d, Some hh, Some mm =>
            if (1 <=? y) && (1 <=? m) && (m <=? 12) && (1 <=? d) &&
               (d <=? days_in_month y m) && (hh <=? 23) && (mm <=? 59)
            then Some (instant y m d hh mm)
            else None
        | _, _, _, _, _ => None
        end
      else None
  | _ => None
  end.

Definition two_digits (n : Z) : string :=
  if n <? 10 then "0" +:+ pretty n else pretty n.

Definition month_name (m : Z) : string :=
  nth (Z.to_nat (m - 1))
      ["Jan"; "Feb"; "Mar"; "Apr"; "May"; "Jun"; "Jul"; "Aug"; "Sep"; "Oct"; "Nov"; "Dec"]
      "".

Definition strftime (t : Z) : string :=
  let minutes := t / (60 * us) in
  let '(y, m, d) := civil_from_days (minutes / 1440) in
  let hh := (minutes mod 1440) / 60 in
  let mm := (minutes mod 1440) mod 60 in
  two_digits (if hh mod 12 =? 0 then 12 else hh mod 12) +:+ ":" +:+ two_digits mm +:+
  (if hh <? 12 then " AM on " else " PM on ") +:+
  two_digits d +:+ "-" +:+ month_name m +:+ "-" +:+ pretty y.

Definition py_int (s : string) : option Z :=
  match list_ascii_of_string s with
  | [] => None
  | cs => number cs 0
  end.

(** A naive time a day away from both ends of [datetime] is put into the
    zone; on the first and on the last day [localize] raises. *)
Definition localize (t : Z) : option Z :=
  if (instant 1 1 2 0 0 <=? t) && (t <? instant 9999 12 31 0 0)
  then Some t else None.

Definition lower_char (c : ascii) : ascii :=
  let n := nat_of_ascii c in
  if (65 <=? n)%nat && (n <=? 90)%nat then ascii_of_nat (n + 32) else c.

(** [s.lower()] for a string whose letters are ASCII. *)
Fixpoint lower (s : string) : string :=
  match s with
  | EmptyString => EmptyString
  | String c s' => String (lower_char c) (lower s')
  end.

End Calendar.

Definition calendar_runtime : Runtime := {|
  strptime := Calendar.strptime;
  localize := Calendar.localize;
  strftime := Calendar.strftime;
  py_int := Calendar.py_int;
  str_lower := Calendar.lower
|}.

(** The class of the scenarios, and one student enrolled in it. *)
Definition intro_class : class_row := {|
  cls_course := "CS101";
  cls_batch_name := "A";
  cls_year := PyInt 2024;
  cls_session_name := "Intro";
  cls_date := "2024-01-02";
  cls_time := "10:00";
  cls_mode := "Online"
|}.

Definition alice : student := {|
  stu_name := "Alice";
  stu_email := "alice@example.org";
  stu_course := "cs101";
  stu_batch_name := "a";
  stu_year := PyInt 2024;
  stu_mode := "ONLINE"
|}.

(** 2024-01-02 10:00, when the class starts; 24 hours and 1 hour before. *)
Definition intro_start : Z := Calendar.instant 2024 1 2 10 0.
Definition day_before : Z := (intro_start - 86400 * us)%Z.
Definition hour_before : Z := (intro_start - 3600 * us)%Z.

(** A key with a carriage return inside. *)
Definition cr_key : string := String "a" (String PyStr.CR "b").






(** The class of the scenarios in another year, on the next day, and two
    classes whose course and batch share a hyphen differently. *)
Definition intro_class_2025 : class_row := {|
  cls_course := "CS101";
  cls_batch_name := "A";
  cls_year := PyInt 2025;
  cls_session_name := "Intro";
  cls_date := "2024-01-02";
  cls_time := "10:00";
  cls_mode := "Online"
|}.

Definition intro_class_next_day : class_row := {|
  cls_course := "CS101";
  cls_batch_name := "A";
  cls_year := PyInt 2024;
  cls_session_name := "Intro";
  cls_date := "2024-01-03";
  cls_time := "10:00";
  cls_mode := "Online"
|}.

Definition hyphen_in_course : class_row := {|
  cls_course := "CS-101";
  cls_batch_name := "A";
  cls_year := PyInt 2024;
  cls_session_name := "Intro";
  cls_date := "2024-01-02";
  cls_time := "10:00";
  cls_mode := "Online"
|}.

Definition hyphen_in_batch : class_row := {|
  cls_course := "CS";
  cls_batch_name := "101-A";
  cls_year := PyInt 2024;
  cls_session_name := "Intro";
  cls_date := "2024-01-02";
  cls_time := "10:00";
  cls_mode := "Online"
|}.

(** The suffixes of the Discord keys. *)
Definition is_threshold (suffix : string) : Prop := suffix = "-24hr" ∨ suffix = "-1hr".

(** A field without a hyphen. *)
Definition plain (field : string) : Prop := PyStr.contains "-" field = false.

(** A transport that fails on every message, and one that never fails. *)
Definition unreachable {A} : A → bool := λ _, false.
Definition delivering {A} : A → bool := λ _, true.

(** An assignment that gives its due date without a time. *)
Definition homework : assignment_row := {|
  asg_course := "CS101";
  asg_batch_name := "A";
  asg_year := PyInt 2024;
  asg_subject := "HW1";
  asg_due_date := "2024-03-05";
  asg_mode := "Online"
|}.

(** The worlds of the scenarios: the class table holds [intro_class] and
    there are no assignments. *)
Definition discord_world (now : Z) (channel : string → bool) : Discord.world := {|
  Discord.now := now;
  Discord.classes := Some [intro_class];
  Discord.assignments := Some [];
  Discord.channel := channel;
  Discord.disk_ok := true
|}.

Definition mail_world (now : Z) (students_df : list student) (smtp : Mail.email → bool)
    : Mail.world := {|
  Mail.now := now;
  Mail.students := Some students_df;
  Mail.classes := Some [intro_class];
  Mail.assignments := Some [];
  Mail.smtp := smtp
|}.

(** An iteration on which the database cannot be read. *)
Definition discord_store_down (now : Z) : Discord.world := {|
  Discord.now := now;
  Discord.classes := None;
  Discord.assignments := None;
  Discord.channel := delivering;
  Discord.disk_ok := true
|}.

Definition mail_store_down (now : Z) : Mail.world := {|
  Mail.now := now;
  Mail.students := None;
  Mail.classes := None;
  Mail.assignments := None;
  Mail.smtp := delivering
|}.

(** An iteration of the Discord notifier on which the log file cannot be
    written. *)
Definition discord_disk_full (now : Z) : Discord.world := {|
  Discord.now := now;
  Discord.classes := Some [intro_class];
  Discord.assignments := Some [];
  Discord.channel := delivering;
  Discord.disk_ok := false
|}.

(** An environment with the sender and the password and nothing else. *)
Definition sender_only : gmap string string :=
  <["SENDER_EMAIL" := "reminders@example.org"]> (<["SENDER_PASS" := "secret"]> ∅).

(** A Discord notifier that has sent nothing and has no log file yet. *)
Definition fresh : Discord.state := {|
  Discord.sent_reminders := ∅;
  Discord.sent_log := None
|}.


(** ** The discipline of a dispatch site

    A piece of either script, seen as a function from the ledger before to
    the ledger after and the log, keeps the discipline of the ledger when
    it only adds keys, sends nothing under a key the ledger holds, sends at
    most once under any key, and leaves every key it sent under in the
    ledger. *)
Record guarded {M} (step : gset string → gset string * list (log_entry M)) : Prop := {
  guarded_grows : ∀ sent, sent ⊆ (step sent).1;
  guarded_skips : ∀ sent key, key ∈ sent → dispatches key (step sent).2 = 0%nat;
  guarded_once : ∀ sent key, (dispatches key (step sent).2 ≤ 1)%nat;
  guarded_marks : ∀ sent key, (0 < dispatches key (step sent).2)%nat → key ∈ (step sent).1
}.

(** The whole log of a run, iteration after iteration. *)
Definition whole_log {M} (logs : list (list (log_entry M))) : list (log_entry M) :=
  concat logs.

(** How many dispatches the mail scheduler issues at one site: one when the
    window is open, the ledger lacks the key and somebody was selected. *)
Definition mail_count (now reminder_time : Z) (key : string) (selected : list student)
    (sent : gset string) : nat :=
  if Mail.due now reminder_time && negb (bool_decide (key ∈ sent))
  then match selected with [] => 0%nat | _ => 1%nat end
  else 0%nat.

(** ** The rows the mail scheduler reaches

    [send_reminders] looks at the rows of a table one after the other and
    stops at the first row on which [localize] raises.  What it does up to
    there is what the two loops do, without any exception, on the rows in
    front of that row. *)

(** The rows on which the body of a loop raises. *)
Definition class_raises {rt : Runtime} (row : class_row) : bool :=
  match strptime (cls_date row +:+ " " +:+ cls_time row) with
  | Some naive => match localize naive with Some _ => false | None => true end
  | None => false
  end.

Definition assignment_raises {rt : Runtime} (row : assignment_row) : bool :=
  match strptime (Mail.with_default_time (asg_due_date row)) with
  | Some naive => match localize naive with Some _ => false | None => true end
  | None => false
  end.

(** The rows in front of the first one that raises. *)
Fixpoint ahead {R} (raises : R → bool) (rows : list R) : list R :=
  match rows with
  | [] => []
  | row :: rows' => if raises row then [] else row :: ahead raises rows'
  end.

(** The bodies of the two loops as steps on the ledger. *)
Definition mail_class_step {rt : Runtime} (now : Z) (smtp : Mail.email → bool)
    (students_df : list student) (row : class_row) (sent : gset string)
    : gset string * list Mail.entry :=
  (Mail.process_class now smtp students_df row sent).1.

Definition mail_assignment_step {rt : Runtime} (now : Z) (smtp : Mail.email → bool)
    (students_df : list student) (row : assignment_row) (sent : gset string)
    : gset string * list Mail.entry :=
  (Mail.process_assignment now smtp students_df row sent).1.

(** The two loops, one after the other, over all rows of the tables. *)
Definition mail_rounds {rt : Runtime} (w : Mail.world) (sent : gset string)
    : gset string * list Mail.entry :=
  match Mail.students w, Mail.classes w, Mail.assignments w with
  | Some students_df, Some classes_df, Some assignments_df =>
      let '(sent1, log1) :=
        for_each (mail_class_step (Mail.now w) (Mail.smtp w) students_df) classes_df
                 sent in
      let '(sent2, log2) :=
        for_each (mail_assignment_step (Mail.now w) (Mail.smtp w) students_df)
                 assignments_df sent1 in
      (sent2, log1 ++ log2)
  | _, _, _ => (sent, [])
  end.

(** The world with the rows that [send_reminders] reaches in it. *)
Definition reached {rt : Runtime} (w : Mail.world) : Mail.world := {|
  Mail.now := Mail.now w;
  Mail.students := Mail.students w;
  Mail.classes := ahead class_raises <$> Mail.classes w;
  Mail.assignments :=
    (λ assignments_df,
       if existsb class_raises (default [] (Mail.classes w)) then []
       else ahead assignment_raises assignments_df) <$> Mail.assignments w;
  Mail.smtp := Mail.smtp w
|}.

(** Whether [send_reminders] runs to its end in a world. *)
Definition completes {rt : Runtime} (w : Mail.world) : bool :=
  match Mail.students w, Mail.classes w, Mail.assignments w with
  | Some _, Some classes_df, Some assignments_df =>
      negb (existsb class_raises classes_df) &&
      negb (existsb assignment_raises assignments_df)
  | _, _, _ => false
  end.

(** What the [except] of the main loop prints. *)
Definition closing {rt : Runtime} (w : Mail.world) : list Mail.entry :=
  if completes w then [] else [Warning "Error in reminder loop"].

(** ** The recipients in the words of the specification *)

(** Equal under case-insensitive comparison, the way the script compares:
    equal once both are lower-cased. *)
Definition same_but_case {rt : Runtime} (a b : string) : Prop :=
  str_lower a = str_lower b.

(** What is asked of a student to be written to about an event of the
    given course, batch, year and mode: course and batch equal the
    event's under case-insensitive comparison, the year equals the event's
    as it is, and the mode equals the event's mode without the white
    space around it under case-insensitive comparison. *)
Definition matches {rt : Runtime} (course batch_name : string) (year : pyval)
    (mode : string) (stu : student) : Prop :=
  same_but_case (stu_course stu) course ∧
  same_but_case (stu_batch_name stu) batch_name ∧
  stu_year stu = year ∧
  same_but_case (stu_mode stu) (PyStr.strip mode).

#[global] Instance pyval_eq_dec : EqDecision pyval.
Proof. solve_decision. Defined.

#[global] Instance matches_dec {rt : Runtime} course batch_name year mode stu :
  Decision (matches course batch_name year mode stu).
Proof. unfold matches, same_but_case. apply _. Defined.


(** ** Further notions used by the properties of the loops *)

(** Every key in the ledger after a step was in it before or was sent
    under by the step. *)
Definition accounted {M} (step : gset string → gset string * list (log_entry M)) : Prop :=
  ∀ sent key, key ∈ (step sent).1 → key ∈ sent ∨ (0 < dispatches key (step sent).2)%nat.

(** The reminders of a log, without the warnings. *)
Fixpoint reminders {M} (log : list (log_entry M)) : list (string * M) :=
  match log with
  | [] => []
  | Dispatch key payload :: log' => (key, payload) :: reminders log'
  | Warning _ :: log' => reminders log'
  end.

(** An iteration of the Discord notifier on which no query raises and the
    log file can be written. *)
Definition healthy (w : Discord.world) : Prop :=
  Discord.classes w ≠ None ∧ Discord.assignments w ≠ None ∧ Discord.disk_ok w = true.

(** What was handed to the transport, without what the transport answered:
    for the Discord notifier the key and the message of every send, for the
    mail scheduler the key and the mails of every reminder. *)
Definition discord_attempts (log : list Discord.entry) : list (string * string) :=
  List.map (λ r : string * (string * bool), (r.1, r.2.1)) (reminders log).

Definition mail_attempts (log : list Mail.entry) : list (string * list Mail.email) :=
  List.map (λ r : string * list (Mail.email * bool), (r.1, List.map fst r.2))
           (reminders log).

(** A string without line end, and a line as [readlines] hands it back: a
    string without line end, with or without a final line feed. *)
Definition no_line_end (s : string) : Prop :=
  PyStr.contains PyStr.LF s = false ∧ PyStr.contains PyStr.CR s = false.

Definition is_line (l : string) : Prop :=
  ∃ text, no_line_end text ∧ (l = text ∨ l = text +:+ String PyStr.LF "").

(** A step has nothing left to do on a ledger: it sends nothing and leaves
    the ledger as it is. *)
Definition settled {M} (step : gset string → gset string * list (log_entry M))
    (sent : gset string) : Prop :=
  (step sent).1 = sent ∧ reminders (step sent).2 = [].

(** A step is satisfied by its own work: on every ledger that holds what
    the step left, wherever it started, the step has nothing left to do. *)
Definition satisfied {M} (step : gset string → gset string * list (log_entry M)) : Prop :=
  ∀ sent sent', (step sent).1 ⊆ sent' → settled step sent'.

(** A class whose date is not a date, an assignment without due date, and
    an environment that holds all the Discord notifier asks for. *)
Definition undated_class : class_row := {|
  cls_course := "CS101";
  cls_batch_name := "A";
  cls_year := PyInt 2024;
  cls_session_name := "Lab";
  cls_date := "tomorrow";
  cls_time := "10:00";
  cls_mode := "Online"
|}.

Definition open_homework : assignment_row := {|
  asg_course := "CS101";
  asg_batch_name := "A";
  asg_year := PyInt 2024;
  asg_subject := "Essay";
  asg_due_date := "NaN";
  asg_mode := "Online"
|}.

Definition discord_env : gmap string string :=
  <["DISCORD_TOKEN" := "token"]>
    (<["DISCORD_CHANNEL_ID" := "42"]> (<["DB_PATH" := "reminders.db"]> ∅)).

(** A class on the first day of [datetime], where [localize] raises. *)
Definition ancient_class : class_row := {|
  cls_course := "CS101";
  cls_batch_name := "A";
  cls_year := PyInt 2024;
  cls_session_name := "Old";
  cls_date := "0001-01-01";
  cls_time := "10:00";
  cls_mode := "Online"
|}.

(** The world of the mail scenarios with a class table of its own. *)
Definition mail_world_of (now : Z) (classes_df : list class_row) (smtp : Mail.email → bool)
    : Mail.world := {|
  Mail.now := now;
  Mail.students := Some [alice];
  Mail.classes := Some classes_df;
  Mail.assignments := Some [];
  Mail.smtp := smtp
|}.
(** * Properties *)

(** ** Strings *)

Section StringFacts.

Lemma append_cons (c : ascii) (a b : string) :
  String c a +:+ b = String c (a +:+ b).
Proof. reflexivity. Qed.

Lemma append_nil_l (a : string) : "" +:+ a = a.
Proof. reflexivity. Qed.

Lemma append_nil_r (a : string) : a +:+ "" = a.
Proof. induction a as [|x a IH]; [reflexivity |]. now rewrite append_cons, IH. Qed.

Lemma append_assoc (a b c : string) : (a +:+ b) +:+ c = a +:+ (b +:+ c).
Proof.
  induction a as [|x a IH]; [reflexivity |].
  rewrite !append_cons. now rewrite IH.
Qed.

Lemma length_append (a b : string) :
  String.length (a +:+ b) = (String.length a + String.length b)%nat.
Proof.
  induction a as [|x a IH]; [reflexivity |].
  rewrite append_cons. simpl. now rewrite IH.
Qed.

Lemma append_cancel_r (a b c : string) : a +:+ c = b +:+ c → a = b.
Proof.
  revert b. induction a as [|x a IH]; intros [|y b] E.
  - reflexivity.
  - apply (f_equal String.length) in E.
    rewrite append_nil_l, append_cons in E. simpl in E.
    rewrite length_append in E. lia.
  - apply (f_equal String.length) in E.
    rewrite append_nil_l, append_cons in E. simpl in E.
    rewrite length_append in E. lia.
  - rewrite !append_cons in E. injection E as -> E. f_equal. now apply IH.
Qed.

Lemma contains_app (c : ascii) (a b : string) :
  PyStr.contains c (a +:+ b) = PyStr.contains c a || PyStr.contains c b.
Proof.
  induction a as [|x a IH]; [reflexivity |].
  rewrite append_cons. cbn [PyStr.contains]. now destruct (Ascii.eqb c x).
Qed.

(** [lstrip] takes one white-space character after the other. *)
Lemma lstrip_eq (s : string) :
  PyStr.lstrip s = match PyStr.after_space s with
                   | Some rest => PyStr.lstrip rest
                   | None => s
                   end.
Proof.
  destruct s as [|a [|b [|c s]]]; cbn [PyStr.lstrip PyStr.after_space];
    try reflexivity.
  - now destruct (PyStr.isspace_1 a).
  - destruct (PyStr.isspace_1 a); [reflexivity |]. now destruct (PyStr.isspace_2 a b).
  - destruct (PyStr.isspace_1 a); [reflexivity |].
    destruct (PyStr.isspace_2 a b); [reflexivity |]. now destruct (PyStr.isspace_3 a b c).
Qed.

(** White space is in front of the rest. *)
Lemma after_space_front (s rest : string) :
  PyStr.after_space s = Some rest →
  ∃ w, s = w +:+ rest ∧ w ≠ "" ∧ PyStr.after_space w = Some "".
Proof.
  destruct s as [|a s1]; [discriminate |]. cbn [PyStr.after_space].
  destruct (PyStr.isspace_1 a) eqn:H1.
  { intros [= <-]. exists (String a ""). cbn [PyStr.after_space]. rewrite H1.
    now repeat split. }
  destruct s1 as [|b s2]; [discriminate |].
  destruct (PyStr.isspace_2 a b) eqn:H2.
  { intros [= <-]. exists (String a (String b "")). cbn [PyStr.after_space].
    rewrite H1, H2. now repeat split. }
  destruct s2 as [|c s3]; [discriminate |].
  destruct (PyStr.isspace_3 a b c) eqn:H3; [| discriminate].
  intros [= <-]. exists (String a (String b (String c ""))). cbn [PyStr.after_space].
  rewrite H1, H2, H3. now repeat split.
Qed.

Lemma after_space_length (s rest : string) :
  PyStr.after_space s = Some rest → (String.length rest < String.length s)%nat.
Proof.
  intros H. destruct (after_space_front s rest H) as (w & -> & Hw & _).
  rewrite length_append. destruct w; [congruence | simpl; lia].
Qed.

(** Induction along [lstrip]. *)
Lemma lstrip_ind (P : string → Prop) :
  (∀ s, PyStr.after_space s = None → P s) →
  (∀ s rest, PyStr.after_space s = Some rest → P rest → P s) →
  ∀ s, P s.
Proof.
  intros Hstop Hstep s.
  remember (String.length s) as n eqn:Hn. revert s Hn.
  induction n as [n IH] using lt_wf_ind. intros s ->.
  destruct (PyStr.after_space s) as [rest|] eqn:E; [| now apply Hstop].
  apply (Hstep s rest E). apply (IH (String.length rest)); [| reflexivity].
  now apply after_space_length.
Qed.

(** What [after_space] finds at the front of a string it finds with more
    behind it. *)
Lemma after_space_app (s rest t : string) :
  PyStr.after_space s = Some rest → PyStr.after_space (s +:+ t) = Some (rest +:+ t).
Proof.
  destruct s as [|a s1]; [discriminate |]. rewrite append_cons.
  cbn [PyStr.after_space]. destruct (PyStr.isspace_1 a); [now intros [= <-] |].
  destruct s1 as [|b s2]; [discriminate |]. rewrite append_cons.
  destruct (PyStr.isspace_2 a b); [now intros [= <-] |].
  destruct s2 as [|c s3]; [discriminate |]. rewrite append_cons.
  destruct (PyStr.isspace_3 a b c); [now intros [= <-] | discriminate].
Qed.

(** A one-byte white-space character is not the second or third byte of a
    longer one. *)
Lemma isspace_1_alone (c : ascii) :
  PyStr.isspace_1 c = true →
  (∀ a, PyStr.isspace_2 a c = false) ∧
  (∀ a b, PyStr.isspace_3 a b c = false) ∧
  (∀ a b, PyStr.isspace_3 a c b = false).
Proof.
  unfold PyStr.isspace_1, PyStr.isspace_2, PyStr.isspace_3.
  generalize (nat_of_ascii c). intros n Hn.
  assert (Hle : (n ≤ 32)%nat).
  { apply orb_true_iff in Hn as [Hn | Hn]; apply andb_true_iff in Hn as [_ Hn];
      apply Nat.leb_le in Hn; lia. }
  assert (E : ∀ k, (32 < k)%nat → (n =? k)%nat = false)
    by (intros k Hk; apply Nat.eqb_neq; lia).
  assert (L : ∀ k, (32 < k)%nat → (k <=? n)%nat = false)
    by (intros k Hk; apply Nat.leb_gt; lia).
  repeat split; intros; rewrite ?E, ?L by lia;
    rewrite ?andb_false_r, ?andb_false_l, ?orb_false_r; reflexivity.
Qed.

Lemma after_space_app_none (s : string) (c : ascii) :
  s ≠ "" → PyStr.isspace_1 c = true → PyStr.after_space s = None →
  PyStr.after_space (s +:+ String c "") = None.
Proof.
  intros Hne Hc. destruct (isspace_1_alone c Hc) as (H2 & H3 & H3').
  destruct s as [|a s1]; [congruence |]. rewrite append_cons.
  cbn [PyStr.after_space]. destruct (PyStr.isspace_1 a); [discriminate |].
  destruct s1 as [|b s2].
  { rewrite append_nil_l. now rewrite H2. }
  rewrite append_cons. destruct (PyStr.isspace_2 a b); [discriminate |].
  destruct s2 as [|d s3].
  { rewrite append_nil_l. now rewrite H3. }
  rewrite append_cons. now destruct (PyStr.isspace_3 a b d).
Qed.

Lemma lstrip_length (s : string) :
  (String.length (PyStr.lstrip s) ≤ String.length s)%nat.
Proof.
  induction s as [s E | s rest E IH] using lstrip_ind; rewrite lstrip_eq, E; [lia |].
  apply after_space_length in E. lia.
Qed.

(** What [lstrip] returns does not begin with white space and is the end
    of what it was given. *)
Lemma lstrip_stops (s : string) : PyStr.after_space (PyStr.lstrip s) = None.
Proof.
  induction s as [s E | s rest E IH] using lstrip_ind; rewrite lstrip_eq, E; assumption.
Qed.

Lemma lstrip_end (s : string) : ∃ w, s = w +:+ PyStr.lstrip s.
Proof.
  induction s as [s E | s rest E [w IH]] using lstrip_ind; rewrite lstrip_eq, E.
  - now exists "".
  - destruct (after_space_front s rest E) as (v & -> & _).
    exists (v +:+ w). now rewrite append_assoc, <- IH.
Qed.

Lemma lstrip_fixed (s : string) : PyStr.after_space s = None → PyStr.lstrip s = s.
Proof. intros E. now rewrite lstrip_eq, E. Qed.

Lemma rstrip_length (s : string) :
  (String.length (PyStr.rstrip s) ≤ String.length s)%nat.
Proof.
  induction s as [|c s IH]; [reflexivity |].
  cbn [PyStr.rstrip]. destruct (PyStr.blank (String c s)); simpl; lia.
Qed.

(** What [rstrip] returns is the front of what it was given, and what it
    took away is nothing but white space. *)
Lemma rstrip_front (s : string) :
  ∃ w, s = PyStr.rstrip s +:+ w ∧ PyStr.blank w = true.
Proof.
  induction s as [|c s (w & IH & Hw)]; [now exists "" |].
  cbn [PyStr.rstrip]. destruct (PyStr.blank (String c s)) eqn:B.
  - now exists (String c s).
  - exists w. split; [| exact Hw]. rewrite append_cons. now rewrite <- IH.
Qed.

Lemma blank_app (u t : string) :
  PyStr.blank u = true → PyStr.blank t = true → PyStr.blank (u +:+ t) = true.
Proof.
  unfold PyStr.blank. intros Hu Ht.
  induction u as [u E | u rest E IH] using lstrip_ind.
  - rewrite lstrip_fixed in Hu by exact E. destruct u; [exact Ht | discriminate].
  - rewrite lstrip_eq, E in Hu. rewrite lstrip_eq, (after_space_app u rest t E).
    now apply IH.
Qed.

Lemma lstrip_app_space (s : string) (c : ascii) :
  PyStr.isspace_1 c = true →
  PyStr.lstrip (s +:+ String c "")
  = match PyStr.lstrip s with
    | "" => ""
    | t => t +:+ String c ""
    end.
Proof.
  intros Hc. induction s as [s E | s rest E IH] using lstrip_ind.
  - rewrite (lstrip_fixed s E). destruct s as [|a s].
    + rewrite append_nil_l. cbn [PyStr.lstrip]. now rewrite Hc.
    + apply lstrip_fixed. now apply after_space_app_none.
  - rewrite (lstrip_eq s), E, (lstrip_eq (s +:+ _)), (after_space_app s rest _ E).
    exact IH.
Qed.

(** One-byte white space at the end is what [rstrip] removes. *)
Lemma rstrip_app_space (s : string) (c : ascii) :
  PyStr.isspace_1 c = true →
  PyStr.rstrip (s +:+ String c "") = PyStr.rstrip s.
Proof.
  intros Hc. induction s as [|d s IH].
  - rewrite append_nil_l. cbn [PyStr.rstrip]. unfold PyStr.blank.
    cbn [PyStr.lstrip]. now rewrite Hc.
  - rewrite append_cons. cbn [PyStr.rstrip]. rewrite <- append_cons.
    unfold PyStr.blank. rewrite (lstrip_app_space (String d s) c Hc).
    destruct (PyStr.lstrip (String d s)) as [|e t]; [reflexivity |].
    rewrite append_cons. now rewrite IH.
Qed.

(** White space at the end of a string does not change what [strip]
    returns. *)
Lemma strip_app_space (s : string) (c : ascii) :
  PyStr.isspace_1 c = true → PyStr.strip (s +:+ String c "") = PyStr.strip s.
Proof.
  intros Hc. unfold PyStr.strip. rewrite (lstrip_app_space s c Hc).
  destruct (PyStr.lstrip s) as [|d t]; [reflexivity |].
  now apply rstrip_app_space.
Qed.

Lemma rstrip_idem (s : string) : PyStr.rstrip (PyStr.rstrip s) = PyStr.rstrip s.
Proof.
  induction s as [|c s IH]; [reflexivity |].
  cbn [PyStr.rstrip]. destruct (PyStr.blank (String c s)) eqn:B; [reflexivity |].
  cbn [PyStr.rstrip]. rewrite IH.
  destruct (PyStr.blank (String c (PyStr.rstrip s))) eqn:B'; [| reflexivity].
  destruct (rstrip_front s) as (w & Hs & Hw).
  rewrite Hs, <- append_cons, (blank_app _ w B' Hw) in B. discriminate.
Qed.

(** [strip] does nothing to what it returned. *)
Lemma strip_idem (s : string) : PyStr.strip (PyStr.strip s) = PyStr.strip s.
Proof.
  unfold PyStr.strip.
  assert (E : PyStr.after_space (PyStr.rstrip (PyStr.lstrip s)) = None).
  { destruct (PyStr.after_space (PyStr.rstrip (PyStr.lstrip s))) as [rest|] eqn:E;
      [| reflexivity].
    destruct (rstrip_front (PyStr.lstrip s)) as (w & Hs & _).
    pose proof (after_space_app _ _ w E) as E'. rewrite <- Hs, lstrip_stops in E'.
    discriminate. }
  rewrite (lstrip_fixed _ E). apply rstrip_idem.
Qed.

Lemma contains_lstrip (c : ascii) (s : string) :
  PyStr.contains c s = false → PyStr.contains c (PyStr.lstrip s) = false.
Proof.
  destruct (lstrip_end s) as [w E]. rewrite E at 1. rewrite contains_app.
  intros H. now apply orb_false_iff in H as [_ H].
Qed.

Lemma contains_rstrip (c : ascii) (s : string) :
  PyStr.contains c s = false → PyStr.contains c (PyStr.rstrip s) = false.
Proof.
  destruct (rstrip_front s) as (w & E & _). rewrite E at 1. rewrite contains_app.
  intros H. now apply orb_false_iff in H as [H _].
Qed.

Lemma no_line_end_strip (s : string) : no_line_end s → no_line_end (PyStr.strip s).
Proof.
  intros [Hlf Hcr]. unfold PyStr.strip.
  split; now apply contains_rstrip, contains_lstrip.
Qed.

(** The line that [save_sent_log] writes for a key, stripped, is the key. *)
Lemma strip_line (key : string) :
  PyStr.strip key = key → PyStr.strip (key +:+ String PyStr.LF "") = key.
Proof. intros E. now rewrite strip_app_space. Qed.

(** A key without line end, written as a line, is read back as that line. *)
Lemma readlines_line (key rest : string) :
  PyStr.contains PyStr.LF key = false →
  PyStr.contains PyStr.CR key = false →
  PyStr.readlines ((key +:+ String PyStr.LF "") +:+ rest)
  = (key +:+ String PyStr.LF "") :: PyStr.readlines rest.
Proof.
  induction key as [|c key IH]; intros Hlf Hcr.
  - reflexivity.
  - cbn [PyStr.contains] in Hlf, Hcr.
    destruct (Ascii.eqb PyStr.LF c) eqn:E1; [discriminate |].
    destruct (Ascii.eqb PyStr.CR c) eqn:E2; [discriminate |].
    rewrite !append_cons. cbn [PyStr.readlines].
    rewrite (Ascii.eqb_sym c PyStr.LF), E1, (Ascii.eqb_sym c PyStr.CR), E2.
    rewrite <- append_cons. now rewrite (IH Hlf Hcr).
Qed.

Lemma readlines_write_lines (keys : list string) :
  Forall (λ key, PyStr.contains PyStr.LF key = false ∧
                 PyStr.contains PyStr.CR key = false) keys →
  PyStr.readlines (SentLog.write_lines keys)
  = (λ key, key +:+ String PyStr.LF "") <$> keys.
Proof.
  induction 1 as [|key keys [Hlf Hcr] _ IH]; [reflexivity |].
  cbn [SentLog.write_lines fmap list_fmap].
  rewrite readlines_line by assumption. now rewrite IH.
Qed.

(** All three line ends end a line. *)
Example readlines_universal :
  PyStr.readlines
    (String "a" (String PyStr.CR (String PyStr.LF
       (String "b" (String PyStr.CR (String "c" (String PyStr.LF "d")))))))
  = [String "a" (String PyStr.LF ""); String "b" (String PyStr.LF "");
     String "c" (String PyStr.LF ""); "d"].
Proof. reflexivity. Qed.

Example strip_both_ends :
  PyStr.strip (String PyStr.LF " Online  ") = "Online".
Proof. reflexivity. Qed.

(** A no-break space (U+00A0) and an ideographic space (U+3000) are white
    space; the second byte of an a with grave accent, which is the second
    byte of the no-break space too, stays. *)
Example strip_wide_space :
  PyStr.strip ("Online" +:+ String "194" (String "160" "") +:+
               String "227" (String "128" (String "128" ""))) = "Online" ∧
  PyStr.strip (String "195" (String "160" " ")) = String "195" (String "160" "") ∧
  PyStr.len (String "195" (String "160" " ")) = 2%nat.
Proof. repeat split. Qed.

End StringFacts.

(** ** The ledger file *)

Section LedgerFile.

(** Keys written in any order are read back as the set of these keys. *)
Lemma sent_log_read_back (keys : list string) :
  Forall (λ key, key ≠ "" ∧ PyStr.contains PyStr.LF key = false ∧
                 PyStr.contains PyStr.CR key = false ∧ PyStr.strip key = key) keys →
  SentLog.load_sent_log (Some (SentLog.write_lines keys)) = list_to_set keys.
Proof.
  intros Hkeys. unfold SentLog.load_sent_log.
  rewrite readlines_write_lines.
  2:{ eapply Forall_impl; [exact Hkeys |]. intros key (_ & ? & ? & _). now split. }
  rewrite <- list_fmap_compose.
  rewrite (Forall_fmap_ext_1 _ id keys); [now rewrite list_fmap_id |].
  eapply Forall_impl; [exact Hkeys |]. intros key (_ & _ & _ & ?).
  simpl. now apply strip_line.
Qed.

(** C10 (as amended).  A set of keys, each a non-empty string without
    line feed and without carriage return that [strip] leaves as it is,
    is read back by [load_sent_log] exactly as [save_sent_log] wrote it,
    in whatever order the set was iterated for writing. *)
Theorem sent_log_roundtrip (sent_set : gset string) :
  (∀ key, key ∈ sent_set →
     key ≠ "" ∧ PyStr.contains PyStr.LF key = false ∧
     PyStr.contains PyStr.CR key = false ∧ PyStr.strip key = key) →
  SentLog.load_sent_log (SentLog.save_sent_log sent_set) = sent_set ∧
  ∀ order, order ≡ₚ elements sent_set →
    SentLog.load_sent_log (Some (SentLog.write_lines order)) = sent_set.
Proof.
  intros Hkeys.
  assert (Hany : ∀ order, order ≡ₚ elements sent_set →
            SentLog.load_sent_log (Some (SentLog.write_lines order)) = sent_set).
  { intros order Hperm. rewrite sent_log_read_back.
    - rewrite Hperm. apply list_to_set_elements_L.
    - apply Forall_forall. intros key Hin. apply Hkeys.
      apply elem_of_elements. now rewrite <- Hperm. }
  split; [| exact Hany]. now apply Hany.
Qed.

Lemma sent_log_roundtrip_witness :
  SentLog.load_sent_log
    (SentLog.save_sent_log {[ "class-CS101-A-Intro-2024-01-02-24hr" ]})
  = {[ "class-CS101-A-Intro-2024-01-02-24hr" ]}.
Proof.
  refine (proj1 (sent_log_roundtrip {[ "class-CS101-A-Intro-2024-01-02-24hr" ]} _)).
  intros key Hin. apply elem_of_singleton in Hin. subst key.
  repeat split; [discriminate | reflexivity ..].
Defined.

(** A key with a carriage return inside is non-empty, has no line feed
    and is its own stripped form, yet it comes back as two keys: the file
    is read with universal newlines. *)
Lemma sent_log_carriage_return :
  cr_key ≠ "" ∧ PyStr.contains PyStr.LF cr_key = false ∧
  PyStr.strip cr_key = cr_key ∧
  SentLog.load_sent_log (SentLog.save_sent_log {[ cr_key ]}) = {[ "a"; "b" ]} ∧
  SentLog.load_sent_log (SentLog.save_sent_log {[ cr_key ]}) ≠ {[ cr_key ]}.
Proof.
  split; [discriminate |]. split; [reflexivity |]. split; [reflexivity |].
  assert (E : SentLog.load_sent_log (SentLog.save_sent_log {[ cr_key ]}) = {[ "a"; "b" ]})
    by (vm_compute; reflexivity).
  split; [exact E |]. rewrite E. intros Heq.
  assert (Hin : "a" ∈ ({[ cr_key ]} : gset string)) by (rewrite <- Heq; set_solver).
  apply elem_of_singleton in Hin. discriminate.
Qed.

(** A key that ends with a no-break space is not its own stripped form:
    it comes back without the space. *)
Example sent_log_no_break_space :
  PyStr.strip (String "k" (String "194" (String "160" ""))) = "k" ∧
  SentLog.load_sent_log
    (SentLog.save_sent_log {[ String "k" (String "194" (String "160" "")) ]})
  = {[ "k" ]}.
Proof. split; vm_compute; reflexivity. Qed.

End LedgerFile.

(** ** The mail scheduler on the rows it reaches *)

Section Reached.
Context {rt : Runtime}.

Lemma for_each_try_ahead {R M}
    (body : R → gset string → gset string * list (log_entry M) * bool)
    (raises : R → bool) (rows : list R) (sent : gset string) :
  (∀ row s, raises row = true → body row s = (s, [], false)) →
  (∀ row s, raises row = false → (body row s).2 = true) →
  for_each_try body rows sent
  = (for_each (λ row s, (body row s).1) (ahead raises rows) sent,
     negb (existsb raises rows)).
Proof.
  intros Hraise Hgo. revert sent. induction rows as [|row rows IH]; intros sent.
  - reflexivity.
  - cbn [for_each_try ahead existsb]. destruct (raises row) eqn:E.
    + now rewrite (Hraise row sent E).
    + pose proof (Hgo row sent E) as Hok. cbn [for_each].
      destruct (body row sent) as [[sent1 log1] ok]. simpl in Hok. subst ok.
      rewrite IH. simpl.
      now destruct (for_each _ (ahead raises rows) sent1) as [sent2 log2].
Qed.

Lemma mail_class_raises now smtp students_df row sent :
  (class_raises row = true →
   Mail.process_class now smtp students_df row sent = (sent, [], false)) ∧
  (class_raises row = false →
   (Mail.process_class now smtp students_df row sent).2 = true).
Proof.
  unfold class_raises, Mail.process_class.
  destruct (strptime _) as [naive|]; [destruct (localize naive) |];
    split; intros; (reflexivity || discriminate).
Qed.

Lemma mail_assignment_raises now smtp students_df row sent :
  (assignment_raises row = true →
   Mail.process_assignment now smtp students_df row sent = (sent, [], false)) ∧
  (assignment_raises row = false →
   (Mail.process_assignment now smtp students_df row sent).2 = true).
Proof.
  unfold assignment_raises, Mail.process_assignment.
  destruct (strptime _) as [naive|]; [destruct (localize naive) |];
    split; intros; (reflexivity || discriminate).
Qed.

(** An iteration is the two loops over the rows reached, and the line of
    the [except] behind them when an exception ended the call. *)
Lemma mail_iteration_rounds (w : Mail.world) (sent : gset string) :
  Mail.iteration w sent
  = ((mail_rounds (reached w) sent).1, (mail_rounds (reached w) sent).2 ++ closing w).
Proof.
  unfold Mail.iteration, Mail.send_reminders, mail_rounds, reached, closing, completes,
    mail_class_step, mail_assignment_step.
  cbn [Mail.now Mail.students Mail.classes Mail.assignments Mail.smtp].
  destruct (Mail.students w) as [students_df|]; [| reflexivity].
  destruct (Mail.classes w) as [classes_df|]; [| reflexivity].
  destruct (Mail.assignments w) as [assignments_df|]; [| reflexivity].
  cbn [fmap option_fmap option_map default from_option id].
  rewrite (for_each_try_ahead _ class_raises classes_df sent
             (λ row s, proj1 (mail_class_raises _ _ _ row s))
             (λ row s, proj2 (mail_class_raises _ _ _ row s))).
  destruct (for_each _ (ahead class_raises classes_df) sent) as [sent1 log1].
  destruct (existsb class_raises classes_df); cbn [negb andb for_each].
  - simpl. now rewrite app_nil_r.
  - rewrite (for_each_try_ahead _ assignment_raises assignments_df sent1
               (λ row s, proj1 (mail_assignment_raises _ _ _ row s))
               (λ row s, proj2 (mail_assignment_raises _ _ _ row s))).
    destruct (for_each _ (ahead assignment_raises assignments_df) sent1)
      as [sent2 log2].
    destruct (existsb assignment_raises assignments_df); simpl;
      [reflexivity | now rewrite app_nil_r].
Qed.

Lemma ahead_sublist {R} (raises : R → bool) (rows : list R) (row : R) :
  row ∈ ahead raises rows → row ∈ rows ∧ raises row = false.
Proof.
  induction rows as [|r rows IH]; cbn [ahead].
  - intros Hin. apply elem_of_nil in Hin. destruct Hin.
  - destruct (raises r) eqn:E.
    + intros Hin. apply elem_of_nil in Hin. destruct Hin.
    + intros Hin. apply elem_of_cons in Hin as [-> | Hin].
      * split; [apply elem_of_cons; now left | exact E].
      * destruct (IH Hin) as [? ?]. split; [apply elem_of_cons; now right | assumption].
Qed.

Lemma ahead_all {R} (raises : R → bool) (rows : list R) :
  existsb raises rows = false → ahead raises rows = rows.
Proof.
  induction rows as [|r rows IH]; [reflexivity |]. cbn [existsb ahead].
  destruct (raises r); [discriminate |]. intros E. now rewrite IH.
Qed.

Lemma ahead_app {R} (raises : R → bool) (rows1 rest : list R) :
  Forall (λ row, raises row = false) rows1 →
  ahead raises (rows1 ++ rest) = rows1 ++ ahead raises rest.
Proof.
  induction 1 as [|row rows1 Hrow _ IH]; [reflexivity |].
  cbn [app ahead]. now rewrite Hrow, IH.
Qed.

Lemma existsb_none {R} (raises : R → bool) (rows : list R) :
  Forall (λ row, raises row = false) rows → existsb raises rows = false.
Proof.
  induction 1 as [|row rows Hrow _ IH]; [reflexivity |].
  cbn [existsb]. now rewrite Hrow, IH.
Qed.

(** The tables of the world reached. *)
Lemma reached_tables (w : Mail.world) students_df classes_df assignments_df :
  Mail.students w = Some students_df → Mail.classes w = Some classes_df →
  Mail.assignments w = Some assignments_df →
  Mail.students (reached w) = Some students_df ∧
  Mail.classes (reached w) = Some (ahead class_raises classes_df) ∧
  Mail.assignments (reached w)
  = Some (if existsb class_raises classes_df then []
          else ahead assignment_raises assignments_df).
Proof.
  intros Hs Hc Ha. unfold reached.
  cbn [Mail.students Mail.classes Mail.assignments]. now rewrite Hs, Hc, Ha.
Qed.

(** The rows reached are rows of the tables. *)
Lemma reached_classes (w : Mail.world) (rows' : list class_row) :
  Mail.classes (reached w) = Some rows' →
  ∃ rows, Mail.classes w = Some rows ∧ ∀ row, row ∈ rows' → row ∈ rows.
Proof.
  unfold reached. cbn [Mail.classes]. destruct (Mail.classes w) as [rows|];
    [| discriminate].
  intros [= <-]. exists rows. split; [reflexivity |].
  intros row Hin. now apply ahead_sublist in Hin as [Hin _].
Qed.

Lemma reached_assignments (w : Mail.world) (rows' : list assignment_row) :
  Mail.assignments (reached w) = Some rows' →
  ∃ rows, Mail.assignments w = Some rows ∧ ∀ row, row ∈ rows' → row ∈ rows.
Proof.
  unfold reached. cbn [Mail.assignments]. destruct (Mail.assignments w) as [rows|];
    [| discriminate].
  intros [= <-]. exists rows. split; [reflexivity |].
  intros row Hin. destruct (existsb _ _).
  - apply elem_of_nil in Hin. destruct Hin.
  - now apply ahead_sublist in Hin as [Hin _].
Qed.

(** No reminder is in what the [except] prints. *)
Lemma closing_silent (w : Mail.world) (key : string) (mails : list (Mail.email * bool)) :
  Dispatch key mails ∉ closing w.
Proof.
  unfold closing. destruct (completes w); intros Hin.
  - apply elem_of_nil in Hin. destruct Hin.
  - apply list_elem_of_singleton in Hin. discriminate.
Qed.

Lemma closing_dispatches (w : Mail.world) (key : string) :
  dispatches key (closing w) = 0%nat.
Proof. unfold closing. now destruct (completes w). Qed.

End Reached.

(** ** The ledger discipline, from one dispatch site to the whole loop *)

Section Discipline.
Context {M : Type}.
Implicit Types (step : gset string → gset string * list (log_entry M)).

Lemma dispatches_app (key : string) (l1 l2 : list (log_entry M)) :
  dispatches key (l1 ++ l2) = (dispatches key l1 + dispatches key l2)%nat.
Proof.
  induction l1 as [|[k p|t] l1 IH]; simpl; [reflexivity | | exact IH].
  rewrite IH. lia.
Qed.

Lemma dispatches_elem (key : string) (p : M) (log : list (log_entry M)) :
  Dispatch key p ∈ log → (0 < dispatches key log)%nat.
Proof.
  induction log as [|e log IH]; intros Hin.
  - apply elem_of_nil in Hin. destruct Hin.
  - apply elem_of_cons in Hin as [<- | Hin].
    + simpl. rewrite bool_decide_eq_true_2 by reflexivity. lia.
    + specialize (IH Hin). destruct e; simpl; lia.
Qed.

(** A step that sends nothing and leaves the ledger alone. *)
Lemma guarded_silent (log : list (log_entry M)) :
  (∀ key, dispatches key log = 0%nat) →
  guarded (λ sent, (sent, log)).
Proof.
  intros Hlog. split; simpl; intros.
  - reflexivity.
  - apply Hlog.
  - rewrite Hlog. lia.
  - rewrite Hlog in *. lia.
Qed.

Lemma guarded_quiet (log : gset string → list (log_entry M)) :
  (∀ sent key, dispatches key (log sent) = 0%nat) →
  guarded (λ sent, (sent, log sent)).
Proof.
  intros Hlog. split; simpl; intros.
  - reflexivity.
  - apply Hlog.
  - rewrite Hlog. lia.
  - rewrite Hlog in *. lia.
Qed.

(** The shape of every dispatch site: when the condition holds and the
    ledger lacks the key, send once and add the key; otherwise go on. *)
Lemma guarded_unsent (k : string) (go : bool) (p : M) step :
  guarded step →
  guarded (λ sent,
    if go && negb (bool_decide (k ∈ sent))
    then ({[k]} ∪ sent, [Dispatch k p])
    else step sent).
Proof.
  intros [G S O Mk]. split; intros sent; [| intros key ..].
  - destruct (go && negb (bool_decide (k ∈ sent))); [set_solver | apply G].
  - intros Hin. destruct go; simpl; [| now apply S].
    case_bool_decide as Hk; simpl; [now apply S |].
    rewrite bool_decide_eq_false_2; [reflexivity | congruence].
  - destruct (go && negb (bool_decide (k ∈ sent))); [| apply O].
    simpl. case_bool_decide; lia.
  - destruct (go && negb (bool_decide (k ∈ sent))); [| apply Mk].
    simpl. case_bool_decide; [subst; set_solver | lia].
Qed.

(** Two steps in a row; the second may depend on what the first one met
    (the file it left, whether it raised), but keeps the discipline
    whatever that is. *)
Lemma guarded_chain {A} step1 (met : gset string → A)
    (step2 : A → gset string → gset string * list (log_entry M)) :
  guarded step1 → (∀ a, guarded (step2 a)) →
  guarded (λ sent,
    let '(sent1, log1) := step1 sent in
    let '(sent2, log2) := step2 (met sent) sent1 in
    (sent2, log1 ++ log2)).
Proof.
  intros [G1 S1 O1 M1] H2.
  assert (Hshape : ∀ sent, ∃ sent1 log1 sent2 log2,
             step1 sent = (sent1, log1) ∧ step2 (met sent) sent1 = (sent2, log2)).
  { intros sent. destruct (step1 sent) as [sent1 log1] eqn:E1.
    destruct (step2 (met sent) sent1) as [sent2 log2] eqn:E2. eauto 6. }
  split; intros sent; [| intros key ..];
    destruct (H2 (met sent)) as [G2 S2 O2 M2];
    destruct (Hshape sent) as (sent1 & log1 & sent2 & log2 & E1 & E2);
    rewrite E1, E2; simpl;
    pose proof (G1 sent) as G1'; pose proof (G2 sent1) as G2';
    rewrite ?E1, ?E2 in *; simpl in *.
  - set_solver.
  - intros Hin. rewrite dispatches_app.
    pose proof (S1 sent key Hin) as S1'. rewrite E1 in S1'. simpl in S1'.
    pose proof (S2 sent1 key) as S2'. rewrite E2 in S2'. simpl in S2'.
    rewrite S1', S2'; [reflexivity | set_solver].
  - rewrite dispatches_app.
    pose proof (O1 sent key) as O1'. rewrite E1 in O1'. simpl in O1'.
    pose proof (O2 sent1 key) as O2'. rewrite E2 in O2'. simpl in O2'.
    pose proof (M1 sent key) as M1'. rewrite E1 in M1'. simpl in M1'.
    pose proof (S2 sent1 key) as S2'. rewrite E2 in S2'. simpl in S2'.
    destruct (dispatches key log1) eqn:D1; [simpl; lia |].
    rewrite S2'; [lia |]. apply M1'. lia.
  - rewrite dispatches_app. intros Hpos.
    pose proof (M1 sent key) as M1'. rewrite E1 in M1'. simpl in M1'.
    pose proof (M2 sent1 key) as M2'. rewrite E2 in M2'. simpl in M2'.
    destruct (dispatches key log1) eqn:D1.
    + apply M2'. simpl in Hpos. lia.
    + apply G2', M1'. lia.
Qed.

Lemma guarded_then step1 step2 :
  guarded step1 → guarded step2 →
  guarded (λ sent,
    let '(sent1, log1) := step1 sent in
    let '(sent2, log2) := step2 sent1 in
    (sent2, log1 ++ log2)).
Proof.
  intros H1 H2. apply (guarded_chain step1 (λ _, tt) (λ _, step2) H1). now intros _.
Qed.

Lemma guarded_ext step1 step2 :
  (∀ sent, step1 sent = step2 sent) → guarded step1 → guarded step2.
Proof.
  intros E [G S O Mk]. split.
  - intros sent. rewrite <- E. apply G.
  - intros sent key Hin. rewrite <- E. now apply S.
  - intros sent key. rewrite <- E. apply O.
  - intros sent key Hpos. rewrite <- E in *. now apply Mk.
Qed.

(** A loop over rows whose body keeps the discipline keeps it. *)
Lemma guarded_for_each {R} (body : R → gset string → gset string * list (log_entry M))
    (rows : list R) :
  (∀ row, guarded (body row)) → guarded (for_each body rows).
Proof.
  intros Hbody. induction rows as [|row rows IH].
  - simpl. apply guarded_silent. reflexivity.
  - simpl. apply (guarded_then _ _ (Hbody row) IH).
Qed.

End Discipline.

(** ** Every dispatch site of both scripts keeps the discipline *)

Section Sites.
Context {rt : Runtime}.

Lemma discord_remind_guarded now channel target k24 k1 m24 m1 :
  guarded (Discord.remind now channel target k24 k1 m24 m1).
Proof.
  unfold Discord.remind, Discord.send_reminder.
  apply guarded_unsent, guarded_unsent, guarded_silent. reflexivity.
Qed.

Lemma discord_process_class_guarded now channel row :
  guarded (Discord.process_class now channel row).
Proof.
  unfold Discord.process_class.
  destruct (strptime _); [apply discord_remind_guarded |].
  apply guarded_silent. reflexivity.
Qed.

Lemma discord_process_assignment_guarded now channel row :
  guarded (Discord.process_assignment now channel row).
Proof.
  unfold Discord.process_assignment.
  destruct (Discord.no_due_date _); [apply guarded_silent; reflexivity |].
  destruct (strptime _); [apply discord_remind_guarded |].
  apply guarded_silent. reflexivity.
Qed.

(** One iteration of the Discord loop, on the ledger in memory. *)
Lemma discord_tick_guarded (w : Discord.world) (f : SentLog.file) :
  guarded (λ sent,
    let r := Discord.tick w {| Discord.sent_reminders := sent; Discord.sent_log := f |} in
    (Discord.sent_reminders r.1.1, r.1.2)).
Proof.
  unfold Discord.tick. destruct (Discord.classes w) as [df_classes|].
  2:{ simpl. apply guarded_silent. reflexivity. }
  destruct (Discord.assignments w) as [df_assignments|].
  - eapply guarded_ext.
    2:{ apply (guarded_then
                 (for_each (Discord.process_class (Discord.now w) (Discord.channel w))
                           df_classes)
                 (for_each (Discord.process_assignment (Discord.now w) (Discord.channel w))
                           df_assignments));
        apply guarded_for_each; intros row;
        [apply discord_process_class_guarded | apply discord_process_assignment_guarded]. }
    intros sent. simpl.
    destruct (for_each _ df_classes sent) as [sent1 log1].
    destruct (for_each _ df_assignments sent1) as [sent2 log2].
    now destruct (Discord.disk_ok w).
  - eapply guarded_ext.
    2:{ apply (guarded_for_each
                 (Discord.process_class (Discord.now w) (Discord.channel w)) df_classes).
        intros row. apply discord_process_class_guarded. }
    intros sent. simpl. now destruct (for_each _ df_classes sent) as [sent1 log1].
Qed.

(** The Discord loop over any number of iterations. *)
Lemma discord_loop_guarded (ws : list Discord.world) (f : SentLog.file) :
  guarded (λ sent,
    let r := Discord.reminder_loop ws
               {| Discord.sent_reminders := sent; Discord.sent_log := f |} in
    (Discord.sent_reminders r.1.1, whole_log r.1.2)).
Proof.
  revert f. induction ws as [|w ws IH]; intros f.
  - simpl. apply guarded_silent. reflexivity.
  - eapply guarded_ext.
    2:{ apply (guarded_chain _
                 (λ sent, Discord.tick w
                    {| Discord.sent_reminders := sent; Discord.sent_log := f |})
                 (λ met sent1,
                    if met.2
                    then let r := Discord.reminder_loop ws
                                    {| Discord.sent_reminders := sent1;
                                       Discord.sent_log := Discord.sent_log met.1.1 |} in
                         (Discord.sent_reminders r.1.1, whole_log r.1.2)
                    else (sent1, []))
                 (discord_tick_guarded w f)).
        intros [[st1 log] alive]. simpl. destruct alive; [apply IH |].
        apply guarded_silent. reflexivity. }
    intros sent. cbn [Discord.reminder_loop].
    destruct (Discord.tick w _) as [[[sent1 f1] log] alive]. simpl.
    destruct alive; simpl.
    + destruct (Discord.reminder_loop ws _) as [[st2 logs] alive']. simpl.
      reflexivity.
    + now rewrite app_nil_r.
Qed.

Lemma mail_remind_guarded now smtp students_df course batch_name year mode
    reminder_time key subject text :
  guarded (Mail.remind now smtp students_df course batch_name year mode
             reminder_time key subject text).
Proof.
  unfold Mail.remind.
  destruct (Mail.recipients students_df course batch_name year mode) as [|stu stus].
  - eapply guarded_ext; [| apply (guarded_quiet (λ sent,
      if Mail.due now reminder_time && negb (bool_decide (key ∈ sent))
      then [Warning ("No students found for " +:+ course +:+ " " +:+ batch_name +:+
                     " " +:+ py_format year +:+ " (" +:+ mode +:+ ")")]
      else []))].
    + intros sent. simpl. now destruct (_ && _).
    + intros sent k. now destruct (_ && _).
  - apply guarded_unsent, guarded_silent. reflexivity.
Qed.

Lemma mail_process_class_guarded now smtp students_df row :
  guarded (mail_class_step now smtp students_df row).
Proof.
  unfold mail_class_step, Mail.process_class.
  destruct (strptime _) as [naive|]; [| apply guarded_silent; reflexivity].
  destruct (localize naive); [| apply guarded_silent; reflexivity].
  apply (guarded_for_each (Mail.class_reminder now smtp students_df row _)).
  intros hours_before. apply mail_remind_guarded.
Qed.

Lemma mail_process_assignment_guarded now smtp students_df row :
  guarded (mail_assignment_step now smtp students_df row).
Proof.
  unfold mail_assignment_step, Mail.process_assignment.
  destruct (strptime _) as [naive|]; [| apply guarded_silent; reflexivity].
  destruct (localize naive); [| apply guarded_silent; reflexivity].
  apply (guarded_for_each (Mail.assignment_reminder now smtp students_df row _)).
  intros hours_before. apply mail_remind_guarded.
Qed.

(** The two loops of the mail scheduler over the rows of a world. *)
Lemma mail_rounds_guarded (w : Mail.world) : guarded (mail_rounds w).
Proof.
  unfold mail_rounds.
  destruct (Mail.students w) as [students_df|];
    [| apply guarded_silent; reflexivity].
  destruct (Mail.classes w) as [classes_df|];
    [| apply guarded_silent; reflexivity].
  destruct (Mail.assignments w) as [assignments_df|];
    [| apply guarded_silent; reflexivity].
  eapply guarded_ext.
  2:{ apply (guarded_then
               (for_each (mail_class_step (Mail.now w) (Mail.smtp w) students_df)
                         classes_df)
               (for_each (mail_assignment_step (Mail.now w) (Mail.smtp w) students_df)
                         assignments_df));
      apply guarded_for_each; intros row;
      [apply mail_process_class_guarded | apply mail_process_assignment_guarded]. }
  intros sent. simpl.
  destruct (for_each _ classes_df sent) as [sent1 log1].
  now destruct (for_each _ assignments_df sent1) as [sent2 log2].
Qed.

(** One iteration of the mail loop. *)
Lemma mail_iteration_guarded (w : Mail.world) : guarded (Mail.iteration w).
Proof.
  eapply guarded_ext.
  2:{ apply (guarded_then (mail_rounds (reached w)) (λ sent, (sent, closing w))
               (mail_rounds_guarded (reached w))).
      apply guarded_silent. intros key. unfold closing. now destruct (completes w). }
  intros sent. rewrite mail_iteration_rounds.
  now destruct (mail_rounds (reached w) sent) as [sent1 log1].
Qed.

(** The mail loop over any number of iterations. *)
Lemma mail_loop_guarded (ws : list Mail.world) :
  guarded (λ sent, let r := Mail.main_loop ws sent in (r.1, whole_log r.2)).
Proof.
  induction ws as [|w ws IH].
  - simpl. apply guarded_silent. reflexivity.
  - eapply guarded_ext; [| apply (guarded_then _ _ (mail_iteration_guarded w) IH)].
    intros sent. cbn [Mail.main_loop].
    destruct (Mail.iteration w sent) as [sent1 log].
    now destruct (Mail.main_loop ws sent1) as [sent2 logs].
Qed.

End Sites.

(** ** At most once per key, and marking after the attempt *)

Section LedgerClaims.
Context {rt : Runtime}.

(** C1.  Over any number of consecutive iterations that share one ledger,
    either loop sends at most once under any key, so at most once for
    any event and threshold; under a key the ledger holds at the start
    it sends nothing, and a key it sent under is in the ledger at the
    end.  The ledger is checked before the send and the key added right
    after it, in the same iteration. *)
Theorem at_most_once_per_key (key : string) :
  (∀ (ws : list Discord.world) (st : Discord.state),
     let r := Discord.reminder_loop ws st in
     (dispatches key (whole_log r.1.2) ≤ 1)%nat ∧
     (key ∈ Discord.sent_reminders st → dispatches key (whole_log r.1.2) = 0%nat) ∧
     ((0 < dispatches key (whole_log r.1.2))%nat → key ∈ Discord.sent_reminders r.1.1)) ∧
  (∀ (ws : list Mail.world) (sent : gset string),
     let r := Mail.main_loop ws sent in
     (dispatches key (whole_log r.2) ≤ 1)%nat ∧
     (key ∈ sent → dispatches key (whole_log r.2) = 0%nat) ∧
     ((0 < dispatches key (whole_log r.2))%nat → key ∈ r.1)).
Proof.
  split.
  - intros ws [sent f]. destruct (discord_loop_guarded ws f) as [_ S O Mk].
    split; [apply (O sent key) |]. split; [apply (S sent key) | apply (Mk sent key)].
  - intros ws sent. destruct (mail_loop_guarded ws) as [_ S O Mk].
    split; [apply (O sent key) |]. split; [apply (S sent key) | apply (Mk sent key)].
Qed.

(** The ledger after a row does not depend on what the transport does. *)
Lemma for_each_ledger_ext {R M} (body body' : R → gset string → gset string * list (log_entry M))
    (rows : list R) :
  (∀ row sent, (body row sent).1 = (body' row sent).1) →
  ∀ sent, (for_each body rows sent).1 = (for_each body' rows sent).1.
Proof.
  intros Hbody. induction rows as [|row rows IH]; intros sent; [reflexivity |].
  simpl. specialize (Hbody row sent).
  destruct (body row sent) as [s1 l1], (body' row sent) as [s1' l1'].
  simpl in Hbody. subst s1'. specialize (IH s1).
  destruct (for_each body rows s1) as [s2 l2], (for_each body' rows s1) as [s2' l2'].
  exact IH.
Qed.

Lemma discord_remind_ledger now channel channel' target k24 k1 m24 m1 sent :
  (Discord.remind now channel target k24 k1 m24 m1 sent).1
  = (Discord.remind now channel' target k24 k1 m24 m1 sent).1.
Proof. unfold Discord.remind. now repeat destruct (_ && _). Qed.

Lemma discord_process_class_ledger now channel channel' row sent :
  (Discord.process_class now channel row sent).1
  = (Discord.process_class now channel' row sent).1.
Proof.
  unfold Discord.process_class.
  destruct (strptime _); [apply discord_remind_ledger | reflexivity].
Qed.

Lemma discord_process_assignment_ledger now channel channel' row sent :
  (Discord.process_assignment now channel row sent).1
  = (Discord.process_assignment now channel' row sent).1.
Proof.
  unfold Discord.process_assignment. destruct (Discord.no_due_date _); [reflexivity |].
  destruct (strptime _); [apply discord_remind_ledger | reflexivity].
Qed.

Lemma discord_tick_ledger now classes assignments disk_ok channel channel' st :
  (Discord.tick (Discord.Build_world now classes assignments channel disk_ok) st).1.1
  = (Discord.tick (Discord.Build_world now classes assignments channel' disk_ok) st).1.1.
Proof.
  unfold Discord.tick. simpl. destruct classes as [df_classes|]; [| reflexivity].
  pose proof (for_each_ledger_ext _ _ df_classes
                (discord_process_class_ledger now channel channel')
                (Discord.sent_reminders st)) as E1.
  destruct (for_each (Discord.process_class now channel) _ _) as [s1 l1],
           (for_each (Discord.process_class now channel') _ _) as [s1' l1'].
  simpl in E1. subst s1'. destruct assignments as [df_assignments|]; [| reflexivity].
  pose proof (for_each_ledger_ext _ _ df_assignments
                (discord_process_assignment_ledger now channel channel') s1) as E2.
  destruct (for_each (Discord.process_assignment now channel) _ _) as [s2 l2],
           (for_each (Discord.process_assignment now channel') _ _) as [s2' l2'].
  simpl in E2. subst s2'. now destruct disk_ok.
Qed.

Lemma mail_remind_ledger now smtp smtp' students_df course batch_name year mode
    reminder_time key subject text sent :
  (Mail.remind now smtp students_df course batch_name year mode
               reminder_time key subject text sent).1
  = (Mail.remind now smtp' students_df course batch_name year mode
                 reminder_time key subject text sent).1.
Proof.
  unfold Mail.remind. destruct (_ && _); [| reflexivity].
  now destruct (Mail.recipients _ _ _ _ _).
Qed.

Lemma mail_process_class_ledger now smtp smtp' students_df row sent :
  (mail_class_step now smtp students_df row sent).1
  = (mail_class_step now smtp' students_df row sent).1.
Proof.
  unfold mail_class_step, Mail.process_class.
  destruct (strptime _) as [naive|]; [| reflexivity].
  destruct (localize naive); [| reflexivity].
  apply (for_each_ledger_ext (Mail.class_reminder now smtp students_df row _)
                             (Mail.class_reminder now smtp' students_df row _)).
  intros h s. apply mail_remind_ledger.
Qed.

Lemma mail_process_assignment_ledger now smtp smtp' students_df row sent :
  (mail_assignment_step now smtp students_df row sent).1
  = (mail_assignment_step now smtp' students_df row sent).1.
Proof.
  unfold mail_assignment_step, Mail.process_assignment.
  destruct (strptime _) as [naive|]; [| reflexivity].
  destruct (localize naive); [| reflexivity].
  apply (for_each_ledger_ext (Mail.assignment_reminder now smtp students_df row _)
                             (Mail.assignment_reminder now smtp' students_df row _)).
  intros h s. apply mail_remind_ledger.
Qed.

Lemma mail_rounds_ledger now students classes assignments smtp smtp' sent :
  (mail_rounds (Mail.Build_world now students classes assignments smtp) sent).1
  = (mail_rounds (Mail.Build_world now students classes assignments smtp') sent).1.
Proof.
  unfold mail_rounds. simpl.
  destruct students as [students_df|]; [| reflexivity].
  destruct classes as [classes_df|]; [| reflexivity].
  destruct assignments as [assignments_df|]; [| reflexivity].
  pose proof (for_each_ledger_ext _ _ classes_df
                (mail_process_class_ledger now smtp smtp' students_df) sent) as E1.
  destruct (for_each (mail_class_step now smtp students_df) _ _) as [s1 l1],
           (for_each (mail_class_step now smtp' students_df) _ _) as [s1' l1'].
  simpl in E1. subst s1'.
  pose proof (for_each_ledger_ext _ _ assignments_df
                (mail_process_assignment_ledger now smtp smtp' students_df) s1) as E2.
  destruct (for_each (mail_assignment_step now smtp students_df) _ _) as [s2 l2],
           (for_each (mail_assignment_step now smtp' students_df) _ _) as [s2' l2'].
  simpl in E2. now subst s2'.
Qed.

Lemma mail_iteration_ledger now students classes assignments smtp smtp' sent :
  (Mail.iteration (Mail.Build_world now students classes assignments smtp) sent).1
  = (Mail.iteration (Mail.Build_world now students classes assignments smtp') sent).1.
Proof.
  rewrite !mail_iteration_rounds. cbn [fst]. unfold reached.
  cbn [Mail.now Mail.students Mail.classes Mail.assignments Mail.smtp].
  apply mail_rounds_ledger.
Qed.

(** C7.  Whenever an iteration attempts a send for a key, whether or not
    the transport goes through, the key is in the ledger after that
    iteration; the ledger the iteration leaves is the same for every
    behaviour of the transport; and no later iteration sends under that
    key again. *)
Theorem marked_after_attempt :
  (∀ now classes assignments disk_ok channel st key msg ok,
     let w := Discord.Build_world now classes assignments channel disk_ok in
     Dispatch key (msg, ok) ∈ (Discord.tick w st).1.2 →
     key ∈ Discord.sent_reminders (Discord.tick w st).1.1 ∧
     (∀ channel',
        (Discord.tick (Discord.Build_world now classes assignments channel' disk_ok) st).1.1
        = (Discord.tick w st).1.1) ∧
     (∀ ws, dispatches key
              (whole_log (Discord.reminder_loop ws (Discord.tick w st).1.1).1.2) = 0%nat)) ∧
  (∀ now students classes assignments smtp sent key mails,
     let w := Mail.Build_world now students classes assignments smtp in
     Dispatch key mails ∈ (Mail.iteration w sent).2 →
     key ∈ (Mail.iteration w sent).1 ∧
     (∀ smtp',
        (Mail.iteration (Mail.Build_world now students classes assignments smtp') sent).1
        = (Mail.iteration w sent).1) ∧
     (∀ ws, dispatches key (whole_log (Mail.main_loop ws (Mail.iteration w sent).1).2)
            = 0%nat)).
Proof.
  split.
  - intros now classes assignments disk_ok channel [sent f] key msg ok w Hin.
    apply dispatches_elem in Hin.
    assert (Hkey : key ∈ Discord.sent_reminders (Discord.tick w {|
                     Discord.sent_reminders := sent; Discord.sent_log := f |}).1.1).
    { now apply (guarded_marks _ (discord_tick_guarded w f) sent key). }
    split; [exact Hkey |]. split.
    + intros channel'. apply discord_tick_ledger.
    + intros ws. destruct (Discord.tick w _).1.1 as [sent1 f1]. simpl in Hkey.
      now apply (guarded_skips _ (discord_loop_guarded ws f1) sent1 key).
  - intros now students classes assignments smtp sent key mails w Hin.
    apply dispatches_elem in Hin.
    assert (Hkey : key ∈ (Mail.iteration w sent).1).
    { now apply (guarded_marks _ (mail_iteration_guarded w) sent key). }
    split; [exact Hkey |]. split.
    + intros smtp'. apply mail_iteration_ledger.
    + intros ws. now apply (guarded_skips _ (mail_loop_guarded ws) _ key).
Qed.

End LedgerClaims.

(** The two theorems on the scenario: the class of 2024-01-02 10:00, two
    iterations one minute apart inside the 24-hour window, and a transport
    that fails. *)
Section LedgerScenario.
Local Open Scope Z_scope.

Lemma at_most_once_per_key_witness :
  dispatches "class-CS101-A-Intro-2024-01-02-24hr"
    (whole_log (Discord.reminder_loop (rt := calendar_runtime)
                  [discord_world (day_before - 60 * us) unreachable;
                   discord_world day_before unreachable] fresh).1.2) = 1%nat ∧
  "class-CS101-A-Intro-2024-01-02-24hr"
    ∈ Discord.sent_reminders
        (Discord.reminder_loop (rt := calendar_runtime)
           [discord_world (day_before - 60 * us) unreachable;
            discord_world day_before unreachable] fresh).1.1.
Proof.
  destruct (proj1 (at_most_once_per_key (rt := calendar_runtime)
                     "class-CS101-A-Intro-2024-01-02-24hr")
              [discord_world (day_before - 60 * us) unreachable;
               discord_world day_before unreachable] fresh)
    as (_ & _ & Hin).
  assert (E : dispatches "class-CS101-A-Intro-2024-01-02-24hr"
                (whole_log (Discord.reminder_loop (rt := calendar_runtime)
                              [discord_world (day_before - 60 * us) unreachable;
                               discord_world day_before unreachable] fresh).1.2) = 1%nat)
    by (vm_compute; reflexivity).
  split; [exact E |]. apply Hin. rewrite E. lia.
Defined.

Lemma marked_after_attempt_witness :
  (∃ msg, Dispatch "class-CS101-A-Intro-2024-01-02-24hr" (msg, false)
          ∈ (Discord.tick (rt := calendar_runtime)
               (discord_world day_before unreachable) fresh).1.2) ∧
  "class-CS101-A-Intro-2024-01-02-24hr"
    ∈ Discord.sent_reminders
        (Discord.tick (rt := calendar_runtime)
           (discord_world day_before unreachable) fresh).1.1.
Proof.
  assert (Hsent : ∃ msg, Dispatch "class-CS101-A-Intro-2024-01-02-24hr" (msg, false)
                         ∈ (Discord.tick (rt := calendar_runtime)
                              (discord_world day_before unreachable) fresh).1.2).
  { eexists.
    remember (Discord.tick (rt := calendar_runtime)
                (discord_world day_before unreachable) fresh).1.2 as log eqn:E.
    vm_compute in E. subst log. apply list_elem_of_singleton. reflexivity. }
  split; [exact Hsent |]. destruct Hsent as [msg Hmsg].
  exact (proj1 (proj1 (marked_after_attempt (rt := calendar_runtime))
                  _ _ _ _ _ fresh _ msg false Hmsg)).
Defined.

End LedgerScenario.

(** ** What each dispatch site sends *)

Section SiteCounts.
Context {rt : Runtime}.
Local Open Scope Z_scope.

(** The window tests, as inequalities on the microsecond counts. *)
Lemma discord_in_window_iff (seconds_until lead : Z) :
  Discord.in_window seconds_until lead = true
  ↔ 0 ≤ seconds_until - lead * us ≤ 600 * us.
Proof. unfold Discord.in_window. rewrite andb_true_iff, !Z.leb_le. tauto. Qed.

Lemma mail_due_iff (now reminder_time : Z) :
  Mail.due now reminder_time = true ↔ 0 ≤ now - reminder_time < 600 * us.
Proof. unfold Mail.due. rewrite andb_true_iff, Z.leb_le, Z.ltb_lt. tauto. Qed.

(** The two windows of the Discord notifier never overlap, and neither do
    the two of the mail scheduler. *)
Lemma discord_windows_disjoint (seconds_until : Z) :
  Discord.in_window seconds_until 3600 = true →
  Discord.in_window seconds_until 86400 = false.
Proof.
  rewrite discord_in_window_iff. intros Hw.
  destruct (Discord.in_window seconds_until 86400) eqn:E; [| reflexivity].
  apply discord_in_window_iff in E. unfold us in *. lia.
Qed.

Lemma mail_windows_disjoint (now target : Z) :
  Mail.due now (target - Mail.hours 1) = true →
  Mail.due now (target - Mail.hours 24) = false.
Proof.
  rewrite mail_due_iff. intros Hw.
  destruct (Mail.due now (target - Mail.hours 24)) eqn:E; [| reflexivity].
  apply mail_due_iff in E. unfold Mail.hours, us in *. lia.
Qed.

(** The Discord site, key by key. *)
Lemma discord_remind_24hr now channel target k24 k1 m24 m1 sent :
  k24 ≠ k1 →
  dispatches k24 (Discord.remind now channel target k24 k1 m24 m1 sent).2
  = if Discord.in_window (target - now) 86400 && negb (bool_decide (k24 ∈ sent))
    then 1%nat else 0%nat.
Proof.
  intros Hne. unfold Discord.remind, Discord.send_reminder.
  destruct (Discord.in_window (target - now) 86400 && _).
  - simpl. now rewrite bool_decide_eq_true_2.
  - destruct (Discord.in_window (target - now) 3600 && _); [| reflexivity].
    simpl. rewrite bool_decide_eq_false_2; [reflexivity | congruence].
Qed.

Lemma discord_remind_1hr now channel target k24 k1 m24 m1 sent :
  k24 ≠ k1 →
  dispatches k1 (Discord.remind now channel target k24 k1 m24 m1 sent).2
  = if Discord.in_window (target - now) 3600 && negb (bool_decide (k1 ∈ sent))
    then 1%nat else 0%nat.
Proof.
  intros Hne. unfold Discord.remind, Discord.send_reminder.
  destruct (Discord.in_window (target - now) 3600) eqn:W1.
  - rewrite (discord_windows_disjoint _ W1). simpl.
    destruct (bool_decide (k1 ∈ sent)); simpl; [reflexivity |].
    now rewrite bool_decide_eq_true_2.
  - simpl. destruct (Discord.in_window (target - now) 86400 && _); [| reflexivity].
    simpl. now rewrite bool_decide_eq_false_2.
Qed.

(** The mail site: a dispatch needs the window, a key the ledger lacks,
    and somebody to write to. *)
Lemma mail_remind_count now smtp students_df course batch_name year mode
    reminder_time key subject text sent :
  dispatches key (Mail.remind now smtp students_df course batch_name year mode
                    reminder_time key subject text sent).2
  = if Mail.due now reminder_time && negb (bool_decide (key ∈ sent))
    then match Mail.recipients students_df course batch_name year mode with
         | [] => 0%nat
         | _ => 1%nat
         end
    else 0%nat.
Proof.
  unfold Mail.remind. destruct (_ && _); [| reflexivity].
  destruct (Mail.recipients _ _ _ _ _); [reflexivity |].
  simpl. now rewrite bool_decide_eq_true_2.
Qed.

Lemma mail_remind_other now smtp students_df course batch_name year mode
    reminder_time key subject text sent key' :
  key ≠ key' →
  dispatches key' (Mail.remind now smtp students_df course batch_name year mode
                     reminder_time key subject text sent).2 = 0%nat.
Proof.
  intros Hne. unfold Mail.remind. destruct (_ && _); [| reflexivity].
  destruct (Mail.recipients _ _ _ _ _); [reflexivity |].
  simpl. now rewrite bool_decide_eq_false_2.
Qed.

Lemma mail_remind_ledger_other now smtp students_df course batch_name year mode
    reminder_time key subject text sent key' :
  key ≠ key' →
  key' ∈ (Mail.remind now smtp students_df course batch_name year mode
            reminder_time key subject text sent).1 ↔ key' ∈ sent.
Proof.
  intros Hne. unfold Mail.remind. destruct (_ && _); [| reflexivity].
  destruct (Mail.recipients _ _ _ _ _); [reflexivity |].
  simpl. rewrite elem_of_union, elem_of_singleton.
  split; [intros [E | Hin]; [congruence | exact Hin] | now right].
Qed.

(** Keys of one event at the two thresholds differ. *)
Lemma discord_class_keys_differ (row : class_row) :
  Discord.class_key row "-24hr" ≠ Discord.class_key row "-1hr".
Proof.
  unfold Discord.class_key. intros E.
  repeat (apply (inj (String.append _)) in E). discriminate.
Qed.

Lemma discord_assign_keys_differ (row : assignment_row) :
  Discord.assign_key row "-24hr" ≠ Discord.assign_key row "-1hr".
Proof.
  unfold Discord.assign_key. intros E.
  repeat (apply (inj (String.append _)) in E). discriminate.
Qed.

Lemma mail_class_keys_differ (row : class_row) :
  Mail.class_key row 24 ≠ Mail.class_key row 1.
Proof.
  unfold Mail.class_key. intros E.
  repeat (apply (inj (String.append _)) in E). vm_compute in E. discriminate.
Qed.

Lemma mail_assignment_keys_differ (row : assignment_row) :
  Mail.assignment_key row 24 ≠ Mail.assignment_key row 1.
Proof.
  unfold Mail.assignment_key. intros E.
  repeat (apply (inj (String.append _)) in E). vm_compute in E. discriminate.
Qed.

End SiteCounts.

(** ** Windows and thresholds *)

Section Rows.
Context {rt : Runtime}.
Local Open Scope Z_scope.

(** What the Discord notifier sends for one class row, threshold by
    threshold. *)
Lemma discord_class_24hr now channel row sent class_datetime :
  strptime (cls_date row +:+ " " +:+ cls_time row) = Some class_datetime →
  dispatches (Discord.class_key row "-24hr") (Discord.process_class now channel row sent).2
  = if Discord.in_window (class_datetime - now) 86400
       && negb (bool_decide (Discord.class_key row "-24hr" ∈ sent))
    then 1%nat else 0%nat.
Proof.
  intros Hparse. unfold Discord.process_class. rewrite Hparse.
  apply discord_remind_24hr, discord_class_keys_differ.
Qed.

Lemma discord_class_1hr now channel row sent class_datetime :
  strptime (cls_date row +:+ " " +:+ cls_time row) = Some class_datetime →
  dispatches (Discord.class_key row "-1hr") (Discord.process_class now channel row sent).2
  = if Discord.in_window (class_datetime - now) 3600
       && negb (bool_decide (Discord.class_key row "-1hr" ∈ sent))
    then 1%nat else 0%nat.
Proof.
  intros Hparse. unfold Discord.process_class. rewrite Hparse.
  apply discord_remind_1hr, discord_class_keys_differ.
Qed.

Lemma discord_assignment_24hr now channel row sent due_datetime :
  Discord.no_due_date (asg_due_date row) = false →
  strptime (asg_due_date row +:+ " " +:+ "23:59") = Some due_datetime →
  dispatches (Discord.assign_key row "-24hr")
             (Discord.process_assignment now channel row sent).2
  = if Discord.in_window (due_datetime - now) 86400
       && negb (bool_decide (Discord.assign_key row "-24hr" ∈ sent))
    then 1%nat else 0%nat.
Proof.
  intros Hdate Hparse. unfold Discord.process_assignment. rewrite Hdate, Hparse.
  apply discord_remind_24hr, discord_assign_keys_differ.
Qed.

Lemma discord_assignment_1hr now channel row sent due_datetime :
  Discord.no_due_date (asg_due_date row) = false →
  strptime (asg_due_date row +:+ " " +:+ "23:59") = Some due_datetime →
  dispatches (Discord.assign_key row "-1hr")
             (Discord.process_assignment now channel row sent).2
  = if Discord.in_window (due_datetime - now) 3600
       && negb (bool_decide (Discord.assign_key row "-1hr" ∈ sent))
    then 1%nat else 0%nat.
Proof.
  intros Hdate Hparse. unfold Discord.process_assignment. rewrite Hdate, Hparse.
  apply discord_remind_1hr, discord_assign_keys_differ.
Qed.

(** The two thresholds of the mail scheduler, one site after the other:
    what is sent under the key of either threshold is decided by that
    threshold alone, on the ledger as it was before the row. *)
Lemma mail_two_sites {M} (site : Z → gset string → gset string * list (log_entry M))
    (key : Z → string) (count : Z → gset string → nat) :
  key 24 ≠ key 1 →
  (∀ h sent, dispatches (key h) (site h sent).2 = count h sent) →
  (∀ h sent k, key h ≠ k → dispatches k (site h sent).2 = 0%nat) →
  (∀ h sent k, key h ≠ k → k ∈ (site h sent).1 ↔ k ∈ sent) →
  (∀ h sent sent', (key h ∈ sent ↔ key h ∈ sent') → count h sent = count h sent') →
  ∀ h sent, h = 24 ∨ h = 1 →
    dispatches (key h) (for_each site [24; 1] sent).2 = count h sent.
Proof.
  intros Hne Hcount Hother Hledger Hdep h sent Hh. cbn [for_each].
  pose proof (Hcount 24 sent) as C24. pose proof (Hother 24 sent (key 1) Hne) as O24.
  pose proof (Hledger 24 sent (key 1) Hne) as L24.
  destruct (site 24 sent) as [sent1 log1]. simpl in C24, O24, L24.
  pose proof (Hcount 1 sent1) as C1.
  pose proof (Hother 1 sent1 (key 24) (not_eq_sym Hne)) as O1.
  destruct (site 1 sent1) as [sent2 log2]. simpl in C1, O1. simpl.
  rewrite app_nil_r, dispatches_app. destruct Hh as [-> | ->].
  - rewrite C24, O1. lia.
  - rewrite O24, C1. simpl. now apply Hdep.
Qed.

Lemma mail_class_count now smtp students_df row sent naive class_time h :
  strptime (cls_date row +:+ " " +:+ cls_time row) = Some naive →
  localize naive = Some class_time →
  h = 24 ∨ h = 1 →
  dispatches (Mail.class_key row h)
             (Mail.process_class now smtp students_df row sent).1.2
  = mail_count now (class_time - Mail.hours h) (Mail.class_key row h)
      (Mail.recipients students_df (cls_course row) (cls_batch_name row) (cls_year row)
                       (PyStr.strip (cls_mode row)))
      sent.
Proof.
  intros Hparse Hzone Hh. unfold Mail.process_class. rewrite Hparse, Hzone. cbn [fst].
  apply (mail_two_sites (Mail.class_reminder now smtp students_df row class_time)
           (Mail.class_key row)
           (λ h sent, mail_count now (class_time - Mail.hours h) (Mail.class_key row h)
                        (Mail.recipients students_df (cls_course row) (cls_batch_name row)
                           (cls_year row) (PyStr.strip (cls_mode row))) sent)).
  - apply mail_class_keys_differ.
  - intros. apply mail_remind_count.
  - intros. now apply mail_remind_other.
  - intros. now apply mail_remind_ledger_other.
  - intros h' s s' Hiff. unfold mail_count.
    now rewrite (bool_decide_ext _ _ Hiff).
  - exact Hh.
Qed.

Lemma mail_assignment_count now smtp students_df row sent naive due_time h :
  strptime (Mail.with_default_time (asg_due_date row)) = Some naive →
  localize naive = Some due_time →
  h = 24 ∨ h = 1 →
  dispatches (Mail.assignment_key row h)
             (Mail.process_assignment now smtp students_df row sent).1.2
  = mail_count now (due_time - Mail.hours h) (Mail.assignment_key row h)
      (Mail.recipients students_df (asg_course row) (asg_batch_name row) (asg_year row)
                       (PyStr.strip (asg_mode row)))
      sent.
Proof.
  intros Hparse Hzone Hh. unfold Mail.process_assignment. rewrite Hparse, Hzone.
  cbn [fst].
  apply (mail_two_sites (Mail.assignment_reminder now smtp students_df row due_time)
           (Mail.assignment_key row)
           (λ h sent, mail_count now (due_time - Mail.hours h) (Mail.assignment_key row h)
                        (Mail.recipients students_df (asg_course row) (asg_batch_name row)
                           (asg_year row) (PyStr.strip (asg_mode row))) sent)).
  - apply mail_assignment_keys_differ.
  - intros. apply mail_remind_count.
  - intros. now apply mail_remind_other.
  - intros. now apply mail_remind_ledger_other.
  - intros h' s s' Hiff. unfold mail_count.
    now rewrite (bool_decide_ext _ _ Hiff).
  - exact Hh.
Qed.

End Rows.

Section WindowClaims.
Context {rt : Runtime}.
Local Open Scope Z_scope.

Lemma mail_count_one now reminder_time key selected sent :
  key ∉ sent → selected ≠ [] →
  (mail_count now reminder_time key selected sent = 1%nat
   ↔ Mail.due now reminder_time = true).
Proof.
  intros Hkey Hsel. unfold mail_count.
  rewrite (bool_decide_eq_false_2 _ Hkey). simpl. rewrite andb_true_r.
  destruct (Mail.due now reminder_time); destruct selected; try congruence; split; congruence.
Qed.

Lemma discord_count_one (seconds_until lead : Z) (key : string) (sent : gset string) :
  key ∉ sent →
  ((if Discord.in_window seconds_until lead && negb (bool_decide (key ∈ sent))
    then 1%nat else 0%nat) = 1%nat
   ↔ Discord.in_window seconds_until lead = true).
Proof.
  intros Hkey. rewrite (bool_decide_eq_false_2 _ Hkey). simpl. rewrite andb_true_r.
  destruct (Discord.in_window seconds_until lead); split; congruence.
Qed.

(** C3 (as amended).  With [elapsed = now - (target - h)]: the mail
    scheduler sends the reminder of an unsent key with recipients exactly
    when [0 <= elapsed < 600 s], a half-open window that starts at the
    crossing; the Discord notifier sends the reminder of an unsent key
    exactly when [-600 s <= elapsed <= 0], a closed window that ends at
    the crossing.  The target of the mail scheduler is the time of the row
    put into the zone. *)
Theorem firing_windows :
  (∀ now smtp students_df row sent naive class_time h,
     strptime (cls_date row +:+ " " +:+ cls_time row) = Some naive →
     localize naive = Some class_time →
     h = 24 ∨ h = 1 →
     Mail.class_key row h ∉ sent →
     Mail.recipients students_df (cls_course row) (cls_batch_name row) (cls_year row)
                     (PyStr.strip (cls_mode row)) ≠ [] →
     (dispatches (Mail.class_key row h)
                 (Mail.process_class now smtp students_df row sent).1.2 = 1%nat
      ↔ 0 ≤ now - (class_time - h * 3600 * us) < 600 * us)) ∧
  (∀ now smtp students_df row sent naive due_time h,
     strptime (Mail.with_default_time (asg_due_date row)) = Some naive →
     localize naive = Some due_time →
     h = 24 ∨ h = 1 →
     Mail.assignment_key row h ∉ sent →
     Mail.recipients students_df (asg_course row) (asg_batch_name row) (asg_year row)
                     (PyStr.strip (asg_mode row)) ≠ [] →
     (dispatches (Mail.assignment_key row h)
                 (Mail.process_assignment now smtp students_df row sent).1.2 = 1%nat
      ↔ 0 ≤ now - (due_time - h * 3600 * us) < 600 * us)) ∧
  (∀ now channel row sent class_datetime,
     strptime (cls_date row +:+ " " +:+ cls_time row) = Some class_datetime →
     (Discord.class_key row "-24hr" ∉ sent →
      (dispatches (Discord.class_key row "-24hr")
                  (Discord.process_class now channel row sent).2 = 1%nat
       ↔ - (600 * us) ≤ now - (class_datetime - 86400 * us) ≤ 0)) ∧
     (Discord.class_key row "-1hr" ∉ sent →
      (dispatches (Discord.class_key row "-1hr")
                  (Discord.process_class now channel row sent).2 = 1%nat
       ↔ - (600 * us) ≤ now - (class_datetime - 3600 * us) ≤ 0))) ∧
  (∀ now channel row sent due_datetime,
     Discord.no_due_date (asg_due_date row) = false →
     strptime (asg_due_date row +:+ " " +:+ "23:59") = Some due_datetime →
     (Discord.assign_key row "-24hr" ∉ sent →
      (dispatches (Discord.assign_key row "-24hr")
                  (Discord.process_assignment now channel row sent).2 = 1%nat
       ↔ - (600 * us) ≤ now - (due_datetime - 86400 * us) ≤ 0)) ∧
     (Discord.assign_key row "-1hr" ∉ sent →
      (dispatches (Discord.assign_key row "-1hr")
                  (Discord.process_assignment now channel row sent).2 = 1%nat
       ↔ - (600 * us) ≤ now - (due_datetime - 3600 * us) ≤ 0))).
Proof.
  split; [| split; [| split]].
  - intros now smtp students_df row sent naive class_time h Hparse Hzone Hh Hkey Hsel.
    rewrite (mail_class_count _ _ _ _ _ naive class_time h Hparse Hzone Hh).
    rewrite (mail_count_one _ _ _ _ _ Hkey Hsel), mail_due_iff.
    unfold Mail.hours. lia.
  - intros now smtp students_df row sent naive due_time h Hparse Hzone Hh Hkey Hsel.
    rewrite (mail_assignment_count _ _ _ _ _ naive due_time h Hparse Hzone Hh).
    rewrite (mail_count_one _ _ _ _ _ Hkey Hsel), mail_due_iff.
    unfold Mail.hours. lia.
  - intros now channel row sent class_datetime Hparse. split; intros Hkey.
    + rewrite (discord_class_24hr _ _ _ _ class_datetime Hparse).
      rewrite (discord_count_one _ _ _ _ Hkey), discord_in_window_iff. lia.
    + rewrite (discord_class_1hr _ _ _ _ class_datetime Hparse).
      rewrite (discord_count_one _ _ _ _ Hkey), discord_in_window_iff. lia.
  - intros now channel row sent due_datetime Hdate Hparse. split; intros Hkey.
    + rewrite (discord_assignment_24hr _ _ _ _ due_datetime Hdate Hparse).
      rewrite (discord_count_one _ _ _ _ Hkey), discord_in_window_iff. lia.
    + rewrite (discord_assignment_1hr _ _ _ _ due_datetime Hdate Hparse).
      rewrite (discord_count_one _ _ _ _ Hkey), discord_in_window_iff. lia.
Qed.

(** The two thresholds of one event are never inside their windows at the
    same instant, in either script: the lead times are 23 hours apart and
    a window is 600 seconds wide.  No iteration finds both thresholds of
    an event due. *)
Lemma windows_never_coincide (now target : Z) :
  ¬ (Discord.in_window (target - now) 86400 = true ∧
     Discord.in_window (target - now) 3600 = true) ∧
  ¬ (Mail.due now (target - Mail.hours 24) = true ∧
     Mail.due now (target - Mail.hours 1) = true).
Proof.
  split; intros [H24 H1].
  - rewrite (discord_windows_disjoint _ H1) in H24. discriminate.
  - rewrite (mail_windows_disjoint _ _ H1) in H24. discriminate.
Qed.

(** With nobody selected a row of the mail scheduler leaves the ledger as
    it is. *)
Lemma mail_remind_nobody now smtp students_df course batch_name year mode
    reminder_time key subject text sent :
  Mail.recipients students_df course batch_name year mode = [] →
  (Mail.remind now smtp students_df course batch_name year mode
               reminder_time key subject text sent).1 = sent.
Proof. intros Hnone. unfold Mail.remind. rewrite Hnone. now destruct (_ && _). Qed.

Lemma for_each_ledger_fixed {R M} (body : R → gset string → gset string * list (log_entry M))
    (rows : list R) :
  (∀ row sent, (body row sent).1 = sent) →
  ∀ sent, (for_each body rows sent).1 = sent.
Proof.
  intros Hbody. induction rows as [|row rows IH]; intros sent; [reflexivity |].
  simpl. specialize (Hbody row sent). destruct (body row sent) as [s1 l1].
  simpl in Hbody. subst s1. specialize (IH sent).
  now destruct (for_each body rows sent) as [s2 l2].
Qed.

(** C6.  When a threshold of a row is inside its window, its key is not in
    the ledger and no student is selected, the mail scheduler sends nothing
    under that key and leaves the ledger as it was; so on any later
    iteration that still finds the window open and selects somebody, the
    reminder is sent. *)
Theorem zero_match_retry :
  (∀ now smtp students_df row sent naive class_time h,
     strptime (cls_date row +:+ " " +:+ cls_time row) = Some naive →
     localize naive = Some class_time →
     h = 24 ∨ h = 1 →
     Mail.due now (class_time - Mail.hours h) = true →
     Mail.class_key row h ∉ sent →
     Mail.recipients students_df (cls_course row) (cls_batch_name row) (cls_year row)
                     (PyStr.strip (cls_mode row)) = [] →
     dispatches (Mail.class_key row h)
                (Mail.process_class now smtp students_df row sent).1.2 = 0%nat ∧
     (Mail.process_class now smtp students_df row sent).1.1 = sent ∧
     ∀ now' smtp' students_df',
       Mail.due now' (class_time - Mail.hours h) = true →
       Mail.recipients students_df' (cls_course row) (cls_batch_name row) (cls_year row)
                       (PyStr.strip (cls_mode row)) ≠ [] →
       dispatches (Mail.class_key row h)
         (Mail.process_class now' smtp' students_df' row
            (Mail.process_class now smtp students_df row sent).1.1).1.2 = 1%nat) ∧
  (∀ now smtp students_df row sent naive due_time h,
     strptime (Mail.with_default_time (asg_due_date row)) = Some naive →
     localize naive = Some due_time →
     h = 24 ∨ h = 1 →
     Mail.due now (due_time - Mail.hours h) = true →
     Mail.assignment_key row h ∉ sent →
     Mail.recipients students_df (asg_course row) (asg_batch_name row) (asg_year row)
                     (PyStr.strip (asg_mode row)) = [] →
     dispatches (Mail.assignment_key row h)
                (Mail.process_assignment now smtp students_df row sent).1.2 = 0%nat ∧
     (Mail.process_assignment now smtp students_df row sent).1.1 = sent ∧
     ∀ now' smtp' students_df',
       Mail.due now' (due_time - Mail.hours h) = true →
       Mail.recipients students_df' (asg_course row) (asg_batch_name row) (asg_year row)
                       (PyStr.strip (asg_mode row)) ≠ [] →
       dispatches (Mail.assignment_key row h)
         (Mail.process_assignment now' smtp' students_df' row
            (Mail.process_assignment now smtp students_df row sent).1.1).1.2 = 1%nat).
Proof.
  split.
  - intros now smtp students_df row sent naive class_time h Hparse Hzone Hh Hdue Hkey
      Hnone.
    assert (Hsame : (Mail.process_class now smtp students_df row sent).1.1 = sent).
    { unfold Mail.process_class. rewrite Hparse, Hzone. cbn [fst].
      apply for_each_ledger_fixed. intros h' s. now apply mail_remind_nobody. }
    split; [| split; [exact Hsame |]].
    + rewrite (mail_class_count _ _ _ _ _ naive class_time h Hparse Hzone Hh).
      unfold mail_count. rewrite Hnone. now destruct (_ && _).
    + intros now' smtp' students_df' Hdue' Hsome. rewrite Hsame.
      rewrite (mail_class_count _ _ _ _ _ naive class_time h Hparse Hzone Hh).
      now apply mail_count_one.
  - intros now smtp students_df row sent naive due_time h Hparse Hzone Hh Hdue Hkey
      Hnone.
    assert (Hsame : (Mail.process_assignment now smtp students_df row sent).1.1 = sent).
    { unfold Mail.process_assignment. rewrite Hparse, Hzone. cbn [fst].
      apply for_each_ledger_fixed. intros h' s. now apply mail_remind_nobody. }
    split; [| split; [exact Hsame |]].
    + rewrite (mail_assignment_count _ _ _ _ _ naive due_time h Hparse Hzone Hh).
      unfold mail_count. rewrite Hnone. now destruct (_ && _).
    + intros now' smtp' students_df' Hdue' Hsome. rewrite Hsame.
      rewrite (mail_assignment_count _ _ _ _ _ naive due_time h Hparse Hzone Hh).
      now apply mail_count_one.
Qed.

End WindowClaims.

(** The class of 2024-01-02 10:00 at the edges of its windows. *)
Section WindowScenarios.
Local Open Scope Z_scope.

Lemma intro_class_parses :
  strptime (Runtime := calendar_runtime)
    (cls_date intro_class +:+ " " +:+ cls_time intro_class) = Some intro_start.
Proof. vm_compute. reflexivity. Defined.

Lemma intro_class_zone :
  localize (Runtime := calendar_runtime) intro_start = Some intro_start.
Proof. vm_compute. reflexivity. Defined.

Lemma alice_is_selected :
  Mail.recipients (rt := calendar_runtime) [alice] (cls_course intro_class)
                  (cls_batch_name intro_class) (cls_year intro_class)
                  (PyStr.strip (cls_mode intro_class)) ≠ [].
Proof. vm_compute. discriminate. Defined.

Lemma firing_windows_witness :
  dispatches (Mail.class_key intro_class 24)
    (Mail.process_class (rt := calendar_runtime) day_before delivering [alice]
                        intro_class ∅).1.2 = 1%nat.
Proof.
  apply (proj1 (firing_windows (rt := calendar_runtime))
           day_before delivering [alice] intro_class ∅ intro_start intro_start 24
           intro_class_parses intro_class_zone (or_introl eq_refl)
           (not_elem_of_empty _) alice_is_selected).
  split; [apply Z.leb_le | apply Z.ltb_lt]; vm_compute; reflexivity.
Defined.

(** One second before the crossing the Discord notifier sends, five
    minutes after it it does not. *)
Lemma discord_window_before_crossing :
  (day_before - us) - (intro_start - 86400 * us) = - us ∧
  dispatches "class-CS101-A-Intro-2024-01-02-24hr"
    (Discord.tick (rt := calendar_runtime)
       (discord_world (day_before - us) delivering) fresh).1.2 = 1%nat ∧
  (day_before + 300 * us) - (intro_start - 86400 * us) = 300 * us ∧
  dispatches "class-CS101-A-Intro-2024-01-02-24hr"
    (Discord.tick (rt := calendar_runtime)
       (discord_world (day_before + 300 * us) delivering) fresh).1.2 = 0%nat.
Proof. repeat split; vm_compute; reflexivity. Qed.

(** Nobody enrolled at the crossing, Alice enrolled a minute later. *)
Lemma zero_match_retry_witness :
  dispatches (Mail.class_key intro_class 24)
    (Mail.process_class (rt := calendar_runtime) day_before delivering []
                        intro_class ∅).1.2 = 0%nat ∧
  (Mail.process_class (rt := calendar_runtime) day_before delivering []
                      intro_class ∅).1.1 = ∅ ∧
  dispatches (Mail.class_key intro_class 24)
    (Mail.process_class (rt := calendar_runtime) (day_before + 60 * us) delivering [alice]
       intro_class
       (Mail.process_class (rt := calendar_runtime) day_before delivering []
                           intro_class ∅).1.1).1.2 = 1%nat.
Proof.
  destruct (proj1 (zero_match_retry (rt := calendar_runtime))
              day_before delivering [] intro_class ∅ intro_start intro_start 24
              intro_class_parses intro_class_zone (or_introl eq_refl) eq_refl
              (not_elem_of_empty _) eq_refl) as (Hnone & Hsame & Hretry).
  split; [exact Hnone |]. split; [exact Hsame |].
  apply Hretry; [vm_compute; reflexivity | exact alice_is_selected].
Defined.

(** The scenarios of the specification on the Discord notifier: exactly 24
    hours before, the 24-hour key and not the 1-hour key; exactly one hour
    before, with the 24-hour key in the ledger, the 1-hour key only. *)
Example discord_day_before :
  (Discord.tick (rt := calendar_runtime) (discord_world day_before delivering) fresh).1.2
  = [Dispatch "class-CS101-A-Intro-2024-01-02-24hr"
       ("📅 Heads-up! Tomorrow at **10:00**, your class **'Intro'** (CS101 A) will start. Be prepared! 🎓",
        true)].
Proof. vm_compute. reflexivity. Qed.

Example discord_hour_before :
  dispatches "class-CS101-A-Intro-2024-01-02-1hr"
    (Discord.tick (rt := calendar_runtime) (discord_world hour_before delivering)
       {| Discord.sent_reminders := {[ "class-CS101-A-Intro-2024-01-02-24hr" ]};
          Discord.sent_log := None |}).1.2 = 1%nat ∧
  dispatches "class-CS101-A-Intro-2024-01-02-24hr"
    (Discord.tick (rt := calendar_runtime) (discord_world hour_before delivering)
       {| Discord.sent_reminders := {[ "class-CS101-A-Intro-2024-01-02-24hr" ]};
          Discord.sent_log := None |}).1.2 = 0%nat.
Proof. split; vm_compute; reflexivity. Qed.

(** An assignment due on 2024-03-05 without a time: the Discord notifier
    takes 23:59 and reminds 24 hours before that; the mail scheduler takes
    09:00. *)
Example discord_homework :
  dispatches "assign-CS101-A-HW1-2024-03-05-24hr"
    (Discord.process_assignment (rt := calendar_runtime)
       (Calendar.instant 2024 3 4 23 59) delivering homework ∅).2 = 1%nat.
Proof. vm_compute. reflexivity. Qed.

Example mail_homework :
  strptime (Runtime := calendar_runtime) (Mail.with_default_time (asg_due_date homework))
  = Some (Calendar.instant 2024 3 5 9 0) ∧
  dispatches "assignment-CS101-A-2024-Online-HW1-24"
    (Mail.process_assignment (rt := calendar_runtime)
       (Calendar.instant 2024 3 4 9 0) delivering [alice] homework ∅).1.2 = 1%nat.
Proof. split; vm_compute; reflexivity. Qed.

End WindowScenarios.

(** ** Recipients of the mail scheduler *)

Section Recipients.
Context {rt : Runtime}.
Local Open Scope Z_scope.





(** The mails of a reminder are addressed to the students selected, one
    each, in their order. *)
Lemma mails_addresses (smtp : Mail.email → bool) (subject : string)
    (text : student → string) (selected : list student) :
  List.map (λ m : Mail.email * bool, Mail.to m.1)
    (List.map (λ stu, Mail.send_email smtp (stu_email stu) subject (text stu)) selected)
  = List.map stu_email selected.
Proof. induction selected as [|stu selected IH]; [reflexivity |]. simpl. now rewrite IH. Qed.





End Recipients.

Section RecipientScenarios.
Local Open Scope Z_scope.



(** A class whose mode ends with a no-break space selects the student
    whose mode is written without it. *)
Example mode_with_no_break_space :
  Mail.recipients (rt := calendar_runtime) [alice] "CS101" "A" (PyInt 2024)
    (PyStr.strip ("Online" +:+ String "194" (String "160" ""))) = [alice].
Proof. vm_compute. reflexivity. Qed.

End RecipientScenarios.

(** ** The dedup keys *)

Section Keys.
Local Open Scope Z_scope.

(** Two strings that start with a field without hyphen and a hyphen are
    equal only if the fields and the rests are. *)
Lemma split_at_hyphen (a a' r r' : string) :
  plain a → plain a' →
  a +:+ "-" +:+ r = a' +:+ "-" +:+ r' → a = a' ∧ r = r'.
Proof.
  unfold plain. revert a'. induction a as [|c a IH]; intros [|c' a'] Ha Ha' E;
    cbn [PyStr.contains] in Ha, Ha'.
  - change (String "-" r = String "-" r') in E. now injection E as ->.
  - change (String "-" r = String c' (a' +:+ "-" +:+ r')) in E.
    injection E as <- _. rewrite Ascii.eqb_refl in Ha'. discriminate.
  - change (String c (a +:+ "-" +:+ r) = String "-" r') in E.
    injection E as -> _. rewrite Ascii.eqb_refl in Ha. discriminate.
  - change (String c (a +:+ "-" +:+ r) = String c' (a' +:+ "-" +:+ r')) in E.
    injection E as -> E. destruct (Ascii.eqb "-" c'); [discriminate |].
    destruct (IH a' Ha Ha' E) as [-> ->]. now split.
Qed.

(** A date followed by [-24hr] is never a date followed by [-1hr]. *)
Lemma suffixes_clash (d d' : string) : d +:+ "-24hr" ≠ d' +:+ "-1hr".
Proof.
  revert d'. induction d as [|c d IH]; intros d' E.
  - destruct d' as [|c' [|c'' d']].
    + discriminate.
    + discriminate.
    + apply (f_equal String.length) in E.
      rewrite append_nil_l, !append_cons in E. simpl in E.
      rewrite length_append in E. simpl in E. lia.
  - destruct d' as [|c' d'].
    + apply (f_equal String.length) in E.
      rewrite append_nil_l, append_cons in E. simpl in E.
      rewrite length_append in E. simpl in E. lia.
    + change (String c (d +:+ "-24hr") = String c' (d' +:+ "-1hr")) in E.
      injection E as _ E. now apply (IH d').
Qed.

Lemma date_and_suffix (d d' s s' : string) :
  is_threshold s → is_threshold s' → d +:+ s = d' +:+ s' → d = d' ∧ s = s'.
Proof.
  intros [-> | ->] [-> | ->] E.
  - split; [now apply append_cancel_r in E | reflexivity].
  - now apply suffixes_clash in E.
  - symmetry in E. now apply suffixes_clash in E.
  - split; [now apply append_cancel_r in E | reflexivity].
Qed.

Lemma discord_class_key_inj (r1 r2 : class_row) (s1 s2 : string) :
  is_threshold s1 → is_threshold s2 →
  plain (cls_course r1) → plain (cls_batch_name r1) → plain (cls_session_name r1) →
  plain (cls_course r2) → plain (cls_batch_name r2) → plain (cls_session_name r2) →
  Discord.class_key r1 s1 = Discord.class_key r2 s2 →
  cls_course r1 = cls_course r2 ∧ cls_batch_name r1 = cls_batch_name r2 ∧
  cls_session_name r1 = cls_session_name r2 ∧ cls_date r1 = cls_date r2 ∧ s1 = s2.
Proof.
  intros Hs1 Hs2 Hc1 Hb1 Hn1 Hc2 Hb2 Hn2 E. unfold Discord.class_key in E.
  apply (inj (String.append _)) in E.
  apply split_at_hyphen in E as [Ec E]; [| assumption ..].
  apply split_at_hyphen in E as [Eb E]; [| assumption ..].
  apply split_at_hyphen in E as [En E]; [| assumption ..].
  apply date_and_suffix in E as [Ed Es]; [| assumption ..].
  auto.
Qed.

Lemma discord_assign_key_inj (r1 r2 : assignment_row) (s1 s2 : string) :
  is_threshold s1 → is_threshold s2 →
  plain (asg_course r1) → plain (asg_batch_name r1) → plain (asg_subject r1) →
  plain (asg_course r2) → plain (asg_batch_name r2) → plain (asg_subject r2) →
  Discord.assign_key r1 s1 = Discord.assign_key r2 s2 →
  asg_course r1 = asg_course r2 ∧ asg_batch_name r1 = asg_batch_name r2 ∧
  asg_subject r1 = asg_subject r2 ∧ asg_due_date r1 = asg_due_date r2 ∧ s1 = s2.
Proof.
  intros Hs1 Hs2 Hc1 Hb1 Hn1 Hc2 Hb2 Hn2 E. unfold Discord.assign_key in E.
  apply (inj (String.append _)) in E.
  apply split_at_hyphen in E as [Ec E]; [| assumption ..].
  apply split_at_hyphen in E as [Eb E]; [| assumption ..].
  apply split_at_hyphen in E as [En E]; [| assumption ..].
  apply date_and_suffix in E as [Ed Es]; [| assumption ..].
  auto.
Qed.

Lemma mail_hours_inj (h1 h2 : Z) :
  h1 = 24 ∨ h1 = 1 → h2 = 24 ∨ h2 = 1 → pretty h1 = pretty h2 → h1 = h2.
Proof.
  intros [-> | ->] [-> | ->] E; try reflexivity; vm_compute in E; discriminate.
Qed.

Lemma mail_class_key_inj (r1 r2 : class_row) (h1 h2 : Z) :
  h1 = 24 ∨ h1 = 1 → h2 = 24 ∨ h2 = 1 →
  plain (cls_course r1) → plain (cls_batch_name r1) →
  plain (py_format (cls_year r1)) → plain (PyStr.strip (cls_mode r1)) →
  plain (cls_session_name r1) →
  plain (cls_course r2) → plain (cls_batch_name r2) →
  plain (py_format (cls_year r2)) → plain (PyStr.strip (cls_mode r2)) →
  plain (cls_session_name r2) →
  Mail.class_key r1 h1 = Mail.class_key r2 h2 →
  cls_course r1 = cls_course r2 ∧ cls_batch_name r1 = cls_batch_name r2 ∧
  py_format (cls_year r1) = py_format (cls_year r2) ∧
  PyStr.strip (cls_mode r1) = PyStr.strip (cls_mode r2) ∧
  cls_session_name r1 = cls_session_name r2 ∧ h1 = h2.
Proof.
  intros Hh1 Hh2 Hc1 Hb1 Hy1 Hm1 Hn1 Hc2 Hb2 Hy2 Hm2 Hn2 E.
  unfold Mail.class_key in E. apply (inj (String.append _)) in E.
  apply split_at_hyphen in E as [Ec E]; [| assumption ..].
  apply split_at_hyphen in E as [Eb E]; [| assumption ..].
  apply split_at_hyphen in E as [Ey E]; [| assumption ..].
  apply split_at_hyphen in E as [Em E]; [| assumption ..].
  apply split_at_hyphen in E as [En E]; [| assumption ..].
  repeat (split; [assumption |]). now apply mail_hours_inj.
Qed.

Lemma mail_assignment_key_inj (r1 r2 : assignment_row) (h1 h2 : Z) :
  h1 = 24 ∨ h1 = 1 → h2 = 24 ∨ h2 = 1 →
  plain (asg_course r1) → plain (asg_batch_name r1) →
  plain (py_format (asg_year r1)) → plain (PyStr.strip (asg_mode r1)) →
  plain (asg_subject r1) →
  plain (asg_course r2) → plain (asg_batch_name r2) →
  plain (py_format (asg_year r2)) → plain (PyStr.strip (asg_mode r2)) →
  plain (asg_subject r2) →
  Mail.assignment_key r1 h1 = Mail.assignment_key r2 h2 →
  asg_course r1 = asg_course r2 ∧ asg_batch_name r1 = asg_batch_name r2 ∧
  py_format (asg_year r1) = py_format (asg_year r2) ∧
  PyStr.strip (asg_mode r1) = PyStr.strip (asg_mode r2) ∧
  asg_subject r1 = asg_subject r2 ∧ h1 = h2.
Proof.
  intros Hh1 Hh2 Hc1 Hb1 Hy1 Hm1 Hn1 Hc2 Hb2 Hy2 Hm2 Hn2 E.
  unfold Mail.assignment_key in E. apply (inj (String.append _)) in E.
  apply split_at_hyphen in E as [Ec E]; [| assumption ..].
  apply split_at_hyphen in E as [Eb E]; [| assumption ..].
  apply split_at_hyphen in E as [Ey E]; [| assumption ..].
  apply split_at_hyphen in E as [Em E]; [| assumption ..].
  apply split_at_hyphen in E as [En E]; [| assumption ..].
  repeat (split; [assumption |]). now apply mail_hours_inj.
Qed.

Lemma mail_kinds_differ (c : class_row) (a : assignment_row) (h h' : Z) :
  Mail.class_key c h ≠ Mail.assignment_key a h'.
Proof.
  intros E. unfold Mail.class_key, Mail.assignment_key in E.
  rewrite !append_cons in E. discriminate.
Qed.

(** C2 (as amended).  The key of the Discord notifier is the kind, the
    course, the batch, the session or subject, the date and the threshold
    joined by hyphens: rows that agree on these fields have the same key
    whatever their year, the key of the class CS101 / A / Intro /
    2024-01-02 at 24 hours is [class-CS101-A-Intro-2024-01-02-24hr], rows
    that differ in the date only have different keys, a class key is never
    an assignment key, and when course, batch and session or subject hold
    no hyphen the key determines all of them, the date and the threshold.
    The key of the mail scheduler is the kind, the course, the batch, the
    year, the stripped mode, the session or subject and the hours joined
    by hyphens, without the date: when these fields hold no hyphen, two
    keys are equal exactly when the fields and the hours are, whatever the
    dates, and a class key is never an assignment key. *)
Theorem reminder_keys :
  Discord.class_key intro_class "-24hr" = "class-CS101-A-Intro-2024-01-02-24hr" ∧
  (∀ (r1 r2 : class_row) suffix,
     cls_course r1 = cls_course r2 → cls_batch_name r1 = cls_batch_name r2 →
     cls_session_name r1 = cls_session_name r2 →
     (cls_date r1 = cls_date r2 → Discord.class_key r1 suffix = Discord.class_key r2 suffix) ∧
     (cls_date r1 ≠ cls_date r2 → Discord.class_key r1 suffix ≠ Discord.class_key r2 suffix)) ∧
  (∀ (r1 r2 : assignment_row) suffix,
     asg_course r1 = asg_course r2 → asg_batch_name r1 = asg_batch_name r2 →
     asg_subject r1 = asg_subject r2 →
     (asg_due_date r1 = asg_due_date r2 →
      Discord.assign_key r1 suffix = Discord.assign_key r2 suffix) ∧
     (asg_due_date r1 ≠ asg_due_date r2 →
      Discord.assign_key r1 suffix ≠ Discord.assign_key r2 suffix)) ∧
  (∀ (c : class_row) (a : assignment_row) s s',
     Discord.class_key c s ≠ Discord.assign_key a s') ∧
  (∀ (r1 r2 : class_row) s1 s2,
     is_threshold s1 → is_threshold s2 →
     plain (cls_course r1) → plain (cls_batch_name r1) → plain (cls_session_name r1) →
     plain (cls_course r2) → plain (cls_batch_name r2) → plain (cls_session_name r2) →
     Discord.class_key r1 s1 = Discord.class_key r2 s2 →
     cls_course r1 = cls_course r2 ∧ cls_batch_name r1 = cls_batch_name r2 ∧
     cls_session_name r1 = cls_session_name r2 ∧ cls_date r1 = cls_date r2 ∧ s1 = s2) ∧
  (∀ (r1 r2 : assignment_row) s1 s2,
     is_threshold s1 → is_threshold s2 →
     plain (asg_course r1) → plain (asg_batch_name r1) → plain (asg_subject r1) →
     plain (asg_course r2) → plain (asg_batch_name r2) → plain (asg_subject r2) →
     Discord.assign_key r1 s1 = Discord.assign_key r2 s2 →
     asg_course r1 = asg_course r2 ∧ asg_batch_name r1 = asg_batch_name r2 ∧
     asg_subject r1 = asg_subject r2 ∧ asg_due_date r1 = asg_due_date r2 ∧ s1 = s2) ∧
  (∀ (r1 r2 : class_row) h1 h2,
     h1 = 24 ∨ h1 = 1 → h2 = 24 ∨ h2 = 1 →
     plain (cls_course r1) → plain (cls_batch_name r1) →
     plain (py_format (cls_year r1)) → plain (PyStr.strip (cls_mode r1)) →
     plain (cls_session_name r1) →
     plain (cls_course r2) → plain (cls_batch_name r2) →
     plain (py_format (cls_year r2)) → plain (PyStr.strip (cls_mode r2)) →
     plain (cls_session_name r2) →
     (Mail.class_key r1 h1 = Mail.class_key r2 h2
      ↔ cls_course r1 = cls_course r2 ∧ cls_batch_name r1 = cls_batch_name r2 ∧
        py_format (cls_year r1) = py_format (cls_year r2) ∧
        PyStr.strip (cls_mode r1) = PyStr.strip (cls_mode r2) ∧
        cls_session_name r1 = cls_session_name r2 ∧ h1 = h2)) ∧
  (∀ (r1 r2 : assignment_row) h1 h2,
     h1 = 24 ∨ h1 = 1 → h2 = 24 ∨ h2 = 1 →
     plain (asg_course r1) → plain (asg_batch_name r1) →
     plain (py_format (asg_year r1)) → plain (PyStr.strip (asg_mode r1)) →
     plain (asg_subject r1) →
     plain (asg_course r2) → plain (asg_batch_name r2) →
     plain (py_format (asg_year r2)) → plain (PyStr.strip (asg_mode r2)) →
     plain (asg_subject r2) →
     (Mail.assignment_key r1 h1 = Mail.assignment_key r2 h2
      ↔ asg_course r1 = asg_course r2 ∧ asg_batch_name r1 = asg_batch_name r2 ∧
        py_format (asg_year r1) = py_format (asg_year r2) ∧
        PyStr.strip (asg_mode r1) = PyStr.strip (asg_mode r2) ∧
        asg_subject r1 = asg_subject r2 ∧ h1 = h2)) ∧
  (∀ (c : class_row) (a : assignment_row) h h',
     Mail.class_key c h ≠ Mail.assignment_key a h').
Proof.
  split; [reflexivity |].
  split; [| split; [| split; [| split; [| split; [| split; [| split]]]]]].
  - intros r1 r2 suffix Ec Eb En. unfold Discord.class_key. rewrite Ec, Eb, En. split.
    + now intros ->.
    + intros Hd E. repeat (apply (inj (String.append _)) in E).
      now apply append_cancel_r in E.
  - intros r1 r2 suffix Ec Eb En. unfold Discord.assign_key. rewrite Ec, Eb, En. split.
    + now intros ->.
    + intros Hd E. repeat (apply (inj (String.append _)) in E).
      now apply append_cancel_r in E.
  - intros c a s s' E. unfold Discord.class_key, Discord.assign_key in E.
    rewrite !append_cons in E. discriminate.
  - exact discord_class_key_inj.
  - exact discord_assign_key_inj.
  - intros r1 r2 h1 h2 Hh1 Hh2 Hc1 Hb1 Hy1 Hm1 Hn1 Hc2 Hb2 Hy2 Hm2 Hn2. split.
    + now apply mail_class_key_inj.
    + intros (Ec & Eb & Ey & Em & En & ->). unfold Mail.class_key.
      now rewrite Ec, Eb, Ey, Em, En.
  - intros r1 r2 h1 h2 Hh1 Hh2 Hc1 Hb1 Hy1 Hm1 Hn1 Hc2 Hb2 Hy2 Hm2 Hn2. split.
    + now apply mail_assignment_key_inj.
    + intros (Ec & Eb & Ey & Em & En & ->). unfold Mail.assignment_key.
      now rewrite Ec, Eb, Ey, Em, En.
  - exact mail_kinds_differ.
Qed.

(** Two days of the same class have different Discord keys. *)
Lemma reminder_keys_witness :
  cls_date intro_class ≠ cls_date intro_class_next_day ∧
  Discord.class_key intro_class "-24hr" ≠ Discord.class_key intro_class_next_day "-24hr".
Proof.
  assert (Hdate : cls_date intro_class ≠ cls_date intro_class_next_day) by discriminate.
  split; [exact Hdate |].
  exact (proj2 (proj1 (proj2 reminder_keys) intro_class intro_class_next_day "-24hr"
                  eq_refl eq_refl eq_refl) Hdate).
Defined.

(** The year is not in the Discord key, the date is not in the mail key,
    and a hyphen inside a field can move to its neighbour. *)
Lemma keys_leave_out_year_and_date :
  (cls_year intro_class ≠ cls_year intro_class_2025 ∧
   Discord.class_key intro_class "-24hr" = Discord.class_key intro_class_2025 "-24hr") ∧
  (cls_date intro_class ≠ cls_date intro_class_next_day ∧
   Mail.class_key intro_class 24 = Mail.class_key intro_class_next_day 24) ∧
  (cls_course hyphen_in_course ≠ cls_course hyphen_in_batch ∧
   Discord.class_key hyphen_in_course "-24hr" = Discord.class_key hyphen_in_batch "-24hr").
Proof. repeat split; try discriminate; vm_compute; reflexivity. Qed.

End Keys.

(** ** Start-up and the scheduler loops *)

Section Startup.
Context {rt : Runtime}.

Lemma truthy_none : truthy None = false.
Proof. reflexivity. Qed.

(** C8 (as amended).  The Discord notifier raises, before its loop runs
    once, whenever the token, the channel id or the database path is
    absent; the mail scheduler whenever the sender address or the password
    is absent.  An absent database path is not an error for the mail
    scheduler: it takes the built-in path and runs. *)
Theorem missing_configuration :
  (∀ env f channel_found ws,
     env !! "DISCORD_TOKEN" = None ∨ env !! "DISCORD_CHANNEL_ID" = None ∨
     env !! "DB_PATH" = None →
     ∃ e, Discord.main env f channel_found ws = inl e) ∧
  (∀ env ws,
     env !! "SENDER_EMAIL" = None ∨ env !! "SENDER_PASS" = None →
     ∃ e, Mail.main env ws = inl e) ∧
  (∀ env ws,
     env !! "DB_PATH" = None →
     truthy (env !! "SENDER_EMAIL") = true → truthy (env !! "SENDER_PASS") = true →
     (∃ cfg, Mail.load_config env = inr cfg ∧
             Mail.DB_PATH cfg
             = "D:\Internship_ICT\Final\automated_reminders\database\reminders.db") ∧
     Mail.main env ws = inr (Mail.main_loop ws ∅)).
Proof.
  split; [| split].
  - intros env f channel_found ws Habsent. unfold Discord.main, Discord.load_config.
    destruct (env !! "DISCORD_CHANNEL_ID") as [s|] eqn:Hid; [| eauto].
    destruct (py_int s) as [channel_id|]; [| eauto].
    destruct Habsent as [Htoken | [Hnone | Hdb]]; [| discriminate |].
    + rewrite Htoken. simpl. eauto.
    + rewrite Hdb. simpl. rewrite !orb_true_r. eauto.
  - intros env ws Habsent. unfold Mail.main, Mail.load_config.
    destruct Habsent as [Hmail | Hpass].
    + rewrite Hmail. simpl. eauto.
    + rewrite Hpass. simpl. rewrite orb_true_r. eauto.
  - intros env ws Hdb Hmail Hpass. unfold Mail.main, Mail.load_config.
    rewrite Hdb, Hmail, Hpass. simpl. split; [| reflexivity].
    eexists. split; reflexivity.
Qed.

(** The mail loop begins every iteration it is given, whatever the earlier
    ones raised. *)
Lemma mail_loop_never_stops (ws : list Mail.world) (sent : gset string) :
  length (Mail.main_loop ws sent).2 = length ws.
Proof.
  revert sent. induction ws as [|w ws IH]; intros sent; [reflexivity |].
  cbn [Mail.main_loop]. destruct (Mail.iteration w sent) as [sent1 log].
  specialize (IH sent1). destruct (Mail.main_loop ws sent1) as [sent2 logs].
  simpl in *. now rewrite IH.
Qed.

(** The Discord loop ends with the first iteration on which a query or the
    write of the log file raises. *)
Lemma discord_loop_stops w ws st :
  Discord.classes w = None ∨ Discord.assignments w = None ∨ Discord.disk_ok w = false →
  (Discord.reminder_loop (w :: ws) st).2 = false ∧
  length (Discord.reminder_loop (w :: ws) st).1.2 = 1%nat.
Proof.
  intros Hfail. cbn [Discord.reminder_loop].
  assert (Hdead : (Discord.tick w st).2 = false).
  { unfold Discord.tick. destruct (Discord.classes w); [| reflexivity].
    destruct (for_each _ _ _) as [s1 l1].
    destruct (Discord.assignments w); [| reflexivity].
    destruct (for_each _ _ _) as [s2 l2].
    destruct (Discord.disk_ok w); [| reflexivity].
    destruct Hfail as [? | [? | ?]]; discriminate. }
  destruct (Discord.tick w st) as [[st1 log] alive]. simpl in Hdead. subst alive.
  now split.
Qed.

End Startup.

Section StartupScenarios.
Local Open Scope Z_scope.

Lemma missing_configuration_witness :
  ∃ e, Discord.main (rt := calendar_runtime) ∅ None true
         [discord_world day_before delivering] = inl e.
Proof.
  apply (proj1 (missing_configuration (rt := calendar_runtime))).
  left. reflexivity.
Defined.

(** Without [DB_PATH] the mail scheduler starts and runs its iteration. *)
Lemma mail_runs_without_db_path :
  sender_only !! "DB_PATH" = None ∧
  ∃ sent logs,
    Mail.main (rt := calendar_runtime) sender_only
      [mail_world day_before [alice] delivering] = inr (sent, logs) ∧
    length logs = 1%nat ∧
    dispatches (Mail.class_key intro_class 24) (whole_log logs) = 1%nat.
Proof.
  split; [reflexivity |]. eexists _, _. split; [reflexivity |].
  split; vm_compute; reflexivity.
Qed.

(** C9 on the Discord notifier.  On an iteration whose query raises, the
    loop ends: the next iteration, on which the reminder of the class is
    due, is never begun and nothing is sent.  The same goes for an
    iteration on which the log file cannot be written.  The mail scheduler
    on the same two iterations prints the error and sends the reminder on
    the second. *)
Theorem discord_loop_ends_on_failure :
  Discord.reminder_loop (rt := calendar_runtime)
    [discord_store_down (day_before - 60 * us); discord_world day_before delivering] fresh
  = (fresh, [[]], false) ∧
  (Discord.reminder_loop (rt := calendar_runtime)
     [discord_disk_full (hour_before - 60 * us); discord_world hour_before delivering]
     fresh).2 = false ∧
  length (Discord.reminder_loop (rt := calendar_runtime)
            [discord_disk_full (hour_before - 60 * us); discord_world hour_before delivering]
            fresh).1.2 = 1%nat ∧
  (Mail.main_loop (rt := calendar_runtime)
     [mail_store_down (day_before - 60 * us); mail_world day_before [alice] delivering]
     ∅).2
  = [[Warning "Error in reminder loop"];
     (Mail.iteration (rt := calendar_runtime)
        (mail_world day_before [alice] delivering) ∅).2] ∧
  dispatches (Mail.class_key intro_class 24)
    (Mail.iteration (rt := calendar_runtime)
       (mail_world day_before [alice] delivering) ∅).2 = 1%nat.
Proof.
  split; [reflexivity |]. split; [vm_compute; reflexivity |].
  split; [vm_compute; reflexivity |]. split; vm_compute; reflexivity.
Qed.

End StartupScenarios.

(** ** The ledger holds the keys it started with and the keys sent under *)

Section Accounting.
Context {M : Type}.
Implicit Types (step : gset string → gset string * list (log_entry M)).

Lemma accounted_quiet (log : gset string → list (log_entry M)) :
  accounted (λ sent, (sent, log sent)).
Proof. intros sent key Hin. now left. Qed.

Lemma accounted_unsent (k : string) (go : bool) (p : M) step :
  accounted step →
  accounted (λ sent,
    if go && negb (bool_decide (k ∈ sent))
    then ({[k]} ∪ sent, [Dispatch k p])
    else step sent).
Proof.
  intros Hstep sent key. destruct (go && negb (bool_decide (k ∈ sent))); [| apply Hstep].
  simpl. rewrite elem_of_union, elem_of_singleton. intros [-> | Hin]; [right | now left].
  rewrite bool_decide_eq_true_2 by reflexivity. lia.
Qed.

Lemma accounted_chain {A} step1 (met : gset string → A)
    (step2 : A → gset string → gset string * list (log_entry M)) :
  accounted step1 → (∀ a, accounted (step2 a)) →
  accounted (λ sent,
    let '(sent1, log1) := step1 sent in
    let '(sent2, log2) := step2 (met sent) sent1 in
    (sent2, log1 ++ log2)).
Proof.
  intros H1 H2 sent key. specialize (H1 sent key). specialize (H2 (met sent)).
  destruct (step1 sent) as [sent1 log1]. specialize (H2 sent1 key).
  destruct (step2 (met sent) sent1) as [sent2 log2]. simpl in *.
  rewrite dispatches_app. intros Hin.
  destruct (H2 Hin) as [Hin1 | Hpos]; [| right; lia].
  destruct (H1 Hin1) as [Hin0 | Hpos]; [now left | right; lia].
Qed.

Lemma accounted_then step1 step2 :
  accounted step1 → accounted step2 →
  accounted (λ sent,
    let '(sent1, log1) := step1 sent in
    let '(sent2, log2) := step2 sent1 in
    (sent2, log1 ++ log2)).
Proof.
  intros H1 H2. apply (accounted_chain step1 (λ _, tt) (λ _, step2) H1). now intros _.
Qed.

Lemma accounted_ext step1 step2 :
  (∀ sent, step1 sent = step2 sent) → accounted step1 → accounted step2.
Proof. intros E H sent key. rewrite <- E. apply H. Qed.

Lemma accounted_for_each {R} (body : R → gset string → gset string * list (log_entry M))
    (rows : list R) :
  (∀ row, accounted (body row)) → accounted (for_each body rows).
Proof.
  intros Hbody. induction rows as [|row rows IH].
  - simpl. apply (accounted_quiet (λ _, [])).
  - simpl. apply (accounted_then _ _ (Hbody row) IH).
Qed.

End Accounting.

Section AccountedSites.
Context {rt : Runtime}.

Lemma discord_remind_accounted now channel target k24 k1 m24 m1 :
  accounted (Discord.remind now channel target k24 k1 m24 m1).
Proof.
  unfold Discord.remind, Discord.send_reminder.
  apply accounted_unsent, accounted_unsent, (accounted_quiet (λ _, [])).
Qed.

Lemma discord_process_class_accounted now channel row :
  accounted (Discord.process_class now channel row).
Proof.
  unfold Discord.process_class.
  destruct (strptime _); [apply discord_remind_accounted |].
  apply (accounted_quiet (λ _, [Warning "Error reading class data"])).
Qed.

Lemma discord_process_assignment_accounted now channel row :
  accounted (Discord.process_assignment now channel row).
Proof.
  unfold Discord.process_assignment.
  destruct (Discord.no_due_date _); [apply (accounted_quiet (λ _, [])) |].
  destruct (strptime _); [apply discord_remind_accounted |].
  apply (accounted_quiet (λ _, [Warning "Error reading assignment data"])).
Qed.

Lemma discord_tick_accounted (w : Discord.world) (f : SentLog.file) :
  accounted (λ sent,
    let r := Discord.tick w {| Discord.sent_reminders := sent; Discord.sent_log := f |} in
    (Discord.sent_reminders r.1.1, r.1.2)).
Proof.
  unfold Discord.tick. destruct (Discord.classes w) as [df_classes|].
  2:{ simpl. apply (accounted_quiet (λ _, [])). }
  destruct (Discord.assignments w) as [df_assignments|].
  - eapply accounted_ext.
    2:{ apply (accounted_then
                 (for_each (Discord.process_class (Discord.now w) (Discord.channel w))
                           df_classes)
                 (for_each (Discord.process_assignment (Discord.now w) (Discord.channel w))
                           df_assignments));
        apply accounted_for_each; intros row;
        [apply discord_process_class_accounted
        | apply discord_process_assignment_accounted]. }
    intros sent. simpl.
    destruct (for_each _ df_classes sent) as [sent1 log1].
    destruct (for_each _ df_assignments sent1) as [sent2 log2].
    now destruct (Discord.disk_ok w).
  - eapply accounted_ext.
    2:{ apply (accounted_for_each
                 (Discord.process_class (Discord.now w) (Discord.channel w)) df_classes).
        intros row. apply discord_process_class_accounted. }
    intros sent. simpl. now destruct (for_each _ df_classes sent) as [sent1 log1].
Qed.

Lemma discord_loop_accounted (ws : list Discord.world) (f : SentLog.file) :
  accounted (λ sent,
    let r := Discord.reminder_loop ws
               {| Discord.sent_reminders := sent; Discord.sent_log := f |} in
    (Discord.sent_reminders r.1.1, whole_log r.1.2)).
Proof.
  revert f. induction ws as [|w ws IH]; intros f.
  - simpl. apply (accounted_quiet (λ _, [])).
  - eapply accounted_ext.
    2:{ apply (accounted_chain _
                 (λ sent, Discord.tick w
                    {| Discord.sent_reminders := sent; Discord.sent_log := f |})
                 (λ met sent1,
                    if met.2
                    then let r := Discord.reminder_loop ws
                                    {| Discord.sent_reminders := sent1;
                                       Discord.sent_log := Discord.sent_log met.1.1 |} in
                         (Discord.sent_reminders r.1.1, whole_log r.1.2)
                    else (sent1, []))
                 (discord_tick_accounted w f)).
        intros [[st1 log] alive]. simpl. destruct alive; [apply IH |].
        apply (accounted_quiet (λ _, [])). }
    intros sent. cbn [Discord.reminder_loop].
    destruct (Discord.tick w _) as [[[sent1 f1] log] alive]. simpl.
    destruct alive; simpl.
    + destruct (Discord.reminder_loop ws _) as [[st2 logs] alive']. simpl.
      reflexivity.
    + now rewrite app_nil_r.
Qed.

Lemma mail_remind_accounted now smtp students_df course batch_name year mode
    reminder_time key subject text :
  accounted (Mail.remind now smtp students_df course batch_name year mode
               reminder_time key subject text).
Proof.
  unfold Mail.remind.
  destruct (Mail.recipients students_df course batch_name year mode) as [|stu stus].
  - intros sent k. destruct (_ && _); simpl; now left.
  - apply accounted_unsent, (accounted_quiet (λ _, [])).
Qed.

Lemma mail_process_class_accounted now smtp students_df row :
  accounted (mail_class_step now smtp students_df row).
Proof.
  unfold mail_class_step, Mail.process_class.
  destruct (strptime _) as [naive|];
    [| apply (accounted_quiet (λ _, [Warning "Invalid datetime for class"]))].
  destruct (localize naive); [| apply (accounted_quiet (λ _, []))].
  apply (accounted_for_each (Mail.class_reminder now smtp students_df row _)).
  intros hours_before. apply mail_remind_accounted.
Qed.

Lemma mail_process_assignment_accounted now smtp students_df row :
  accounted (mail_assignment_step now smtp students_df row).
Proof.
  unfold mail_assignment_step, Mail.process_assignment.
  destruct (strptime _) as [naive|];
    [| apply (accounted_quiet (λ _, [Warning "Invalid due date for assignment"]))].
  destruct (localize naive); [| apply (accounted_quiet (λ _, []))].
  apply (accounted_for_each (Mail.assignment_reminder now smtp students_df row _)).
  intros hours_before. apply mail_remind_accounted.
Qed.

Lemma mail_rounds_accounted (w : Mail.world) : accounted (mail_rounds w).
Proof.
  unfold mail_rounds.
  destruct (Mail.students w) as [students_df|]; [| apply (accounted_quiet (λ _, []))].
  destruct (Mail.classes w) as [classes_df|]; [| apply (accounted_quiet (λ _, []))].
  destruct (Mail.assignments w) as [assignments_df|];
    [| apply (accounted_quiet (λ _, []))].
  eapply accounted_ext.
  2:{ apply (accounted_then
               (for_each (mail_class_step (Mail.now w) (Mail.smtp w) students_df)
                         classes_df)
               (for_each (mail_assignment_step (Mail.now w) (Mail.smtp w) students_df)
                         assignments_df));
      apply accounted_for_each; intros row;
      [apply mail_process_class_accounted | apply mail_process_assignment_accounted]. }
  intros sent. simpl.
  destruct (for_each _ classes_df sent) as [sent1 log1].
  now destruct (for_each _ assignments_df sent1) as [sent2 log2].
Qed.

Lemma mail_iteration_accounted (w : Mail.world) : accounted (Mail.iteration w).
Proof.
  eapply accounted_ext.
  2:{ apply (accounted_then (mail_rounds (reached w)) (λ sent, (sent, closing w))
               (mail_rounds_accounted (reached w))).
      apply (accounted_quiet (λ _, closing w)). }
  intros sent. rewrite mail_iteration_rounds.
  now destruct (mail_rounds (reached w) sent) as [sent1 log1].
Qed.

Lemma mail_loop_accounted (ws : list Mail.world) :
  accounted (λ sent, let r := Mail.main_loop ws sent in (r.1, whole_log r.2)).
Proof.
  induction ws as [|w ws IH].
  - simpl. apply (accounted_quiet (λ _, [])).
  - eapply accounted_ext; [| apply (accounted_then _ _ (mail_iteration_accounted w) IH)].
    intros sent. cbn [Mail.main_loop].
    destruct (Mail.iteration w sent) as [sent1 log].
    now destruct (Mail.main_loop ws sent1) as [sent2 logs].
Qed.

(** X1.  At the end of any run of either loop the ledger holds exactly the
    keys it held at the start and the keys a reminder was sent under
    during the run: it never loses a key and never gains one without a
    send. *)
Theorem ledger_is_start_plus_sent (key : string) :
  (∀ (ws : list Discord.world) (st : Discord.state),
     key ∈ Discord.sent_reminders (Discord.reminder_loop ws st).1.1
     ↔ key ∈ Discord.sent_reminders st
       ∨ (0 < dispatches key (whole_log (Discord.reminder_loop ws st).1.2))%nat) ∧
  (∀ (ws : list Mail.world) (sent : gset string),
     key ∈ (Mail.main_loop ws sent).1
     ↔ key ∈ sent ∨ (0 < dispatches key (whole_log (Mail.main_loop ws sent).2))%nat).
Proof.
  split.
  - intros ws [sent f]. destruct (discord_loop_guarded ws f) as [G _ _ Mk]. split.
    + apply (discord_loop_accounted ws f sent key).
    + intros [Hin | Hpos]; [now apply (G sent) | now apply (Mk sent key)].
  - intros ws sent. destruct (mail_loop_guarded ws) as [G _ _ Mk]. split.
    + apply (mail_loop_accounted ws sent key).
    + intros [Hin | Hpos]; [now apply (G sent) | now apply (Mk sent key)].
Qed.

End AccountedSites.

(** ** Nothing is sent outside a window *)

Section Soundness.
Context {rt : Runtime}.
Local Open Scope Z_scope.

(** An entry of the log of a loop over rows comes from one of the rows, run
    on a ledger that holds at least what the loop started with. *)
Lemma for_each_elem {R M} (body : R → gset string → gset string * list (log_entry M))
    (rows : list R) (sent : gset string) (e : log_entry M) :
  (∀ row s, s ⊆ (body row s).1) →
  e ∈ (for_each body rows sent).2 →
  ∃ row s, row ∈ rows ∧ sent ⊆ s ∧ e ∈ (body row s).2.
Proof.
  intros Hgrow. revert sent. induction rows as [|row rows IH]; intros sent Hin.
  - simpl in Hin. apply elem_of_nil in Hin. destruct Hin.
  - simpl in Hin. pose proof (Hgrow row sent) as Hsub.
    destruct (body row sent) as [s1 l1] eqn:E1.
    specialize (IH s1). destruct (for_each body rows s1) as [s2 l2].
    simpl in *. apply elem_of_app in Hin as [Hin | Hin].
    + exists row, sent. split; [apply elem_of_cons; now left |].
      split; [reflexivity |]. now rewrite E1.
    + destruct (IH Hin) as (row' & s & Hrow & Hs & He).
      exists row', s. split; [apply elem_of_cons; now right |].
      split; [now transitivity s1 | exact He].
Qed.

Lemma discord_remind_elem now channel target k24 k1 m24 m1 sent key p :
  Dispatch key p ∈ (Discord.remind now channel target k24 k1 m24 m1 sent).2 →
  (key ∉ sent) ∧
  ((key = k24 ∧ p = (m24, channel m24) ∧ Discord.in_window (target - now) 86400 = true) ∨
   (key = k1 ∧ p = (m1, channel m1) ∧ Discord.in_window (target - now) 3600 = true)).
Proof.
  unfold Discord.remind, Discord.send_reminder.
  destruct (Discord.in_window (target - now) 86400) eqn:W24;
    destruct (bool_decide (k24 ∈ sent)) eqn:B24; simpl;
    destruct (Discord.in_window (target - now) 3600) eqn:W1;
    destruct (bool_decide (k1 ∈ sent)) eqn:B1; simpl; intros Hin;
    try (apply elem_of_nil in Hin; destruct Hin);
    apply list_elem_of_singleton in Hin; injection Hin as -> ->;
    try apply bool_decide_eq_false in B24; try apply bool_decide_eq_false in B1;
    (split; [assumption |]); auto.
Qed.

Lemma mail_remind_elem now smtp students_df course batch_name year mode
    reminder_time k subject text sent key mails :
  Dispatch key mails ∈ (Mail.remind now smtp students_df course batch_name year mode
                          reminder_time k subject text sent).2 →
  key = k ∧ (key ∉ sent) ∧ Mail.due now reminder_time = true ∧
  Mail.recipients students_df course batch_name year mode ≠ [] ∧
  mails = List.map (λ stu, Mail.send_email smtp (stu_email stu) subject (text stu))
            (Mail.recipients students_df course batch_name year mode).
Proof.
  unfold Mail.remind. destruct (Mail.due now reminder_time); simpl;
    [| intros Hin; apply elem_of_nil in Hin; destruct Hin].
  destruct (bool_decide (k ∈ sent)) eqn:B; simpl;
    [intros Hin; apply elem_of_nil in Hin; destruct Hin |].
  apply bool_decide_eq_false in B.
  destruct (Mail.recipients students_df course batch_name year mode) as [|stu stus] eqn:Hsel.
  - intros Hin. apply list_elem_of_singleton in Hin. discriminate.
  - intros Hin. apply list_elem_of_singleton in Hin. injection Hin as -> ->.
    repeat split; auto.
Qed.

(** X2.  Every reminder the Discord notifier sends in an iteration is for a
    row of the table read in that iteration, whose date and time parse,
    under the key of one of its two thresholds, at a clock inside that
    threshold's window, and under a key the ledger did not hold when the
    iteration began; the success recorded is what the channel answered. *)
Theorem discord_sends_only_in_window (w : Discord.world) (st : Discord.state)
    (key msg : string) (ok : bool) :
  Dispatch key (msg, ok) ∈ (Discord.tick w st).1.2 →
  (key ∉ Discord.sent_reminders st) ∧ ok = Discord.channel w msg ∧
  ((∃ df_classes row class_datetime,
      Discord.classes w = Some df_classes ∧ row ∈ df_classes ∧
      strptime (cls_date row +:+ " " +:+ cls_time row) = Some class_datetime ∧
      ((key = Discord.class_key row "-24hr" ∧
        Discord.in_window (class_datetime - Discord.now w) 86400 = true) ∨
       (key = Discord.class_key row "-1hr" ∧
        Discord.in_window (class_datetime - Discord.now w) 3600 = true))) ∨
   (∃ df_assignments row due_datetime,
      Discord.assignments w = Some df_assignments ∧ row ∈ df_assignments ∧
      Discord.no_due_date (asg_due_date row) = false ∧
      strptime (asg_due_date row +:+ " " +:+ "23:59") = Some due_datetime ∧
      ((key = Discord.assign_key row "-24hr" ∧
        Discord.in_window (due_datetime - Discord.now w) 86400 = true) ∨
       (key = Discord.assign_key row "-1hr" ∧
        Discord.in_window (due_datetime - Discord.now w) 3600 = true)))).
Proof.
  unfold Discord.tick. destruct (Discord.classes w) as [df_classes|] eqn:Hc.
  2:{ simpl. intros Hin. apply elem_of_nil in Hin. destruct Hin. }
  pose proof (guarded_grows _ (guarded_for_each
                (Discord.process_class (Discord.now w) (Discord.channel w)) df_classes
                (discord_process_class_guarded _ _)) (Discord.sent_reminders st)) as Hgrow1.
  pose proof (for_each_elem
                (Discord.process_class (Discord.now w) (Discord.channel w)) df_classes
                (Discord.sent_reminders st) (Dispatch key (msg, ok))
                (λ row, guarded_grows _ (discord_process_class_guarded _ _ row))) as Hcls.
  destruct (for_each _ df_classes _) as [sent1 log1]. simpl in Hgrow1, Hcls.
  assert (Hfrom_class : Dispatch key (msg, ok) ∈ log1 →
    (key ∉ Discord.sent_reminders st) ∧ ok = Discord.channel w msg ∧
    ∃ row class_datetime, row ∈ df_classes ∧
      strptime (cls_date row +:+ " " +:+ cls_time row) = Some class_datetime ∧
      ((key = Discord.class_key row "-24hr" ∧
        Discord.in_window (class_datetime - Discord.now w) 86400 = true) ∨
       (key = Discord.class_key row "-1hr" ∧
        Discord.in_window (class_datetime - Discord.now w) 3600 = true))).
  { intros Hin. destruct (Hcls Hin) as (row & s & Hrow & Hs & He).
    unfold Discord.process_class in He.
    destruct (strptime _) as [class_datetime|] eqn:Hparse.
    - apply discord_remind_elem in He as (Hkey & [(-> & Hp & Hw) | (-> & Hp & Hw)]);
        injection Hp as -> ->;
        (split; [intros Hk; apply Hkey, Hs, Hk |]); (split; [reflexivity |]);
        exists row, class_datetime; repeat (split; [assumption |]); auto.
    - simpl in He. apply list_elem_of_singleton in He. discriminate. }
  destruct (Discord.assignments w) as [df_assignments|] eqn:Ha.
  2:{ simpl. intros Hin. destruct (Hfrom_class Hin) as (? & ? & row & T & ? & ? & ?).
      split; [assumption |]. split; [assumption |]. left. eauto 10. }
  pose proof (for_each_elem
                (Discord.process_assignment (Discord.now w) (Discord.channel w))
                df_assignments sent1 (Dispatch key (msg, ok))
                (λ row, guarded_grows _ (discord_process_assignment_guarded _ _ row)))
    as Hasg.
  destruct (for_each _ df_assignments sent1) as [sent2 log2]. simpl in Hasg.
  assert (Hlog : Dispatch key (msg, ok) ∈ log1 ++ log2 →
    (key ∉ Discord.sent_reminders st) ∧ ok = Discord.channel w msg ∧
    ((∃ row class_datetime, row ∈ df_classes ∧
        strptime (cls_date row +:+ " " +:+ cls_time row) = Some class_datetime ∧
        ((key = Discord.class_key row "-24hr" ∧
          Discord.in_window (class_datetime - Discord.now w) 86400 = true) ∨
         (key = Discord.class_key row "-1hr" ∧
          Discord.in_window (class_datetime - Discord.now w) 3600 = true))) ∨
     (∃ row due_datetime, row ∈ df_assignments ∧
        Discord.no_due_date (asg_due_date row) = false ∧
        strptime (asg_due_date row +:+ " " +:+ "23:59") = Some due_datetime ∧
        ((key = Discord.assign_key row "-24hr" ∧
          Discord.in_window (due_datetime - Discord.now w) 86400 = true) ∨
         (key = Discord.assign_key row "-1hr" ∧
          Discord.in_window (due_datetime - Discord.now w) 3600 = true))))).
  { intros Hin. apply elem_of_app in Hin as [Hin | Hin].
    - destruct (Hfrom_class Hin) as (? & ? & Hrow). auto.
    - destruct (Hasg Hin) as (row & s & Hrow & Hs & He).
      unfold Discord.process_assignment in He.
      destruct (Discord.no_due_date (asg_due_date row)) eqn:Hdate.
      { simpl in He. apply elem_of_nil in He. destruct He. }
      destruct (strptime _) as [due_datetime|] eqn:Hparse.
      + apply discord_remind_elem in He as (Hkey & [(-> & Hp & Hw) | (-> & Hp & Hw)]);
          injection Hp as -> ->;
          (split; [intros Hk; apply Hkey, Hs, Hgrow1, Hk |]); (split; [reflexivity |]);
          right; exists row, due_datetime; repeat (split; [assumption |]); auto.
      + simpl in He. apply list_elem_of_singleton in He. discriminate. }
  assert (Hfinal : Dispatch key (msg, ok) ∈ log1 ++ log2 →
    (key ∉ Discord.sent_reminders st) ∧ ok = Discord.channel w msg ∧
    ((∃ df_classes0 row class_datetime,
        Some df_classes = Some df_classes0 ∧ row ∈ df_classes0 ∧
        strptime (cls_date row +:+ " " +:+ cls_time row) = Some class_datetime ∧
        ((key = Discord.class_key row "-24hr" ∧
          Discord.in_window (class_datetime - Discord.now w) 86400 = true) ∨
         (key = Discord.class_key row "-1hr" ∧
          Discord.in_window (class_datetime - Discord.now w) 3600 = true))) ∨
     (∃ df_assignments0 row due_datetime,
        Some df_assignments = Some df_assignments0 ∧ row ∈ df_assignments0 ∧
        Discord.no_due_date (asg_due_date row) = false ∧
        strptime (asg_due_date row +:+ " " +:+ "23:59") = Some due_datetime ∧
        ((key = Discord.assign_key row "-24hr" ∧
          Discord.in_window (due_datetime - Discord.now w) 86400 = true) ∨
         (key = Discord.assign_key row "-1hr" ∧
          Discord.in_window (due_datetime - Discord.now w) 3600 = true))))).
  { intros Hin. destruct (Hlog Hin) as (? & ? & [(row & T & ?) | (row & T & ?)]);
      (split; [assumption |]); (split; [assumption |]); [left | right]; eauto 10. }
  destruct (Discord.disk_ok w); simpl; exact Hfinal.
Qed.

End Soundness.

Section MailSoundness.
Context {rt : Runtime}.
Local Open Scope Z_scope.

Lemma thresholds_elem (h : Z) : h ∈ [24; 1] → h = 24 ∨ h = 1.
Proof.
  intros Hin. apply elem_of_cons in Hin as [-> | Hin]; [now left |].
  apply list_elem_of_singleton in Hin. now right.
Qed.

Lemma mail_class_elem now smtp students_df row sent key mails :
  Dispatch key mails ∈ (mail_class_step now smtp students_df row sent).2 →
  (key ∉ sent) ∧ mails ≠ [] ∧
  ∃ naive class_time h,
    strptime (cls_date row +:+ " " +:+ cls_time row) = Some naive ∧
    localize naive = Some class_time ∧
    (h = 24 ∨ h = 1) ∧ key = Mail.class_key row h ∧
    Mail.due now (class_time - Mail.hours h) = true ∧
    List.map (λ m : Mail.email * bool, Mail.to m.1) mails
    = List.map stu_email
        (Mail.recipients students_df (cls_course row) (cls_batch_name row)
                         (cls_year row) (PyStr.strip (cls_mode row))).
Proof.
  unfold mail_class_step, Mail.process_class.
  destruct (strptime _) as [naive|] eqn:Hparse.
  2:{ simpl. intros Hin. apply list_elem_of_singleton in Hin. discriminate. }
  destruct (localize naive) as [class_time|] eqn:Hzone.
  2:{ simpl. intros Hin. apply elem_of_nil in Hin. destruct Hin. }
  cbn [fst]. intros Hin.
  apply (for_each_elem (Mail.class_reminder now smtp students_df row class_time)) in Hin
    as (h & s & Hh & Hs & He).
  2:{ intros h s. apply (guarded_grows _ (mail_remind_guarded _ _ _ _ _ _ _ _ _ _ _)). }
  unfold Mail.class_reminder in He.
  apply mail_remind_elem in He as (-> & Hkey & Hdue & Hsel & ->).
  split; [intros Hk; apply Hkey, Hs, Hk |].
  split; [destruct (Mail.recipients _ _ _ _ _); [congruence | discriminate] |].
  exists naive, class_time, h. split; [reflexivity |]. split; [exact Hzone |].
  split; [now apply thresholds_elem |]. split; [reflexivity |].
  split; [exact Hdue | apply mails_addresses].
Qed.

Lemma mail_assignment_elem now smtp students_df row sent key mails :
  Dispatch key mails ∈ (mail_assignment_step now smtp students_df row sent).2 →
  (key ∉ sent) ∧ mails ≠ [] ∧
  ∃ naive due_time h,
    strptime (Mail.with_default_time (asg_due_date row)) = Some naive ∧
    localize naive = Some due_time ∧
    (h = 24 ∨ h = 1) ∧ key = Mail.assignment_key row h ∧
    Mail.due now (due_time - Mail.hours h) = true ∧
    List.map (λ m : Mail.email * bool, Mail.to m.1) mails
    = List.map stu_email
        (Mail.recipients students_df (asg_course row) (asg_batch_name row)
                         (asg_year row) (PyStr.strip (asg_mode row))).
Proof.
  unfold mail_assignment_step, Mail.process_assignment.
  destruct (strptime _) as [naive|] eqn:Hparse.
  2:{ simpl. intros Hin. apply list_elem_of_singleton in Hin. discriminate. }
  destruct (localize naive) as [due_time|] eqn:Hzone.
  2:{ simpl. intros Hin. apply elem_of_nil in Hin. destruct Hin. }
  cbn [fst]. intros Hin.
  apply (for_each_elem (Mail.assignment_reminder now smtp students_df row due_time)) in Hin
    as (h & s & Hh & Hs & He).
  2:{ intros h s. apply (guarded_grows _ (mail_remind_guarded _ _ _ _ _ _ _ _ _ _ _)). }
  unfold Mail.assignment_reminder in He.
  apply mail_remind_elem in He as (-> & Hkey & Hdue & Hsel & ->).
  split; [intros Hk; apply Hkey, Hs, Hk |].
  split; [destruct (Mail.recipients _ _ _ _ _); [congruence | discriminate] |].
  exists naive, due_time, h. split; [reflexivity |]. split; [exact Hzone |].
  split; [now apply thresholds_elem |]. split; [reflexivity |].
  split; [exact Hdue | apply mails_addresses].
Qed.

(** The two loops over the rows of a world send inside a window only. *)
Lemma mail_rounds_sound (w : Mail.world) (sent : gset string)
    (key : string) (mails : list (Mail.email * bool)) :
  Dispatch key mails ∈ (mail_rounds w sent).2 →
  (key ∉ sent) ∧ mails ≠ [] ∧
  ∃ students_df, Mail.students w = Some students_df ∧
    ((∃ classes_df row naive class_time h,
        Mail.classes w = Some classes_df ∧ row ∈ classes_df ∧
        strptime (cls_date row +:+ " " +:+ cls_time row) = Some naive ∧
        localize naive = Some class_time ∧
        (h = 24 ∨ h = 1) ∧ key = Mail.class_key row h ∧
        Mail.due (Mail.now w) (class_time - Mail.hours h) = true ∧
        List.map (λ m : Mail.email * bool, Mail.to m.1) mails
        = List.map stu_email
            (Mail.recipients students_df (cls_course row) (cls_batch_name row)
                             (cls_year row) (PyStr.strip (cls_mode row)))) ∨
     (∃ assignments_df row naive due_time h,
        Mail.assignments w = Some assignments_df ∧ row ∈ assignments_df ∧
        strptime (Mail.with_default_time (asg_due_date row)) = Some naive ∧
        localize naive = Some due_time ∧
        (h = 24 ∨ h = 1) ∧ key = Mail.assignment_key row h ∧
        Mail.due (Mail.now w) (due_time - Mail.hours h) = true ∧
        List.map (λ m : Mail.email * bool, Mail.to m.1) mails
        = List.map stu_email
            (Mail.recipients students_df (asg_course row) (asg_batch_name row)
                             (asg_year row) (PyStr.strip (asg_mode row))))).
Proof.
  unfold mail_rounds.
  destruct (Mail.students w) as [students_df|];
    [| simpl; intros Hin; apply elem_of_nil in Hin; destruct Hin].
  destruct (Mail.classes w) as [classes_df|];
    [| simpl; intros Hin; apply elem_of_nil in Hin; destruct Hin].
  destruct (Mail.assignments w) as [assignments_df|];
    [| simpl; intros Hin; apply elem_of_nil in Hin; destruct Hin].
  pose proof (guarded_grows _ (guarded_for_each
                (mail_class_step (Mail.now w) (Mail.smtp w) students_df) classes_df
                (mail_process_class_guarded _ _ _)) sent) as Hgrow1.
  pose proof (for_each_elem
                (mail_class_step (Mail.now w) (Mail.smtp w) students_df) classes_df
                sent (Dispatch key mails)
                (λ row, guarded_grows _ (mail_process_class_guarded _ _ _ row))) as Hcls.
  destruct (for_each _ classes_df sent) as [sent1 log1]. simpl in Hgrow1, Hcls.
  pose proof (for_each_elem
                (mail_assignment_step (Mail.now w) (Mail.smtp w) students_df)
                assignments_df sent1 (Dispatch key mails)
                (λ row, guarded_grows _ (mail_process_assignment_guarded _ _ _ row)))
    as Hasg.
  destruct (for_each _ assignments_df sent1) as [sent2 log2]. simpl in Hasg. simpl.
  intros Hin. apply elem_of_app in Hin as [Hin | Hin].
  - destruct (Hcls Hin) as (row & s & Hrow & Hs & He).
    apply mail_class_elem in He
      as (Hkey & Hsome & naive & class_time & h & ? & ? & ? & ? & ? & ?).
    split; [intros Hk; apply Hkey, Hs, Hk |]. split; [exact Hsome |].
    exists students_df. split; [reflexivity |]. left.
    exists classes_df, row, naive, class_time, h.
    repeat (split; [assumption || reflexivity |]). assumption.
  - destruct (Hasg Hin) as (row & s & Hrow & Hs & He).
    apply mail_assignment_elem in He
      as (Hkey & Hsome & naive & due_time & h & ? & ? & ? & ? & ? & ?).
    split; [intros Hk; apply Hkey, Hs, Hgrow1, Hk |]. split; [exact Hsome |].
    exists students_df. split; [reflexivity |]. right.
    exists assignments_df, row, naive, due_time, h.
    repeat (split; [assumption || reflexivity |]). assumption.
Qed.

(** X3.  Every reminder the mail scheduler sends in an iteration is for a
    row of a table read in that iteration, whose date parses and is put
    into the zone, under the key of one of its two thresholds, at a clock
    inside the ten minutes after that threshold, under a key the ledger
    did not hold when the iteration began; and it consists of one mail to
    each student selected for the row, in the order of the table, and of
    at least one. *)
Theorem mail_sends_only_in_window (w : Mail.world) (sent : gset string)
    (key : string) (mails : list (Mail.email * bool)) :
  Dispatch key mails ∈ (Mail.iteration w sent).2 →
  (key ∉ sent) ∧ mails ≠ [] ∧
  ∃ students_df, Mail.students w = Some students_df ∧
    ((∃ classes_df row naive class_time h,
        Mail.classes w = Some classes_df ∧ row ∈ classes_df ∧
        strptime (cls_date row +:+ " " +:+ cls_time row) = Some naive ∧
        localize naive = Some class_time ∧
        (h = 24 ∨ h = 1) ∧ key = Mail.class_key row h ∧
        Mail.due (Mail.now w) (class_time - Mail.hours h) = true ∧
        List.map (λ m : Mail.email * bool, Mail.to m.1) mails
        = List.map stu_email
            (Mail.recipients students_df (cls_course row) (cls_batch_name row)
                             (cls_year row) (PyStr.strip (cls_mode row)))) ∨
     (∃ assignments_df row naive due_time h,
        Mail.assignments w = Some assignments_df ∧ row ∈ assignments_df ∧
        strptime (Mail.with_default_time (asg_due_date row)) = Some naive ∧
        localize naive = Some due_time ∧
        (h = 24 ∨ h = 1) ∧ key = Mail.assignment_key row h ∧
        Mail.due (Mail.now w) (due_time - Mail.hours h) = true ∧
        List.map (λ m : Mail.email * bool, Mail.to m.1) mails
        = List.map stu_email
            (Mail.recipients students_df (asg_course row) (asg_batch_name row)
                             (asg_year row) (PyStr.strip (asg_mode row))))).
Proof.
  rewrite mail_iteration_rounds. cbn [snd]. intros Hin.
  apply elem_of_app in Hin as [Hin | Hin]; [| now apply closing_silent in Hin].
  apply mail_rounds_sound in Hin as (Hkey & Hsome & students_df & Hst & Hrow).
  split; [exact Hkey |]. split; [exact Hsome |].
  exists students_df. split; [exact Hst |].
  destruct Hrow as [(rows' & row & naive & class_time & h & Hc & Hin & Hrest)
                   | (rows' & row & naive & due_time & h & Ha & Hin & Hrest)].
  - left. apply reached_classes in Hc as (classes_df & Hc & Hsub).
    exists classes_df, row, naive, class_time, h.
    split; [exact Hc |]. split; [now apply Hsub | exact Hrest].
  - right. apply reached_assignments in Ha as (assignments_df & Ha & Hsub).
    exists assignments_df, row, naive, due_time, h.
    split; [exact Ha |]. split; [now apply Hsub | exact Hrest].
Qed.

End MailSoundness.

(** ** Exactly once *)

Section ExactlyOnce.
Context {rt : Runtime}.
Local Open Scope Z_scope.

(** A loop over rows sends under a key the ledger lacks as soon as one of
    its rows does so on every ledger that lacks the key. *)
Lemma for_each_fires {R M} (body : R → gset string → gset string * list (log_entry M))
    (rows : list R) (row : R) (key : string) :
  (∀ r, accounted (body r)) →
  row ∈ rows →
  (∀ s, key ∉ s → (0 < dispatches key (body row s).2)%nat) →
  ∀ sent, key ∉ sent → (0 < dispatches key (for_each body rows sent).2)%nat.
Proof.
  intros Hacc Hrow Hfire. induction rows as [|r rows IH]; intros sent Hkey.
  - apply elem_of_nil in Hrow. destruct Hrow.
  - simpl. pose proof (Hacc r sent key) as Hr.
    destruct (body r sent) as [s1 l1] eqn:E1. simpl in Hr.
    destruct (for_each body rows s1) as [s2 l2] eqn:E2. simpl.
    rewrite dispatches_app.
    apply elem_of_cons in Hrow as [<- | Hrow].
    + specialize (Hfire sent Hkey). rewrite E1 in Hfire. simpl in Hfire. lia.
    + destruct (decide (key ∈ s1)) as [Hin | Hout].
      * destruct (Hr Hin) as [? | Hpos]; [contradiction | lia].
      * specialize (IH Hrow s1 Hout). rewrite E2 in IH. simpl in IH. lia.
Qed.

Lemma discord_class_fires now channel row suffix lead class_datetime :
  strptime (cls_date row +:+ " " +:+ cls_time row) = Some class_datetime →
  (suffix = "-24hr" ∧ lead = 86400) ∨ (suffix = "-1hr" ∧ lead = 3600) →
  Discord.in_window (class_datetime - now) lead = true →
  ∀ s, Discord.class_key row suffix ∉ s →
    (0 < dispatches (Discord.class_key row suffix)
           (Discord.process_class now channel row s).2)%nat.
Proof.
  intros Hparse [[-> ->] | [-> ->]] Hw s Hkey.
  - rewrite (discord_class_24hr _ _ _ _ class_datetime Hparse).
    rewrite Hw, (bool_decide_eq_false_2 _ Hkey). simpl. lia.
  - rewrite (discord_class_1hr _ _ _ _ class_datetime Hparse).
    rewrite Hw, (bool_decide_eq_false_2 _ Hkey). simpl. lia.
Qed.

Lemma discord_assignment_fires now channel row suffix lead due_datetime :
  Discord.no_due_date (asg_due_date row) = false →
  strptime (asg_due_date row +:+ " " +:+ "23:59") = Some due_datetime →
  (suffix = "-24hr" ∧ lead = 86400) ∨ (suffix = "-1hr" ∧ lead = 3600) →
  Discord.in_window (due_datetime - now) lead = true →
  ∀ s, Discord.assign_key row suffix ∉ s →
    (0 < dispatches (Discord.assign_key row suffix)
           (Discord.process_assignment now channel row s).2)%nat.
Proof.
  intros Hdate Hparse [[-> ->] | [-> ->]] Hw s Hkey.
  - rewrite (discord_assignment_24hr _ _ _ _ due_datetime Hdate Hparse).
    rewrite Hw, (bool_decide_eq_false_2 _ Hkey). simpl. lia.
  - rewrite (discord_assignment_1hr _ _ _ _ due_datetime Hdate Hparse).
    rewrite Hw, (bool_decide_eq_false_2 _ Hkey). simpl. lia.
Qed.

(** An iteration of the Discord notifier sends under a key the ledger
    lacks when a row of the class table does, and when a row of the
    assignment table does. *)
Lemma discord_tick_fires_class (w : Discord.world) (st : Discord.state)
    (df_classes : list class_row) (row : class_row) (key : string) :
  Discord.classes w = Some df_classes → row ∈ df_classes →
  (∀ s, key ∉ s →
     (0 < dispatches key
            (Discord.process_class (Discord.now w) (Discord.channel w) row s).2)%nat) →
  key ∉ Discord.sent_reminders st →
  (0 < dispatches key (Discord.tick w st).1.2)%nat.
Proof.
  intros Hc Hrow Hfire Hkey. unfold Discord.tick. rewrite Hc.
  pose proof (for_each_fires _ df_classes row key
                (discord_process_class_accounted _ _) Hrow Hfire _ Hkey) as Hpos.
  destruct (for_each _ df_classes _) as [sent1 log1]. simpl in Hpos.
  destruct (Discord.assignments w) as [df_assignments|]; [| exact Hpos].
  destruct (for_each _ df_assignments sent1) as [sent2 log2].
  destruct (Discord.disk_ok w); simpl; rewrite dispatches_app; lia.
Qed.

Lemma discord_tick_fires_assignment (w : Discord.world) (st : Discord.state)
    (df_classes : list class_row) (df_assignments : list assignment_row)
    (row : assignment_row) (key : string) :
  Discord.classes w = Some df_classes →
  Discord.assignments w = Some df_assignments → row ∈ df_assignments →
  (∀ s, key ∉ s →
     (0 < dispatches key
            (Discord.process_assignment (Discord.now w) (Discord.channel w) row s).2)%nat) →
  key ∉ Discord.sent_reminders st →
  (0 < dispatches key (Discord.tick w st).1.2)%nat.
Proof.
  intros Hc Ha Hrow Hfire Hkey. unfold Discord.tick. rewrite Hc, Ha.
  pose proof (accounted_for_each
                (Discord.process_class (Discord.now w) (Discord.channel w)) df_classes
                (discord_process_class_accounted _ _)
                (Discord.sent_reminders st) key) as Hacc.
  destruct (for_each _ df_classes _) as [sent1 log1]. simpl in Hacc.
  pose proof (for_each_fires _ df_assignments row key
                (discord_process_assignment_accounted _ _) Hrow Hfire sent1) as Hpos.
  destruct (for_each _ df_assignments sent1) as [sent2 log2]. simpl in Hpos.
  assert (0 < dispatches key (log1 ++ log2))%nat.
  { rewrite dispatches_app. destruct (decide (key ∈ sent1)) as [Hin | Hout].
    - destruct (Hacc Hin) as [? | ?]; [contradiction | lia].
    - specialize (Hpos Hout). lia. }
  now destruct (Discord.disk_ok w).
Qed.

Lemma healthy_alive (w : Discord.world) (st : Discord.state) :
  healthy w → (Discord.tick w st).2 = true.
Proof.
  intros (Hc & Ha & Hd). unfold Discord.tick.
  destruct (Discord.classes w); [| congruence].
  destruct (for_each _ _ _) as [s1 l1].
  destruct (Discord.assignments w); [| congruence].
  destruct (for_each _ _ _) as [s2 l2]. now rewrite Hd.
Qed.

(** If the iteration at position [i] sends under a key whenever its ledger
    lacks it, and the iterations before it are healthy, the run sends under
    the key. *)
Lemma discord_loop_fires (ws : list Discord.world) (i : nat) (w : Discord.world)
    (key : string) :
  Forall healthy (take i ws) → ws !! i = Some w →
  (∀ st, key ∉ Discord.sent_reminders st → (0 < dispatches key (Discord.tick w st).1.2)%nat) →
  ∀ st, key ∉ Discord.sent_reminders st →
    (0 < dispatches key (whole_log (Discord.reminder_loop ws st).1.2))%nat.
Proof.
  intros Hpre Hw Hfire. revert i Hpre Hw.
  induction ws as [|w0 ws IH]; intros i Hpre Hw st Hkey; [discriminate |].
  cbn [Discord.reminder_loop]. destruct i as [|i].
  - simpl in Hw. injection Hw as ->. specialize (Hfire st Hkey).
    destruct (Discord.tick w st) as [[st1 log] alive]. simpl in Hfire.
    destruct alive.
    + destruct (Discord.reminder_loop ws st1) as [[st2 logs] alive']. simpl.
      unfold whole_log. simpl. rewrite dispatches_app. lia.
    + unfold whole_log. simpl. rewrite app_nil_r. exact Hfire.
  - simpl in Hpre, Hw. apply Forall_cons in Hpre as [Hw0 Hpre].
    pose proof (healthy_alive w0 st Hw0) as Halive.
    destruct st as [sent f].
    pose proof (discord_tick_accounted w0 f sent key) as Hacc. cbv beta zeta in Hacc.
    destruct (Discord.tick w0 _) as [[st1 log] alive]. simpl in Halive, Hacc.
    subst alive. specialize (IH i Hpre Hw st1).
    destruct (Discord.reminder_loop ws st1) as [[st2 logs] alive']. simpl in *.
    unfold whole_log in *. simpl. rewrite dispatches_app.
    destruct (decide (key ∈ Discord.sent_reminders st1)) as [Hin | Hout].
    + destruct (Hacc Hin) as [? | ?]; [contradiction | lia].
    + specialize (IH Hout). lia.
Qed.

(** X4.  Exactly once, Discord notifier.  If some iteration of a run meets
    a row whose threshold window is open at its clock, the iterations
    before it were healthy and the ledger did not hold the key at the
    start, then over the whole run, however long, exactly one reminder is
    sent under that key; for class rows and for assignment rows. *)
Theorem discord_exactly_once (ws : list Discord.world) (i : nat) (w : Discord.world)
    (st : Discord.state) (suffix : string) (lead : Z) :
  Forall healthy (take i ws) → ws !! i = Some w →
  (suffix = "-24hr" ∧ lead = 86400) ∨ (suffix = "-1hr" ∧ lead = 3600) →
  (∀ df_classes row class_datetime,
     Discord.classes w = Some df_classes → row ∈ df_classes →
     strptime (cls_date row +:+ " " +:+ cls_time row) = Some class_datetime →
     Discord.in_window (class_datetime - Discord.now w) lead = true →
     Discord.class_key row suffix ∉ Discord.sent_reminders st →
     dispatches (Discord.class_key row suffix)
                (whole_log (Discord.reminder_loop ws st).1.2) = 1%nat) ∧
  (∀ df_classes df_assignments row due_datetime,
     Discord.classes w = Some df_classes →
     Discord.assignments w = Some df_assignments → row ∈ df_assignments →
     Discord.no_due_date (asg_due_date row) = false →
     strptime (asg_due_date row +:+ " " +:+ "23:59") = Some due_datetime →
     Discord.in_window (due_datetime - Discord.now w) lead = true →
     Discord.assign_key row suffix ∉ Discord.sent_reminders st →
     dispatches (Discord.assign_key row suffix)
                (whole_log (Discord.reminder_loop ws st).1.2) = 1%nat).
Proof.
  intros Hpre Hw Hthreshold.
  assert (Honce : ∀ key,
            (dispatches key (whole_log (Discord.reminder_loop ws st).1.2) ≤ 1)%nat).
  { intros key. destruct st as [sent f].
    apply (guarded_once _ (discord_loop_guarded ws f) sent key). }
  split.
  - intros df_classes row class_datetime Hc Hrow Hparse Hwin Hkey.
    pose proof (discord_loop_fires ws i w (Discord.class_key row suffix) Hpre Hw) as Hfire.
    specialize (Honce (Discord.class_key row suffix)).
    enough (0 < dispatches (Discord.class_key row suffix)
                  (whole_log (Discord.reminder_loop ws st).1.2))%nat by lia.
    apply Hfire; [| exact Hkey]. intros st' Hkey'.
    apply (discord_tick_fires_class w st' df_classes row); try assumption.
    now apply (discord_class_fires _ _ _ _ lead class_datetime).
  - intros df_classes df_assignments row due_datetime Hc Ha Hrow Hdate Hparse Hwin Hkey.
    pose proof (discord_loop_fires ws i w (Discord.assign_key row suffix) Hpre Hw) as Hfire.
    specialize (Honce (Discord.assign_key row suffix)).
    enough (0 < dispatches (Discord.assign_key row suffix)
                  (whole_log (Discord.reminder_loop ws st).1.2))%nat by lia.
    apply Hfire; [| exact Hkey]. intros st' Hkey'.
    apply (discord_tick_fires_assignment w st' df_classes df_assignments row);
      try assumption.
    now apply (discord_assignment_fires _ _ _ _ lead due_datetime).
Qed.

End ExactlyOnce.

Section MailExactlyOnce.
Context {rt : Runtime}.
Local Open Scope Z_scope.

Lemma mail_class_fires now smtp students_df row naive class_time h :
  strptime (cls_date row +:+ " " +:+ cls_time row) = Some naive →
  localize naive = Some class_time →
  h = 24 ∨ h = 1 →
  Mail.due now (class_time - Mail.hours h) = true →
  Mail.recipients students_df (cls_course row) (cls_batch_name row) (cls_year row)
                  (PyStr.strip (cls_mode row)) ≠ [] →
  ∀ s, Mail.class_key row h ∉ s →
    (0 < dispatches (Mail.class_key row h)
           (mail_class_step now smtp students_df row s).2)%nat.
Proof.
  intros Hparse Hzone Hh Hdue Hsel s Hkey. unfold mail_class_step.
  rewrite (mail_class_count _ _ _ _ _ naive class_time h Hparse Hzone Hh).
  rewrite (proj2 (mail_count_one _ _ _ _ _ Hkey Hsel) Hdue). lia.
Qed.

Lemma mail_assignment_fires now smtp students_df row naive due_time h :
  strptime (Mail.with_default_time (asg_due_date row)) = Some naive →
  localize naive = Some due_time →
  h = 24 ∨ h = 1 →
  Mail.due now (due_time - Mail.hours h) = true →
  Mail.recipients students_df (asg_course row) (asg_batch_name row) (asg_year row)
                  (PyStr.strip (asg_mode row)) ≠ [] →
  ∀ s, Mail.assignment_key row h ∉ s →
    (0 < dispatches (Mail.assignment_key row h)
           (mail_assignment_step now smtp students_df row s).2)%nat.
Proof.
  intros Hparse Hzone Hh Hdue Hsel s Hkey. unfold mail_assignment_step.
  rewrite (mail_assignment_count _ _ _ _ _ naive due_time h Hparse Hzone Hh).
  rewrite (proj2 (mail_count_one _ _ _ _ _ Hkey Hsel) Hdue). lia.
Qed.

Lemma mail_rounds_fires_class (w : Mail.world) (sent : gset string)
    students_df classes_df assignments_df (row : class_row) (key : string) :
  Mail.students w = Some students_df → Mail.classes w = Some classes_df →
  Mail.assignments w = Some assignments_df → row ∈ classes_df →
  (∀ s, key ∉ s →
     (0 < dispatches key
            (mail_class_step (Mail.now w) (Mail.smtp w) students_df row s).2)%nat) →
  key ∉ sent →
  (0 < dispatches key (mail_rounds w sent).2)%nat.
Proof.
  intros Hs Hc Ha Hrow Hfire Hkey.
  unfold mail_rounds. rewrite Hs, Hc, Ha.
  pose proof (for_each_fires _ classes_df row key
                (mail_process_class_accounted _ _ _) Hrow Hfire _ Hkey) as Hpos.
  destruct (for_each _ classes_df sent) as [sent1 log1]. simpl in Hpos.
  destruct (for_each _ assignments_df sent1) as [sent2 log2]. simpl.
  rewrite dispatches_app. lia.
Qed.

Lemma mail_rounds_fires_assignment (w : Mail.world) (sent : gset string)
    students_df classes_df assignments_df (row : assignment_row) (key : string) :
  Mail.students w = Some students_df → Mail.classes w = Some classes_df →
  Mail.assignments w = Some assignments_df → row ∈ assignments_df →
  (∀ s, key ∉ s →
     (0 < dispatches key
            (mail_assignment_step (Mail.now w) (Mail.smtp w) students_df row s).2)%nat) →
  key ∉ sent →
  (0 < dispatches key (mail_rounds w sent).2)%nat.
Proof.
  intros Hs Hc Ha Hrow Hfire Hkey.
  unfold mail_rounds. rewrite Hs, Hc, Ha.
  pose proof (accounted_for_each
                (mail_class_step (Mail.now w) (Mail.smtp w) students_df) classes_df
                (mail_process_class_accounted _ _ _) sent key) as Hacc.
  destruct (for_each _ classes_df sent) as [sent1 log1]. simpl in Hacc.
  pose proof (for_each_fires _ assignments_df row key
                (mail_process_assignment_accounted _ _ _) Hrow Hfire sent1) as Hpos.
  destruct (for_each _ assignments_df sent1) as [sent2 log2]. simpl in Hpos. simpl.
  rewrite dispatches_app. destruct (decide (key ∈ sent1)) as [Hin | Hout].
  - destruct (Hacc Hin) as [? | ?]; [contradiction | lia].
  - specialize (Hpos Hout). lia.
Qed.

(** What the loops send over the rows reached, the iteration sends. *)
Lemma mail_iteration_fires (w : Mail.world) (sent : gset string) (key : string) :
  (0 < dispatches key (mail_rounds (reached w) sent).2)%nat →
  (0 < dispatches key (Mail.iteration w sent).2)%nat.
Proof.
  intros Hpos. rewrite mail_iteration_rounds. simpl.
  rewrite (dispatches_app key (mail_rounds (reached w) sent).2 (closing w)). lia.
Qed.

Lemma mail_loop_fires (ws : list Mail.world) (i : nat) (w : Mail.world) (key : string) :
  ws !! i = Some w →
  (∀ s, key ∉ s → (0 < dispatches key (Mail.iteration w s).2)%nat) →
  ∀ sent, key ∉ sent →
    (0 < dispatches key (whole_log (Mail.main_loop ws sent).2))%nat.
Proof.
  intros Hw Hfire. revert i Hw.
  induction ws as [|w0 ws IH]; intros i Hw sent Hkey; [discriminate |].
  cbn [Mail.main_loop]. destruct i as [|i].
  - simpl in Hw. injection Hw as ->. specialize (Hfire sent Hkey).
    destruct (Mail.iteration w sent) as [sent1 log]. simpl in Hfire.
    destruct (Mail.main_loop ws sent1) as [sent2 logs]. simpl.
    unfold whole_log. simpl. rewrite dispatches_app. lia.
  - simpl in Hw. pose proof (mail_iteration_accounted w0 sent key) as Hacc.
    destruct (Mail.iteration w0 sent) as [sent1 log]. simpl in Hacc.
    specialize (IH i Hw sent1).
    destruct (Mail.main_loop ws sent1) as [sent2 logs]. simpl in *.
    unfold whole_log in *. simpl. rewrite dispatches_app.
    destruct (decide (key ∈ sent1)) as [Hin | Hout].
    + destruct (Hacc Hin) as [? | ?]; [contradiction | lia].
    + specialize (IH Hout). lia.
Qed.

(** X5.  Exactly once, mail scheduler.  If on some iteration of a run the
    three queries succeed, a row is inside the window of one of its
    thresholds and at least one student is selected for it, no row looked
    at before it on that iteration makes [localize] raise, and the ledger
    did not hold the key at the start, then over the whole run exactly one
    reminder is sent under that key, whatever the other iterations meet
    (failing queries and rows that raise included); for class rows, and
    for assignment rows, which come after all class rows. *)
Theorem mail_exactly_once (ws : list Mail.world) (i : nat) (w : Mail.world)
    (sent : gset string) (h : Z) students_df classes_df assignments_df :
  ws !! i = Some w → h = 24 ∨ h = 1 →
  Mail.students w = Some students_df → Mail.classes w = Some classes_df →
  Mail.assignments w = Some assignments_df →
  (∀ rows1 row rows2 naive class_time,
     classes_df = rows1 ++ row :: rows2 →
     Forall (λ r, class_raises r = false) rows1 →
     strptime (cls_date row +:+ " " +:+ cls_time row) = Some naive →
     localize naive = Some class_time →
     Mail.due (Mail.now w) (class_time - Mail.hours h) = true →
     Mail.recipients students_df (cls_course row) (cls_batch_name row) (cls_year row)
                     (PyStr.strip (cls_mode row)) ≠ [] →
     Mail.class_key row h ∉ sent →
     dispatches (Mail.class_key row h) (whole_log (Mail.main_loop ws sent).2) = 1%nat) ∧
  (∀ rows1 row rows2 naive due_time,
     Forall (λ r, class_raises r = false) classes_df →
     assignments_df = rows1 ++ row :: rows2 →
     Forall (λ r, assignment_raises r = false) rows1 →
     strptime (Mail.with_default_time (asg_due_date row)) = Some naive →
     localize naive = Some due_time →
     Mail.due (Mail.now w) (due_time - Mail.hours h) = true →
     Mail.recipients students_df (asg_course row) (asg_batch_name row) (asg_year row)
                     (PyStr.strip (asg_mode row)) ≠ [] →
     Mail.assignment_key row h ∉ sent →
     dispatches (Mail.assignment_key row h) (whole_log (Mail.main_loop ws sent).2)
     = 1%nat).
Proof.
  intros Hw Hh Hs Hc Ha.
  assert (Honce : ∀ key, (dispatches key (whole_log (Mail.main_loop ws sent).2) ≤ 1)%nat).
  { intros key. apply (guarded_once _ (mail_loop_guarded ws) sent key). }
  destruct (reached_tables w _ _ _ Hs Hc Ha) as (Hs' & Hc' & Ha').
  split.
  - intros rows1 row rows2 naive class_time Hrows Hahead Hparse Hzone Hdue Hsel Hkey.
    specialize (Honce (Mail.class_key row h)).
    enough (0 < dispatches (Mail.class_key row h)
                  (whole_log (Mail.main_loop ws sent).2))%nat by lia.
    apply (mail_loop_fires ws i w _ Hw); [| exact Hkey]. intros s Hkey'.
    apply mail_iteration_fires.
    apply (mail_rounds_fires_class (reached w) s _ _ _ row _ Hs' Hc' Ha');
      [| now apply (mail_class_fires _ _ _ _ naive class_time h) | exact Hkey'].
    rewrite Hrows, (ahead_app _ _ _ Hahead). apply elem_of_app. right.
    cbn [ahead]. unfold class_raises at 1. rewrite Hparse, Hzone.
    apply elem_of_cons. now left.
  - intros rows1 row rows2 naive due_time Hclasses Hrows Hahead Hparse Hzone Hdue Hsel
      Hkey.
    specialize (Honce (Mail.assignment_key row h)).
    enough (0 < dispatches (Mail.assignment_key row h)
                  (whole_log (Mail.main_loop ws sent).2))%nat by lia.
    apply (mail_loop_fires ws i w _ Hw); [| exact Hkey]. intros s Hkey'.
    apply mail_iteration_fires.
    apply (mail_rounds_fires_assignment (reached w) s _ _ _ row _ Hs' Hc' Ha');
      [| now apply (mail_assignment_fires _ _ _ _ naive due_time h) | exact Hkey'].
    rewrite (existsb_none _ _ Hclasses), Hrows, (ahead_app _ _ _ Hahead).
    apply elem_of_app. right.
    cbn [ahead]. unfold assignment_raises at 1. rewrite Hparse, Hzone.
    apply elem_of_cons. now left.
Qed.

(** X6.  The cadence.  If two consecutive iterations are no more than 600
    seconds apart and the threshold is crossed between them, one of them
    is inside the window: for the Discord notifier the earlier one, at or
    before the crossing; for the mail scheduler the later one, at or after
    the crossing. *)
Theorem crossing_is_observed :
  (∀ target lead t1 t2,
     t1 ≤ target - lead * us < t2 → t2 - t1 ≤ 600 * us →
     Discord.in_window (target - t1) lead = true) ∧
  (∀ reminder_time t1 t2,
     t1 < reminder_time ≤ t2 → t2 - t1 ≤ 600 * us →
     Mail.due t2 reminder_time = true).
Proof.
  split.
  - intros target lead t1 t2 Hcross Hgap. apply discord_in_window_iff. lia.
  - intros reminder_time t1 t2 Hcross Hgap. apply mail_due_iff. lia.
Qed.

End MailExactlyOnce.

(** ** Rows that cannot be read, and the transport *)

Section Rows2.
Context {rt : Runtime}.
Local Open Scope Z_scope.

Lemma reminders_app {M} (l1 l2 : list (log_entry M)) :
  reminders (l1 ++ l2) = reminders l1 ++ reminders l2.
Proof.
  induction l1 as [|[k p|t] l1 IH]; simpl; [reflexivity | | exact IH].
  now rewrite IH.
Qed.

(** A row that sends nothing and leaves the ledger alone can be taken out
    of the table: the ledger and the reminders of the loop stay the same. *)
Lemma for_each_skip {R M} (body : R → gset string → gset string * list (log_entry M))
    (rows1 rows2 : list R) (bad : R) :
  (∀ s, (body bad s).1 = s ∧ reminders (body bad s).2 = []) →
  ∀ sent,
    (for_each body (rows1 ++ bad :: rows2) sent).1 = (for_each body (rows1 ++ rows2) sent).1 ∧
    reminders (for_each body (rows1 ++ bad :: rows2) sent).2
    = reminders (for_each body (rows1 ++ rows2) sent).2.
Proof.
  intros Hbad. induction rows1 as [|row rows1 IH]; intros sent.
  - simpl. destruct (Hbad sent) as [Hs Hl].
    destruct (body bad sent) as [s1 l1]. simpl in Hs, Hl. subst s1.
    destruct (for_each body rows2 sent) as [s2 l2]. simpl.
    split; [reflexivity |]. now rewrite reminders_app, Hl.
  - simpl. destruct (body row sent) as [s1 l1]. specialize (IH s1).
    destruct (for_each body (rows1 ++ bad :: rows2) s1) as [s2 l2].
    destruct (for_each body (rows1 ++ rows2) s1) as [s2' l2']. simpl in *.
    destruct IH as [-> Hl]. split; [reflexivity |].
    now rewrite !reminders_app, Hl.
Qed.

(** The same for a loop whose body can raise, when the row taken out
    does not. *)
Lemma for_each_try_skip {R M}
    (body : R → gset string → gset string * list (log_entry M) * bool)
    (rows1 rows2 : list R) (bad : R) :
  (∀ s, body bad s = (s, (body bad s).1.2, true) ∧ reminders (body bad s).1.2 = []) →
  ∀ sent,
    (for_each_try body (rows1 ++ bad :: rows2) sent).1.1
    = (for_each_try body (rows1 ++ rows2) sent).1.1 ∧
    reminders (for_each_try body (rows1 ++ bad :: rows2) sent).1.2
    = reminders (for_each_try body (rows1 ++ rows2) sent).1.2 ∧
    (for_each_try body (rows1 ++ bad :: rows2) sent).2
    = (for_each_try body (rows1 ++ rows2) sent).2.
Proof.
  intros Hbad. induction rows1 as [|row rows1 IH]; intros sent.
  - cbn [app for_each_try]. destruct (Hbad sent) as [Hs Hl]. rewrite Hs.
    destruct (for_each_try body rows2 sent) as [[s2 l2] ok2]. simpl.
    split; [reflexivity |]. split; [| reflexivity]. now rewrite reminders_app, Hl.
  - cbn [app for_each_try]. destruct (body row sent) as [[s1 l1] ok1].
    destruct ok1; [| now repeat split]. specialize (IH s1).
    destruct (for_each_try body (rows1 ++ bad :: rows2) s1) as [[s2 l2] ok2].
    destruct (for_each_try body (rows1 ++ rows2) s1) as [[s2' l2'] ok2']. simpl in *.
    destruct IH as (-> & Hl & ->). split; [reflexivity |]. split; [| reflexivity].
    now rewrite !reminders_app, Hl.
Qed.

(** X7.  A row whose date cannot be read (and, in the Discord notifier, an
    assignment without due date) costs a warning and nothing else: the
    iteration ends with the same ledger, the same log file and the same
    reminders sent, in the same order, as if the row were not in the
    table. *)
Theorem unreadable_rows_are_skipped :
  (∀ now rows1 bad rows2 assignments channel disk_ok st,
     strptime (cls_date bad +:+ " " +:+ cls_time bad) = None →
     (Discord.tick (Discord.Build_world now (Some (rows1 ++ bad :: rows2)) assignments
                      channel disk_ok) st).1.1
     = (Discord.tick (Discord.Build_world now (Some (rows1 ++ rows2)) assignments
                        channel disk_ok) st).1.1 ∧
     reminders (Discord.tick (Discord.Build_world now (Some (rows1 ++ bad :: rows2))
                                assignments channel disk_ok) st).1.2
     = reminders (Discord.tick (Discord.Build_world now (Some (rows1 ++ rows2))
                                  assignments channel disk_ok) st).1.2) ∧
  (∀ now classes rows1 bad rows2 channel disk_ok st,
     Discord.no_due_date (asg_due_date bad) = true ∨
     strptime (asg_due_date bad +:+ " " +:+ "23:59") = None →
     (Discord.tick (Discord.Build_world now classes (Some (rows1 ++ bad :: rows2))
                      channel disk_ok) st).1.1
     = (Discord.tick (Discord.Build_world now classes (Some (rows1 ++ rows2))
                        channel disk_ok) st).1.1 ∧
     reminders (Discord.tick (Discord.Build_world now classes
                                (Some (rows1 ++ bad :: rows2)) channel disk_ok) st).1.2
     = reminders (Discord.tick (Discord.Build_world now classes (Some (rows1 ++ rows2))
                                  channel disk_ok) st).1.2) ∧
  (∀ now students rows1 bad rows2 assignments smtp sent,
     strptime (cls_date bad +:+ " " +:+ cls_time bad) = None →
     (Mail.iteration (Mail.Build_world now students (Some (rows1 ++ bad :: rows2))
                        assignments smtp) sent).1
     = (Mail.iteration (Mail.Build_world now students (Some (rows1 ++ rows2))
                          assignments smtp) sent).1 ∧
     reminders (Mail.iteration (Mail.Build_world now students
                                  (Some (rows1 ++ bad :: rows2)) assignments smtp) sent).2
     = reminders (Mail.iteration (Mail.Build_world now students (Some (rows1 ++ rows2))
                                    assignments smtp) sent).2) ∧
  (∀ now students classes rows1 bad rows2 smtp sent,
     strptime (Mail.with_default_time (asg_due_date bad)) = None →
     (Mail.iteration (Mail.Build_world now students classes
                        (Some (rows1 ++ bad :: rows2)) smtp) sent).1
     = (Mail.iteration (Mail.Build_world now students classes (Some (rows1 ++ rows2))
                          smtp) sent).1 ∧
     reminders (Mail.iteration (Mail.Build_world now students classes
                                  (Some (rows1 ++ bad :: rows2)) smtp) sent).2
     = reminders (Mail.iteration (Mail.Build_world now students classes
                                    (Some (rows1 ++ rows2)) smtp) sent).2).
Proof.
  split; [| split; [| split]].
  - intros now rows1 bad rows2 assignments channel disk_ok st Hparse.
    unfold Discord.tick. simpl.
    destruct (for_each_skip (Discord.process_class now channel) rows1 rows2 bad
                ltac:(intros s; unfold Discord.process_class; rewrite Hparse; now split)
                (Discord.sent_reminders st)) as [Hs Hl].
    destruct (for_each _ (rows1 ++ bad :: rows2) _) as [s1 l1].
    destruct (for_each _ (rows1 ++ rows2) _) as [s1' l1']. simpl in Hs, Hl. subst s1'.
    destruct assignments as [df_assignments|]; [| now split].
    destruct (for_each _ df_assignments s1) as [s2 l2].
    destruct disk_ok; simpl; (split; [reflexivity |]); now rewrite !reminders_app, Hl.
  - intros now classes rows1 bad rows2 channel disk_ok st Hbad.
    unfold Discord.tick. simpl. destruct classes as [df_classes|]; [| now split].
    destruct (for_each _ df_classes _) as [s1 l1].
    assert (Hskip : ∀ s, (Discord.process_assignment now channel bad s).1 = s ∧
                         reminders (Discord.process_assignment now channel bad s).2 = []).
    { intros s. unfold Discord.process_assignment.
      destruct (Discord.no_due_date (asg_due_date bad)); [now split |].
      destruct Hbad as [Hbad | Hbad]; [discriminate |]. rewrite Hbad. now split. }
    destruct (for_each_skip (Discord.process_assignment now channel) rows1 rows2 bad
                Hskip s1) as [Hs Hl].
    destruct (for_each _ (rows1 ++ bad :: rows2) s1) as [s2 l2].
    destruct (for_each _ (rows1 ++ rows2) s1) as [s2' l2']. simpl in Hs, Hl. subst s2'.
    destruct disk_ok; simpl; (split; [reflexivity |]); now rewrite !reminders_app, Hl.
  - intros now students rows1 bad rows2 assignments smtp sent Hparse.
    unfold Mail.iteration, Mail.send_reminders. simpl.
    destruct students as [students_df|]; [| now split].
    destruct assignments as [assignments_df|]; [| now split].
    destruct (for_each_try_skip (Mail.process_class now smtp students_df) rows1 rows2 bad
                ltac:(intros s; unfold Mail.process_class; rewrite Hparse; now split)
                sent) as (Hs & Hl & Hok).
    destruct (for_each_try _ (rows1 ++ bad :: rows2) sent) as [[s1 l1] ok1].
    destruct (for_each_try _ (rows1 ++ rows2) sent) as [[s1' l1'] ok1'].
    simpl in Hs, Hl, Hok. subst s1' ok1'. unfold Mail.entry in *.
    destruct ok1; simpl.
    + destruct (for_each_try _ assignments_df s1) as [[s2 l2] ok2].
      destruct ok2; simpl; (split; [reflexivity |]);
        rewrite ?reminders_app, ?Hl; reflexivity.
    + split; [reflexivity |]. now rewrite !reminders_app, Hl.
  - intros now students classes rows1 bad rows2 smtp sent Hparse.
    unfold Mail.iteration, Mail.send_reminders. simpl.
    destruct students as [students_df|]; [| now split].
    destruct classes as [classes_df|]; [| now split].
    destruct (for_each_try _ classes_df sent) as [[s1 l1] ok1].
    destruct ok1; [| now split].
    destruct (for_each_try_skip (Mail.process_assignment now smtp students_df)
                rows1 rows2 bad
                ltac:(intros s; unfold Mail.process_assignment; rewrite Hparse; now split)
                s1) as (Hs & Hl & Hok).
    destruct (for_each_try _ (rows1 ++ bad :: rows2) s1) as [[s2 l2] ok2].
    destruct (for_each_try _ (rows1 ++ rows2) s1) as [[s2' l2'] ok2'].
    simpl in Hs, Hl, Hok. subst s2' ok2'. unfold Mail.entry in *.
    destruct ok2; simpl; (split; [reflexivity |]); rewrite ?reminders_app, ?Hl;
      reflexivity.
Qed.

End Rows2.

Section Transport.
Context {rt : Runtime}.
Local Open Scope Z_scope.

Lemma discord_attempts_app (l1 l2 : list (log_entry (string * bool))) :
  discord_attempts (l1 ++ l2) = discord_attempts l1 ++ discord_attempts l2.
Proof. unfold discord_attempts. now rewrite (reminders_app l1 l2), map_app. Qed.

Lemma mail_attempts_app (l1 l2 : list (log_entry (list (Mail.email * bool)))) :
  mail_attempts (l1 ++ l2) = mail_attempts l1 ++ mail_attempts l2.
Proof. unfold mail_attempts. now rewrite (reminders_app l1 l2), map_app. Qed.

(** Two bodies that agree on the ledger and on a view of the log that
    respects concatenation agree on both over a whole table. *)
Lemma for_each_view {R M V} (view : list (log_entry M) → list V)
    (body body' : R → gset string → gset string * list (log_entry M)) (rows : list R) :
  (∀ l1 l2, view (l1 ++ l2) = view l1 ++ view l2) →
  (∀ row s, (body row s).1 = (body' row s).1 ∧ view (body row s).2 = view (body' row s).2) →
  ∀ sent, (for_each body rows sent).1 = (for_each body' rows sent).1 ∧
          view (for_each body rows sent).2 = view (for_each body' rows sent).2.
Proof.
  intros Happ Hbody. induction rows as [|row rows IH]; intros sent; [now split |].
  simpl. destruct (Hbody row sent) as [Hs Hl].
  destruct (body row sent) as [s1 l1], (body' row sent) as [s1' l1'].
  simpl in Hs, Hl. subst s1'. destruct (IH s1) as [Hs2 Hl2].
  destruct (for_each body rows s1) as [s2 l2], (for_each body' rows s1) as [s2' l2'].
  simpl in *. split; [exact Hs2 |]. now rewrite !Happ, Hl, Hl2.
Qed.

Lemma discord_remind_attempts now channel channel' target k24 k1 m24 m1 sent :
  (Discord.remind now channel target k24 k1 m24 m1 sent).1
  = (Discord.remind now channel' target k24 k1 m24 m1 sent).1 ∧
  discord_attempts (Discord.remind now channel target k24 k1 m24 m1 sent).2
  = discord_attempts (Discord.remind now channel' target k24 k1 m24 m1 sent).2.
Proof. unfold Discord.remind. now repeat destruct (_ && _). Qed.

Lemma mail_remind_attempts now smtp smtp' students_df course batch_name year mode
    reminder_time key subject text sent :
  (Mail.remind now smtp students_df course batch_name year mode
               reminder_time key subject text sent).1
  = (Mail.remind now smtp' students_df course batch_name year mode
                 reminder_time key subject text sent).1 ∧
  mail_attempts (Mail.remind now smtp students_df course batch_name year mode
                             reminder_time key subject text sent).2
  = mail_attempts (Mail.remind now smtp' students_df course batch_name year mode
                               reminder_time key subject text sent).2.
Proof.
  unfold Mail.remind. destruct (_ && _); [| now split].
  destruct (Mail.recipients _ _ _ _ _) as [|stu stus]; [now split |].
  split; [reflexivity |]. unfold mail_attempts. simpl. f_equal. f_equal. f_equal.
  rewrite !map_map. reflexivity.
Qed.

Lemma discord_process_class_attempts now channel channel' row s :
  (Discord.process_class now channel row s).1
  = (Discord.process_class now channel' row s).1 ∧
  discord_attempts (Discord.process_class now channel row s).2
  = discord_attempts (Discord.process_class now channel' row s).2.
Proof.
  unfold Discord.process_class.
  destruct (strptime (cls_date row +:+ " " +:+ cls_time row));
    [apply discord_remind_attempts | now split].
Qed.

Lemma discord_process_assignment_attempts now channel channel' row s :
  (Discord.process_assignment now channel row s).1
  = (Discord.process_assignment now channel' row s).1 ∧
  discord_attempts (Discord.process_assignment now channel row s).2
  = discord_attempts (Discord.process_assignment now channel' row s).2.
Proof.
  unfold Discord.process_assignment.
  destruct (Discord.no_due_date (asg_due_date row)); [now split |].
  destruct (strptime (asg_due_date row +:+ " " +:+ "23:59"));
    [apply discord_remind_attempts | now split].
Qed.

Lemma mail_process_class_attempts now smtp smtp' students_df row s :
  (mail_class_step now smtp students_df row s).1
  = (mail_class_step now smtp' students_df row s).1 ∧
  mail_attempts (mail_class_step now smtp students_df row s).2
  = mail_attempts (mail_class_step now smtp' students_df row s).2.
Proof.
  unfold mail_class_step, Mail.process_class.
  destruct (strptime (cls_date row +:+ " " +:+ cls_time row)) as [naive|];
    [| now split].
  destruct (localize naive) as [class_time|]; [| now split]. cbn [fst].
  apply (for_each_view mail_attempts _ _ _ mail_attempts_app).
  intros h s'. apply mail_remind_attempts.
Qed.

Lemma mail_process_assignment_attempts now smtp smtp' students_df row s :
  (mail_assignment_step now smtp students_df row s).1
  = (mail_assignment_step now smtp' students_df row s).1 ∧
  mail_attempts (mail_assignment_step now smtp students_df row s).2
  = mail_attempts (mail_assignment_step now smtp' students_df row s).2.
Proof.
  unfold mail_assignment_step, Mail.process_assignment.
  destruct (strptime (Mail.with_default_time (asg_due_date row))) as [naive|];
    [| now split].
  destruct (localize naive) as [due_time|]; [| now split]. cbn [fst].
  apply (for_each_view mail_attempts _ _ _ mail_attempts_app).
  intros h s'. apply mail_remind_attempts.
Qed.

Lemma mail_rounds_attempts now students classes assignments smtp smtp' sent :
  mail_attempts
    (mail_rounds (Mail.Build_world now students classes assignments smtp) sent).2
  = mail_attempts
      (mail_rounds (Mail.Build_world now students classes assignments smtp') sent).2.
Proof.
  unfold mail_rounds. simpl.
  destruct students as [students_df|]; [| reflexivity].
  destruct classes as [classes_df|]; [| reflexivity].
  destruct assignments as [assignments_df|]; [| reflexivity].
  destruct (for_each_view mail_attempts _ _ classes_df mail_attempts_app
              (mail_process_class_attempts now smtp smtp' students_df) sent)
    as [Hs Hl].
  destruct (for_each (mail_class_step now smtp students_df) _ _) as [s1 l1],
           (for_each (mail_class_step now smtp' students_df) _ _) as [s1' l1'].
  simpl in Hs, Hl. subst s1'.
  destruct (for_each_view mail_attempts _ _ assignments_df mail_attempts_app
              (mail_process_assignment_attempts now smtp smtp' students_df) s1)
    as [Hs2 Hl2].
  destruct (for_each (mail_assignment_step now smtp students_df) _ _) as [s2 l2],
           (for_each (mail_assignment_step now smtp' students_df) _ _) as [s2' l2'].
  simpl in Hs2, Hl2. simpl. now rewrite !mail_attempts_app, Hl, Hl2.
Qed.

(** X8.  What is handed to the transport does not depend on what the
    transport answers: with any other channel, or any other mail server,
    an iteration attempts the same messages under the same keys in the same
    order and ends with the same ledger.  A failed send neither stops nor
    changes the sends that follow it. *)
Theorem attempts_ignore_the_transport :
  (∀ now classes assignments disk_ok channel channel' st,
     discord_attempts
       (Discord.tick (Discord.Build_world now classes assignments channel disk_ok) st).1.2
     = discord_attempts
         (Discord.tick (Discord.Build_world now classes assignments channel' disk_ok)
                       st).1.2) ∧
  (∀ now students classes assignments smtp smtp' sent,
     mail_attempts
       (Mail.iteration (Mail.Build_world now students classes assignments smtp) sent).2
     = mail_attempts
         (Mail.iteration (Mail.Build_world now students classes assignments smtp')
                         sent).2).
Proof.
  split.
  - intros now classes assignments disk_ok channel channel' st.
    unfold Discord.tick. simpl. destruct classes as [df_classes|]; [| reflexivity].
    destruct (for_each_view discord_attempts _ _ df_classes discord_attempts_app
                (discord_process_class_attempts now channel channel')
                (Discord.sent_reminders st)) as [Hs Hl].
    destruct (for_each (Discord.process_class now channel) _ _) as [s1 l1],
             (for_each (Discord.process_class now channel') _ _) as [s1' l1'].
    simpl in Hs, Hl. subst s1'. destruct assignments as [df_assignments|]; [| exact Hl].
    destruct (for_each_view discord_attempts _ _ df_assignments discord_attempts_app
                (discord_process_assignment_attempts now channel channel') s1)
      as [Hs2 Hl2].
    destruct (for_each (Discord.process_assignment now channel) _ _) as [s2 l2],
             (for_each (Discord.process_assignment now channel') _ _) as [s2' l2'].
    simpl in Hs2, Hl2. destruct disk_ok; simpl; now rewrite !discord_attempts_app, Hl, Hl2.
  - intros now students classes assignments smtp smtp' sent.
    rewrite !mail_iteration_rounds. cbn [snd]. rewrite !mail_attempts_app.
    unfold reached, closing, completes.
    cbn [Mail.now Mail.students Mail.classes Mail.assignments Mail.smtp].
    now rewrite (mail_rounds_attempts _ _ _ _ smtp smtp').
Qed.

End Transport.

(** ** The ledger file, read and written again *)

Section FileFacts.

Lemma strip_is_line (l : string) :
  is_line l → no_line_end (PyStr.strip l) ∧ PyStr.strip (PyStr.strip l) = PyStr.strip l.
Proof.
  intros (text & Htext & [-> | ->]).
  - split; [now apply no_line_end_strip | apply strip_idem].
  - rewrite strip_app_space by reflexivity.
    split; [now apply no_line_end_strip | apply strip_idem].
Qed.

(** Every string that [readlines] hands back is a line. *)
Lemma readlines_lines (content : string) : Forall is_line (PyStr.readlines content).
Proof.
  induction content as [|c rest IH]; [constructor |].
  cbn [PyStr.readlines].
  assert (Hbreak : is_line (String PyStr.LF "")).
  { exists "". split; [now split | now right]. }
  destruct (Ascii.eqb c PyStr.LF) eqn:Elf; [now constructor |].
  destruct (Ascii.eqb c PyStr.CR) eqn:Ecr.
  - destruct rest as [|d rest']; [now repeat constructor |].
    destruct (Ascii.eqb d PyStr.LF) eqn:Ed; [| now constructor].
    constructor; [exact Hbreak |].
    cbn [PyStr.readlines] in IH. rewrite Ed in IH. now apply Forall_cons in IH as [_ IH].
  - destruct (PyStr.readlines rest) as [|line lines].
    + repeat constructor. exists (String c ""). split; [| now left].
      split; cbn [PyStr.contains];
        [rewrite (Ascii.eqb_sym PyStr.LF c), Elf | rewrite (Ascii.eqb_sym PyStr.CR c), Ecr];
        reflexivity.
    + apply Forall_cons in IH as [(text & [Hlf Hcr] & Hline) IH].
      constructor; [| exact IH]. exists (String c text). split.
      * split; cbn [PyStr.contains];
          [rewrite (Ascii.eqb_sym PyStr.LF c), Elf | rewrite (Ascii.eqb_sym PyStr.CR c), Ecr];
          assumption.
      * destruct Hline as [-> | ->]; [now left | right]. now rewrite append_cons.
Qed.

(** Keys written in any order, each without line end and left alone by
    [strip], the empty key included, are read back as the set of them. *)
Lemma sent_log_read_back_all (keys : list string) :
  Forall (λ key, no_line_end key ∧ PyStr.strip key = key) keys →
  SentLog.load_sent_log (Some (SentLog.write_lines keys)) = list_to_set keys.
Proof.
  intros Hkeys. unfold SentLog.load_sent_log.
  rewrite readlines_write_lines.
  2:{ eapply Forall_impl; [exact Hkeys |]. now intros key [? _]. }
  rewrite <- list_fmap_compose.
  rewrite (Forall_fmap_ext_1 _ id keys); [now rewrite list_fmap_id |].
  eapply Forall_impl; [exact Hkeys |]. intros key [_ Hfix].
  simpl. now rewrite strip_app_space.
Qed.

(** X9.  Whatever the log file holds, the keys that [load_sent_log] reads
    from it have no line end inside and no white space at either end, and
    writing them with [save_sent_log] and reading them again gives the same
    set: the file a run leaves always reloads to the ledger loaded from
    the file before it.  A missing file is the empty ledger. *)
Theorem sent_log_reloads (f : SentLog.file) :
  (∀ key, key ∈ SentLog.load_sent_log f → no_line_end key ∧ PyStr.strip key = key) ∧
  SentLog.load_sent_log (SentLog.save_sent_log (SentLog.load_sent_log f))
  = SentLog.load_sent_log f ∧
  (f = None → SentLog.load_sent_log f = ∅).
Proof.
  assert (Hkeys : ∀ key, key ∈ SentLog.load_sent_log f →
                    no_line_end key ∧ PyStr.strip key = key).
  { intros key. destruct f as [content|]; simpl; [| intros Hin; set_solver].
    rewrite elem_of_list_to_set, list_elem_of_fmap. intros (line & -> & Hline).
    apply strip_is_line.
    pose proof (readlines_lines content) as Hall.
    rewrite Forall_forall in Hall. now apply Hall. }
  split; [exact Hkeys |]. split; [| now intros ->].
  unfold SentLog.save_sent_log. rewrite sent_log_read_back_all.
  - apply list_to_set_elements_L.
  - apply Forall_forall. intros key Hin. apply Hkeys. now apply elem_of_elements.
Qed.

End FileFacts.

(** ** One reminder per row, and the two scripts side by side *)

Section PerRow.
Context {rt : Runtime}.
Local Open Scope Z_scope.

Lemma discord_remind_one now channel target k24 k1 m24 m1 sent :
  (length (reminders (Discord.remind now channel target k24 k1 m24 m1 sent).2) ≤ 1)%nat.
Proof. unfold Discord.remind. repeat destruct (_ && _); simpl; lia. Qed.

Lemma mail_remind_one now smtp students_df course batch_name year mode
    reminder_time key subject text sent :
  (length (reminders (Mail.remind now smtp students_df course batch_name year mode
                        reminder_time key subject text sent).2) ≤ 1)%nat ∧
  (Mail.due now reminder_time = false →
   reminders (Mail.remind now smtp students_df course batch_name year mode
                reminder_time key subject text sent).2 = []).
Proof.
  unfold Mail.remind. destruct (Mail.due now reminder_time); simpl.
  - split; [| discriminate].
    destruct (negb _); [| simpl; lia].
    destruct (Mail.recipients _ _ _ _ _); simpl; lia.
  - split; [simpl; lia | reflexivity].
Qed.

Lemma mail_two_rounds_one {M} (site : Z → gset string → gset string * list (log_entry M))
    (now target : Z) :
  (∀ h s, (length (reminders (site h s).2) ≤ 1)%nat) →
  (∀ h s, Mail.due now (target - Mail.hours h) = false → reminders (site h s).2 = []) →
  ∀ sent, (length (reminders (for_each site [24%Z; 1%Z] sent).2) ≤ 1)%nat.
Proof.
  intros Hone Hclosed sent. cbn [for_each].
  pose proof (Hone 24 sent) as H24. pose proof (Hclosed 24 sent) as C24.
  destruct (site 24 sent) as [s1 l1]. simpl in H24, C24.
  pose proof (Hone 1 s1) as H1. pose proof (Hclosed 1 s1) as C1.
  destruct (site 1 s1) as [s2 l2]. simpl in H1, C1. simpl.
  rewrite app_nil_r, reminders_app, length_app.
  destruct (Mail.due now (target - Mail.hours 1)) eqn:D1.
  - rewrite (C24 (mail_windows_disjoint _ _ D1)). simpl. lia.
  - rewrite (C1 eq_refl). simpl. lia.
Qed.

(** X10.  One row gets at most one reminder in one iteration, in either
    script: the two branches of the Discord notifier exclude each other,
    and the two rounds of the mail scheduler never find both windows
    open. *)
Theorem one_reminder_per_row :
  (∀ now channel (row : class_row) sent,
     (length (reminders (Discord.process_class now channel row sent).2) ≤ 1)%nat) ∧
  (∀ now channel (row : assignment_row) sent,
     (length (reminders (Discord.process_assignment now channel row sent).2) ≤ 1)%nat) ∧
  (∀ now smtp students_df (row : class_row) sent,
     (length (reminders (Mail.process_class now smtp students_df row sent).1.2)
      ≤ 1)%nat) ∧
  (∀ now smtp students_df (row : assignment_row) sent,
     (length (reminders (Mail.process_assignment now smtp students_df row sent).1.2)
      ≤ 1)%nat).
Proof.
  split; [| split; [| split]].
  - intros now channel row sent. unfold Discord.process_class.
    destruct (strptime _); [apply discord_remind_one | simpl; lia].
  - intros now channel row sent. unfold Discord.process_assignment.
    destruct (Discord.no_due_date _); [simpl; lia |].
    destruct (strptime _); [apply discord_remind_one | simpl; lia].
  - intros now smtp students_df row sent. unfold Mail.process_class.
    destruct (strptime _) as [naive|]; [| simpl; lia].
    destruct (localize naive) as [class_time|]; [| simpl; lia]. cbn [fst].
    apply (mail_two_rounds_one _ now class_time).
    + intros h s. apply mail_remind_one.
    + intros h s. apply mail_remind_one.
  - intros now smtp students_df row sent. unfold Mail.process_assignment.
    destruct (strptime _) as [naive|]; [| simpl; lia].
    destruct (localize naive) as [due_time|]; [| simpl; lia]. cbn [fst].
    apply (mail_two_rounds_one _ now due_time).
    + intros h s. apply mail_remind_one.
    + intros h s. apply mail_remind_one.
Qed.

(** X11.  The two scripts do not fire at the same instants.  For one
    target and one lead time, the Discord notifier finds the window open in
    the 600 seconds up to the crossing and never after it, the mail
    scheduler in the 600 seconds from the crossing on and never before it;
    both find it open at the crossing itself and only there. *)
Theorem windows_side_by_side (now target h : Z) :
  (target - h * 3600 * us < now → Discord.in_window (target - now) (h * 3600) = false) ∧
  (now < target - h * 3600 * us → Mail.due now (target - Mail.hours h) = false) ∧
  (Discord.in_window (target - now) (h * 3600) = true ∧
   Mail.due now (target - Mail.hours h) = true
   ↔ now = target - h * 3600 * us).
Proof.
  unfold Mail.hours. split; [| split].
  - intros Hlate. destruct (Discord.in_window _ _) eqn:E; [| reflexivity].
    apply discord_in_window_iff in E. lia.
  - intros Hearly. destruct (Mail.due _ _) eqn:E; [| reflexivity].
    apply mail_due_iff in E. lia.
  - rewrite discord_in_window_iff, mail_due_iff. unfold us. lia.
Qed.

End PerRow.

(** ** Restart, failed iterations and start-up *)

Section AfterRestart.
Context {rt : Runtime}.
Local Open Scope Z_scope.

(** An iteration that ends without exception has written the ledger it
    ends with. *)
Lemma discord_tick_saved (w : Discord.world) (st : Discord.state) :
  (Discord.tick w st).2 = true →
  Discord.sent_log (Discord.tick w st).1.1
  = SentLog.save_sent_log (Discord.sent_reminders (Discord.tick w st).1.1).
Proof.
  unfold Discord.tick. destruct (Discord.classes w); [| discriminate].
  destruct (for_each _ _ _) as [s1 l1].
  destruct (Discord.assignments w); [| discriminate].
  destruct (for_each _ _ _) as [s2 l2].
  now destruct (Discord.disk_ok w).
Qed.

Lemma discord_loop_saved (ws : list Discord.world) (st : Discord.state) :
  ws ≠ [] → (Discord.reminder_loop ws st).2 = true →
  Discord.sent_log (Discord.reminder_loop ws st).1.1
  = SentLog.save_sent_log (Discord.sent_reminders (Discord.reminder_loop ws st).1.1).
Proof.
  revert st. induction ws as [|w ws IH]; intros st Hne Halive; [congruence |].
  cbn [Discord.reminder_loop] in *.
  pose proof (discord_tick_saved w st) as Hsaved.
  destruct (Discord.tick w st) as [[st1 log] alive]. simpl in Hsaved.
  destruct alive; [| discriminate].
  destruct ws as [|w' ws]; [simpl; now apply Hsaved |].
  specialize (IH st1 ltac:(discriminate)).
  destruct (Discord.reminder_loop (w' :: ws) st1) as [[st2 logs] alive'].
  simpl in *. now apply IH.
Qed.

(** A healthy run begins every iteration and is alive at its end. *)
Lemma discord_healthy_run (ws : list Discord.world) (st : Discord.state) :
  Forall healthy ws →
  (Discord.reminder_loop ws st).2 = true ∧
  length (Discord.reminder_loop ws st).1.2 = length ws.
Proof.
  revert st. induction ws as [|w ws IH]; intros st Hall; [now split |].
  apply Forall_cons in Hall as [Hw Hall]. cbn [Discord.reminder_loop].
  pose proof (healthy_alive w st Hw) as Halive.
  destruct (Discord.tick w st) as [[st1 log] alive]. simpl in Halive. subst alive.
  specialize (IH st1 Hall).
  destruct (Discord.reminder_loop ws st1) as [[st2 logs] alive']. simpl in *.
  destruct IH as [-> ->]. now split.
Qed.

(** X12.  Restart of the Discord notifier.  A run of at least one
    iteration, all of them healthy, begins every iteration and ends with
    the ledger in the log file: when the keys have no line end inside and
    no white space at either end, a new start of the script on that file
    begins with the same ledger, and whatever it meets it never sends
    again under a key of that ledger. *)
Theorem restart_keeps_the_ledger (ws : list Discord.world) (st : Discord.state) :
  ws ≠ [] → Forall healthy ws →
  (∀ key, key ∈ Discord.sent_reminders (Discord.reminder_loop ws st).1.1 →
     no_line_end key ∧ PyStr.strip key = key) →
  length (Discord.reminder_loop ws st).1.2 = length ws ∧
  SentLog.load_sent_log (Discord.sent_log (Discord.reminder_loop ws st).1.1)
  = Discord.sent_reminders (Discord.reminder_loop ws st).1.1 ∧
  ∀ env cfg channel_found ws' key,
    Discord.load_config env = inr cfg →
    key ∈ Discord.sent_reminders (Discord.reminder_loop ws st).1.1 →
    ∃ r, Discord.main env (Discord.sent_log (Discord.reminder_loop ws st).1.1)
           channel_found ws' = inr r ∧
         dispatches key (whole_log r.1.2) = 0%nat.
Proof.
  intros Hne Hhealthy Hkeys.
  destruct (discord_healthy_run ws st Hhealthy) as [Halive Hlen].
  assert (Hload : SentLog.load_sent_log (Discord.sent_log (Discord.reminder_loop ws st).1.1)
                  = Discord.sent_reminders (Discord.reminder_loop ws st).1.1).
  { rewrite (discord_loop_saved ws st Hne Halive). unfold SentLog.save_sent_log.
    rewrite sent_log_read_back_all; [apply list_to_set_elements_L |].
    apply Forall_forall. intros key Hin. apply Hkeys. now apply elem_of_elements. }
  split; [exact Hlen |]. split; [exact Hload |].
  intros env cfg channel_found ws' key Hcfg Hin. unfold Discord.main. rewrite Hcfg.
  eexists. split; [reflexivity |].
  unfold Discord.check_and_send_reminders. destruct channel_found; [| reflexivity].
  apply (guarded_skips _ (discord_loop_guarded ws' _) _ key). now rewrite Hload.
Qed.

Lemma whole_log_app {M} (l1 l2 : list (list (log_entry M))) :
  whole_log (l1 ++ l2) = whole_log l1 ++ whole_log l2.
Proof. unfold whole_log. apply concat_app. Qed.

Lemma mail_failed_iteration (w : Mail.world) (sent : gset string) :
  Mail.students w = None ∨ Mail.classes w = None ∨ Mail.assignments w = None →
  Mail.iteration w sent = (sent, [Warning "Error in reminder loop"]).
Proof.
  intros Hfail. unfold Mail.iteration, Mail.send_reminders.
  destruct (Mail.students w); [| reflexivity].
  destruct (Mail.classes w); [| reflexivity].
  destruct (Mail.assignments w); [| reflexivity].
  destruct Hfail as [? | [? | ?]]; discriminate.
Qed.

(** X13.  The mail loop outlives its iterations.  It begins every
    iteration, and an iteration on which a query raises changes nothing:
    the run ends with the same ledger and has sent the same reminders, in
    the same order, as the run without that iteration. *)
Theorem mail_loop_outlives_failures (ws1 ws2 : list Mail.world) (w : Mail.world)
    (sent : gset string) :
  Mail.students w = None ∨ Mail.classes w = None ∨ Mail.assignments w = None →
  length (Mail.main_loop (ws1 ++ w :: ws2) sent).2 = length (ws1 ++ w :: ws2) ∧
  (Mail.main_loop (ws1 ++ w :: ws2) sent).1 = (Mail.main_loop (ws1 ++ ws2) sent).1 ∧
  reminders (whole_log (Mail.main_loop (ws1 ++ w :: ws2) sent).2)
  = reminders (whole_log (Mail.main_loop (ws1 ++ ws2) sent).2).
Proof.
  intros Hfail. split; [apply mail_loop_never_stops |].
  revert sent. induction ws1 as [|w1 ws1 IH]; intros sent.
  - simpl. rewrite (mail_failed_iteration w sent Hfail).
    destruct (Mail.main_loop ws2 sent) as [s2 logs]. simpl. now split.
  - simpl. destruct (Mail.iteration w1 sent) as [s1 log]. specialize (IH s1).
    destruct (Mail.main_loop (ws1 ++ w :: ws2) s1) as [s2 logs].
    destruct (Mail.main_loop (ws1 ++ ws2) s1) as [s2' logs']. simpl in *.
    destruct IH as [-> Hl]. split; [reflexivity |].
    unfold whole_log in *. simpl. now rewrite !reminders_app, Hl.
Qed.

End AfterRestart.

Section MoreKeys.
Context {rt : Runtime}.
Local Open Scope Z_scope.

(** X14.  The keys of the mail scheduler.  When the course, the batch, the
    year as it is printed, the stripped mode and the session or subject
    hold no hyphen, the key determines all of them and the hours; and a
    class key is never an assignment key. *)
Theorem mail_keys_determine_fields :
  (∀ (r1 r2 : class_row) h1 h2,
     h1 = 24 ∨ h1 = 1 → h2 = 24 ∨ h2 = 1 →
     plain (cls_course r1) → plain (cls_batch_name r1) →
     plain (py_format (cls_year r1)) → plain (PyStr.strip (cls_mode r1)) →
     plain (cls_session_name r1) →
     plain (cls_course r2) → plain (cls_batch_name r2) →
     plain (py_format (cls_year r2)) → plain (PyStr.strip (cls_mode r2)) →
     plain (cls_session_name r2) →
     Mail.class_key r1 h1 = Mail.class_key r2 h2 →
     cls_course r1 = cls_course r2 ∧ cls_batch_name r1 = cls_batch_name r2 ∧
     py_format (cls_year r1) = py_format (cls_year r2) ∧
     PyStr.strip (cls_mode r1) = PyStr.strip (cls_mode r2) ∧
     cls_session_name r1 = cls_session_name r2 ∧ h1 = h2) ∧
  (∀ (r1 r2 : assignment_row) h1 h2,
     h1 = 24 ∨ h1 = 1 → h2 = 24 ∨ h2 = 1 →
     plain (asg_course r1) → plain (asg_batch_name r1) →
     plain (py_format (asg_year r1)) → plain (PyStr.strip (asg_mode r1)) →
     plain (asg_subject r1) →
     plain (asg_course r2) → plain (asg_batch_name r2) →
     plain (py_format (asg_year r2)) → plain (PyStr.strip (asg_mode r2)) →
     plain (asg_subject r2) →
     Mail.assignment_key r1 h1 = Mail.assignment_key r2 h2 →
     asg_course r1 = asg_course r2 ∧ asg_batch_name r1 = asg_batch_name r2 ∧
     py_format (asg_year r1) = py_format (asg_year r2) ∧
     PyStr.strip (asg_mode r1) = PyStr.strip (asg_mode r2) ∧
     asg_subject r1 = asg_subject r2 ∧ h1 = h2) ∧
  (∀ (c : class_row) (a : assignment_row) h h',
     Mail.class_key c h ≠ Mail.assignment_key a h').
Proof.
  split; [| split].
  - intros r1 r2 h1 h2 Hh1 Hh2 Hc1 Hb1 Hy1 Hm1 Hn1 Hc2 Hb2 Hy2 Hm2 Hn2 E.
    unfold Mail.class_key in E. apply (inj (String.append _)) in E.
    apply split_at_hyphen in E as [Ec E]; [| assumption ..].
    apply split_at_hyphen in E as [Eb E]; [| assumption ..].
    apply split_at_hyphen in E as [Ey E]; [| assumption ..].
    apply split_at_hyphen in E as [Em E]; [| assumption ..].
    apply split_at_hyphen in E as [En E]; [| assumption ..].
    repeat (split; [assumption |]). now apply mail_hours_inj.
  - intros r1 r2 h1 h2 Hh1 Hh2 Hc1 Hb1 Hy1 Hm1 Hn1 Hc2 Hb2 Hy2 Hm2 Hn2 E.
    unfold Mail.assignment_key in E. apply (inj (String.append _)) in E.
    apply split_at_hyphen in E as [Ec E]; [| assumption ..].
    apply split_at_hyphen in E as [Eb E]; [| assumption ..].
    apply split_at_hyphen in E as [Ey E]; [| assumption ..].
    apply split_at_hyphen in E as [Em E]; [| assumption ..].
    apply split_at_hyphen in E as [En E]; [| assumption ..].
    repeat (split; [assumption |]). now apply mail_hours_inj.
  - intros c a h h' E. unfold Mail.class_key, Mail.assignment_key in E.
    rewrite !append_cons in E. discriminate.
Qed.

(** X15.  Start-up.  The Discord notifier gets past its configuration
    exactly when the token and the database path are present and not
    empty and the channel id is present, is read by [int] and is not 0,
    and then runs with these very values; a channel id that is absent is a
    [TypeError], every other refusal a [ValueError].  The mail scheduler
    gets past its configuration exactly when the sender address and the
    password are present and not empty, and then takes the database path
    of the environment when there is one. *)
Theorem startup_accepts :
  (∀ env,
     (∃ cfg, Discord.load_config env = inr cfg)
     ↔ truthy (env !! "DISCORD_TOKEN") = true ∧ truthy (env !! "DB_PATH") = true ∧
       ∃ s channel_id, env !! "DISCORD_CHANNEL_ID" = Some s ∧
                       py_int s = Some channel_id ∧ channel_id ≠ 0) ∧
  (∀ env cfg,
     Discord.load_config env = inr cfg →
     env !! "DISCORD_TOKEN" = Some (Discord.TOKEN cfg) ∧
     env !! "DB_PATH" = Some (Discord.DB_PATH cfg) ∧
     ∃ s, env !! "DISCORD_CHANNEL_ID" = Some s ∧ py_int s = Some (Discord.CHANNEL_ID cfg)) ∧
  (∀ env,
     (Discord.load_config env = inl TypeError ↔ env !! "DISCORD_CHANNEL_ID" = None)) ∧
  (∀ env,
     (∃ cfg, Mail.load_config env = inr cfg)
     ↔ truthy (env !! "SENDER_EMAIL") = true ∧ truthy (env !! "SENDER_PASS") = true) ∧
  (∀ env cfg db_path,
     Mail.load_config env = inr cfg → env !! "DB_PATH" = Some db_path →
     Mail.DB_PATH cfg = db_path ∧
     env !! "SENDER_EMAIL" = Some (Mail.SENDER_EMAIL cfg) ∧
     env !! "SENDER_PASS" = Some (Mail.SENDER_PASS cfg)).
Proof.
  split; [| split; [| split; [| split]]].
  - intros env. unfold Discord.load_config.
    destruct (env !! "DISCORD_CHANNEL_ID") as [s|].
    2:{ split; [intros [cfg ?]; discriminate | intros (_ & _ & s & id & ? & _)];
        discriminate. }
    destruct (py_int s) as [channel_id|] eqn:Hint.
    2:{ split; [intros [cfg ?]; discriminate |].
        intros (_ & _ & s' & id & [= <-] & ? & _). congruence. }
    destruct (truthy (env !! "DISCORD_TOKEN")) eqn:Ht; simpl.
    2:{ split; [intros [cfg ?]; discriminate | intros (? & _); discriminate]. }
    destruct (channel_id =? 0) eqn:Hz; simpl.
    { apply Z.eqb_eq in Hz. split; [intros [cfg ?]; discriminate |].
      intros (_ & _ & s' & id & [= <-] & Hid & Hne). congruence. }
    apply Z.eqb_neq in Hz.
    destruct (truthy (env !! "DB_PATH")) eqn:Hd; simpl.
    + split; [| eauto]. intros _. repeat split. exists s, channel_id. auto.
    + split; [intros [cfg ?]; discriminate | intros (_ & ? & _); discriminate].
  - intros env cfg. unfold Discord.load_config.
    destruct (env !! "DISCORD_CHANNEL_ID") as [s|]; [| discriminate].
    destruct (py_int s) as [channel_id|] eqn:Hint; [| discriminate].
    destruct (env !! "DISCORD_TOKEN") as [[|c t]|]; simpl; try discriminate.
    destruct (channel_id =? 0); simpl; [discriminate |].
    destruct (env !! "DB_PATH") as [[|d p]|]; simpl; try discriminate.
    intros [= <-]. simpl. repeat split. now exists s.
  - intros env. unfold Discord.load_config.
    destruct (env !! "DISCORD_CHANNEL_ID") as [s|]; [| now split].
    destruct (py_int s); [| split; discriminate].
    destruct (_ || _); split; discriminate.
  - intros env. unfold Mail.load_config.
    destruct (truthy (env !! "SENDER_EMAIL")); simpl.
    2:{ split; [intros [cfg ?]; discriminate | intros [? _]; discriminate]. }
    destruct (truthy (env !! "SENDER_PASS")); simpl.
    + split; [now split | eauto].
    + split; [intros [cfg ?]; discriminate | intros [_ ?]; discriminate].
  - intros env cfg db_path. unfold Mail.load_config.
    destruct (env !! "SENDER_EMAIL") as [[|c t]|]; simpl; try discriminate.
    destruct (env !! "SENDER_PASS") as [[|d p]|]; simpl; try discriminate.
    intros [= <-] ->. simpl. now repeat split.
Qed.

End MoreKeys.

(** ** An iteration run again *)

Section Again.
Context {rt : Runtime}.
Local Open Scope Z_scope.

Lemma satisfied_quiet {M} (log : gset string → list (log_entry M)) :
  (∀ sent, reminders (log sent) = []) → satisfied (λ sent, (sent, log sent)).
Proof. intros Hlog sent sent' _. split; [reflexivity | apply Hlog]. Qed.

Lemma discord_remind_satisfied now channel target k24 k1 m24 m1 :
  satisfied (Discord.remind now channel target k24 k1 m24 m1).
Proof.
  intros sent sent'. unfold settled, Discord.remind, Discord.send_reminder.
  destruct (Discord.in_window (target - now) 3600) eqn:W1.
  - rewrite (discord_windows_disjoint _ W1). simpl.
    destruct (bool_decide (k1 ∈ sent)) eqn:B1; simpl; intros Hsub.
    + apply bool_decide_eq_true in B1.
      rewrite (bool_decide_eq_true_2 (k1 ∈ sent')) by (apply Hsub, B1). now split.
    + rewrite (bool_decide_eq_true_2 (k1 ∈ sent')); [now split |].
      apply Hsub. apply elem_of_union. left. now apply elem_of_singleton.
  - simpl. destruct (Discord.in_window (target - now) 86400); simpl; [| now split].
    destruct (bool_decide (k24 ∈ sent)) eqn:B24; simpl; intros Hsub.
    + apply bool_decide_eq_true in B24.
      rewrite (bool_decide_eq_true_2 (k24 ∈ sent')) by (apply Hsub, B24). now split.
    + rewrite (bool_decide_eq_true_2 (k24 ∈ sent')); [now split |].
      apply Hsub. apply elem_of_union. left. now apply elem_of_singleton.
Qed.

Lemma mail_remind_satisfied now smtp students_df course batch_name year mode
    reminder_time key subject text :
  satisfied (Mail.remind now smtp students_df course batch_name year mode
               reminder_time key subject text).
Proof.
  intros sent sent'. unfold settled, Mail.remind.
  destruct (Mail.due now reminder_time); simpl; [| now split].
  destruct (Mail.recipients students_df course batch_name year mode) as [|stu stus].
  - intros _. now destruct (negb _).
  - destruct (bool_decide (key ∈ sent)) eqn:B; simpl; intros Hsub.
    + apply bool_decide_eq_true in B.
      rewrite (bool_decide_eq_true_2 (key ∈ sent')) by (apply Hsub, B). now split.
    + rewrite (bool_decide_eq_true_2 (key ∈ sent')); [now split |].
      apply Hsub. apply elem_of_union. left. now apply elem_of_singleton.
Qed.

(** A loop over rows whose bodies only add keys and are satisfied by their
    own work is satisfied by its own work. *)
Lemma satisfied_for_each {R M} (body : R → gset string → gset string * list (log_entry M))
    (rows : list R) :
  (∀ row s, s ⊆ (body row s).1) → (∀ row, satisfied (body row)) →
  satisfied (for_each body rows).
Proof.
  intros Hgrow Hsat. induction rows as [|row rows IH]; intros sent sent' Hsub.
  - now split.
  - unfold settled in *. simpl in *.
    pose proof (Hsat row sent sent') as Hrow.
    destruct (body row sent) as [s1 l1] eqn:E1.
    pose proof (IH s1 sent') as Hrest.
    assert (Hgrows : ∀ s, s ⊆ (for_each body rows s).1).
    { clear -Hgrow. induction rows as [|r rows IH]; intros s; [reflexivity |].
      simpl. pose proof (Hgrow r s) as H1. destruct (body r s) as [t1 m1].
      specialize (IH t1). destruct (for_each body rows t1) as [t2 m2].
      simpl in *. now transitivity t1. }
    pose proof (Hgrows s1) as Hs1.
    destruct (for_each body rows s1) as [s2 l2] eqn:E2. simpl in *.
    destruct Hrow as [Hr1 Hr2]; [now transitivity s2 |].
    destruct (body row sent') as [t1 m1]. simpl in Hr1, Hr2. subst t1.
    destruct (Hrest Hsub) as [Ht Hm].
    destruct (for_each body rows sent') as [t2 m2]. simpl in *. subst t2.
    split; [reflexivity |]. now rewrite reminders_app, Hr2, Hm.
Qed.

Lemma discord_process_class_satisfied now channel row :
  satisfied (Discord.process_class now channel row).
Proof.
  unfold Discord.process_class.
  destruct (strptime _); [apply discord_remind_satisfied |].
  apply (satisfied_quiet (λ _, [Warning "Error reading class data"])). reflexivity.
Qed.

Lemma discord_process_assignment_satisfied now channel row :
  satisfied (Discord.process_assignment now channel row).
Proof.
  unfold Discord.process_assignment.
  destruct (Discord.no_due_date _); [apply (satisfied_quiet (λ _, [])); reflexivity |].
  destruct (strptime _); [apply discord_remind_satisfied |].
  apply (satisfied_quiet (λ _, [Warning "Error reading assignment data"])). reflexivity.
Qed.

Lemma mail_process_class_satisfied now smtp students_df row :
  satisfied (mail_class_step now smtp students_df row).
Proof.
  unfold mail_class_step, Mail.process_class.
  destruct (strptime _) as [naive|];
    [| apply (satisfied_quiet (λ _, [Warning "Invalid datetime for class"])); reflexivity].
  destruct (localize naive); [| apply (satisfied_quiet (λ _, [])); reflexivity].
  apply (satisfied_for_each (Mail.class_reminder now smtp students_df row _)).
  - intros h s. apply (guarded_grows _ (mail_remind_guarded _ _ _ _ _ _ _ _ _ _ _)).
  - intros h. apply mail_remind_satisfied.
Qed.

Lemma mail_process_assignment_satisfied now smtp students_df row :
  satisfied (mail_assignment_step now smtp students_df row).
Proof.
  unfold mail_assignment_step, Mail.process_assignment.
  destruct (strptime _) as [naive|];
    [| apply (satisfied_quiet (λ _, [Warning "Invalid due date for assignment"]));
       reflexivity].
  destruct (localize naive); [| apply (satisfied_quiet (λ _, [])); reflexivity].
  apply (satisfied_for_each (Mail.assignment_reminder now smtp students_df row _)).
  - intros h s. apply (guarded_grows _ (mail_remind_guarded _ _ _ _ _ _ _ _ _ _ _)).
  - intros h. apply mail_remind_satisfied.
Qed.

(** The two loops of the mail scheduler run again over the same rows. *)
Lemma mail_rounds_again (w : Mail.world) (sent : gset string) :
  reminders (mail_rounds w (mail_rounds w sent).1).2 = [] ∧
  (mail_rounds w (mail_rounds w sent).1).1 = (mail_rounds w sent).1.
Proof.
  unfold mail_rounds.
  destruct (Mail.students w) as [students_df|]; [| now split].
  destruct (Mail.classes w) as [classes_df|]; [| now split].
  destruct (Mail.assignments w) as [assignments_df|]; [| now split].
  pose proof (satisfied_for_each
                (mail_class_step (Mail.now w) (Mail.smtp w) students_df) classes_df
                (λ row, guarded_grows _ (mail_process_class_guarded _ _ _ row))
                (mail_process_class_satisfied _ _ _) sent) as Hc.
  destruct (for_each _ classes_df sent) as [s1 l1]. simpl in Hc.
  pose proof (satisfied_for_each
                (mail_assignment_step (Mail.now w) (Mail.smtp w) students_df)
                assignments_df
                (λ row, guarded_grows _ (mail_process_assignment_guarded _ _ _ row))
                (mail_process_assignment_satisfied _ _ _) s1) as Ha.
  pose proof (guarded_grows _ (guarded_for_each
                (mail_assignment_step (Mail.now w) (Mail.smtp w) students_df)
                assignments_df (mail_process_assignment_guarded _ _ _)) s1) as Hg.
  destruct (for_each _ assignments_df s1) as [s2 l2]. simpl in Ha, Hg. simpl.
  destruct (Hc s2 Hg) as [Hc1 Hc2]. destruct (Ha s2 ltac:(reflexivity)) as [Ha1 Ha2].
  destruct (for_each _ classes_df s2) as [t1 m1]. simpl in Hc1, Hc2. subst t1.
  destruct (for_each _ assignments_df s2) as [t2 m2]. simpl in Ha1, Ha2. subst t2.
  simpl. split; [| reflexivity]. now rewrite reminders_app, Hc2, Ha2.
Qed.

(** X16.  An iteration run again on the same clock and the same tables,
    on the ledger the first run left, sends nothing and leaves the ledger
    as it is, in either script: what an iteration has sent, and what it
    held back, it does not send when it sees it a second time. *)
Theorem iteration_run_again :
  (∀ (w : Discord.world) (st : Discord.state),
     reminders (Discord.tick w (Discord.tick w st).1.1).1.2 = [] ∧
     Discord.sent_reminders (Discord.tick w (Discord.tick w st).1.1).1.1
     = Discord.sent_reminders (Discord.tick w st).1.1) ∧
  (∀ (w : Mail.world) (sent : gset string),
     reminders (Mail.iteration w (Mail.iteration w sent).1).2 = [] ∧
     (Mail.iteration w (Mail.iteration w sent).1).1 = (Mail.iteration w sent).1).
Proof.
  split.
  - intros w st. unfold Discord.tick.
    destruct (Discord.classes w) as [df_classes|]; [| now split].
    pose proof (satisfied_for_each
                  (Discord.process_class (Discord.now w) (Discord.channel w)) df_classes
                  (λ row, guarded_grows _ (discord_process_class_guarded _ _ row))
                  (discord_process_class_satisfied _ _) (Discord.sent_reminders st)) as Hc.
    destruct (for_each _ df_classes (Discord.sent_reminders st)) as [s1 l1]. simpl in Hc.
    destruct (Discord.assignments w) as [df_assignments|].
    + pose proof (satisfied_for_each
                    (Discord.process_assignment (Discord.now w) (Discord.channel w))
                    df_assignments
                    (λ row, guarded_grows _ (discord_process_assignment_guarded _ _ row))
                    (discord_process_assignment_satisfied _ _) s1) as Ha.
      pose proof (guarded_grows _ (guarded_for_each
                    (Discord.process_assignment (Discord.now w) (Discord.channel w))
                    df_assignments (discord_process_assignment_guarded _ _)) s1) as Hg.
      destruct (for_each _ df_assignments s1) as [s2 l2]. simpl in Ha, Hg.
      destruct (Hc s2 Hg) as [Hc1 Hc2]. destruct (Ha s2 ltac:(reflexivity)) as [Ha1 Ha2].
      destruct (Discord.disk_ok w); simpl;
        destruct (for_each _ df_classes s2) as [t1 m1]; simpl in Hc1, Hc2; subst t1;
        destruct (for_each _ df_assignments s2) as [t2 m2]; simpl in Ha1, Ha2; subst t2;
        simpl; (split; [| reflexivity]); now rewrite reminders_app, Hc2, Ha2.
    + simpl. destruct (Hc s1 ltac:(reflexivity)) as [Hc1 Hc2].
      destruct (for_each _ df_classes s1) as [t1 m1]. simpl in Hc1, Hc2. subst t1.
      now split.
  - intros w sent. rewrite (mail_iteration_rounds w sent). cbn [fst].
    rewrite mail_iteration_rounds. cbn [fst snd].
    destruct (mail_rounds_again (reached w) sent) as [Hl Hs].
    split; [| exact Hs].
    rewrite (reminders_app (mail_rounds (reached w) _).2 (closing w)), Hl.
    unfold closing. now destruct (completes w).
Qed.

End Again.

(** ** The properties above on the class of 2024-01-02 10:00 *)

Section MoreScenarios.
Local Open Scope Z_scope.

(** The 24-hour reminder of the class, sent at the crossing. *)
Lemma discord_sends_only_in_window_witness :
  ∃ msg,
    Dispatch (Discord.class_key intro_class "-24hr") (msg, true)
      ∈ (Discord.tick (rt := calendar_runtime)
           (discord_world day_before delivering) fresh).1.2 ∧
    (Discord.class_key intro_class "-24hr" ∉ Discord.sent_reminders fresh) ∧
    true = Discord.channel (discord_world day_before delivering) msg ∧
    ((∃ df_classes row class_datetime,
        Discord.classes (discord_world day_before delivering) = Some df_classes ∧
        row ∈ df_classes ∧
        strptime (Runtime := calendar_runtime) (cls_date row +:+ " " +:+ cls_time row)
        = Some class_datetime ∧
        ((Discord.class_key intro_class "-24hr" = Discord.class_key row "-24hr" ∧
          Discord.in_window
            (class_datetime - Discord.now (discord_world day_before delivering)) 86400
          = true) ∨
         (Discord.class_key intro_class "-24hr" = Discord.class_key row "-1hr" ∧
          Discord.in_window
            (class_datetime - Discord.now (discord_world day_before delivering)) 3600
          = true))) ∨
     (∃ df_assignments row due_datetime,
        Discord.assignments (discord_world day_before delivering) = Some df_assignments ∧
        row ∈ df_assignments ∧
        Discord.no_due_date (rt := calendar_runtime) (asg_due_date row) = false ∧
        strptime (Runtime := calendar_runtime) (asg_due_date row +:+ " " +:+ "23:59")
        = Some due_datetime ∧
        ((Discord.class_key intro_class "-24hr" = Discord.assign_key row "-24hr" ∧
          Discord.in_window
            (due_datetime - Discord.now (discord_world day_before delivering)) 86400
          = true) ∨
         (Discord.class_key intro_class "-24hr" = Discord.assign_key row "-1hr" ∧
          Discord.in_window
            (due_datetime - Discord.now (discord_world day_before delivering)) 3600
          = true)))).
Proof.
  eexists. split.
  - vm_compute. constructor.
  - apply (discord_sends_only_in_window (rt := calendar_runtime)).
    vm_compute. constructor.
Defined.

(** The 24-hour mail of the class, sent to Alice at the crossing. *)
Lemma mail_sends_only_in_window_witness :
  ∃ mails,
    Dispatch (Mail.class_key intro_class 24) mails
      ∈ (Mail.iteration (rt := calendar_runtime)
           (mail_world day_before [alice] delivering) ∅).2 ∧
    (Mail.class_key intro_class 24 ∉ (∅ : gset string)) ∧ mails ≠ [] ∧
    ∃ students_df,
      Mail.students (mail_world day_before [alice] delivering) = Some students_df ∧
      ((∃ classes_df row naive class_time h,
          Mail.classes (mail_world day_before [alice] delivering) = Some classes_df ∧
          row ∈ classes_df ∧
          strptime (Runtime := calendar_runtime) (cls_date row +:+ " " +:+ cls_time row)
          = Some naive ∧
          localize (Runtime := calendar_runtime) naive = Some class_time ∧
          (h = 24 ∨ h = 1) ∧ Mail.class_key intro_class 24 = Mail.class_key row h ∧
          Mail.due (Mail.now (mail_world day_before [alice] delivering))
                   (class_time - Mail.hours h) = true ∧
          List.map (λ m : Mail.email * bool, Mail.to m.1) mails
          = List.map stu_email
              (Mail.recipients (rt := calendar_runtime) students_df (cls_course row)
                               (cls_batch_name row) (cls_year row)
                               (PyStr.strip (cls_mode row)))) ∨
       (∃ assignments_df row naive due_time h,
          Mail.assignments (mail_world day_before [alice] delivering)
          = Some assignments_df ∧
          row ∈ assignments_df ∧
          strptime (Runtime := calendar_runtime)
                   (Mail.with_default_time (asg_due_date row)) = Some naive ∧
          localize (Runtime := calendar_runtime) naive = Some due_time ∧
          (h = 24 ∨ h = 1) ∧ Mail.class_key intro_class 24 = Mail.assignment_key row h ∧
          Mail.due (Mail.now (mail_world day_before [alice] delivering))
                   (due_time - Mail.hours h) = true ∧
          List.map (λ m : Mail.email * bool, Mail.to m.1) mails
          = List.map stu_email
              (Mail.recipients (rt := calendar_runtime) students_df (asg_course row)
                               (asg_batch_name row) (asg_year row)
                               (PyStr.strip (asg_mode row))))).
Proof.
  eexists. split.
  - vm_compute. constructor.
  - apply (mail_sends_only_in_window (rt := calendar_runtime)).
    vm_compute. constructor.
Defined.

(** Three iterations of the Discord notifier, the last two inside the
    24-hour window, the middle one with the channel refusing the message:
    one reminder in all. *)
Lemma discord_exactly_once_witness :
  dispatches (Discord.class_key intro_class "-24hr")
    (whole_log
       (Discord.reminder_loop (rt := calendar_runtime)
          [discord_world (day_before - 3600 * us) delivering;
           discord_world (day_before - 60 * us) unreachable;
           discord_world day_before delivering] fresh).1.2) = 1%nat.
Proof.
  apply (proj1 (discord_exactly_once (rt := calendar_runtime)
                  [discord_world (day_before - 3600 * us) delivering;
                   discord_world (day_before - 60 * us) unreachable;
                   discord_world day_before delivering]
                  1 (discord_world (day_before - 60 * us) unreachable) fresh
                  "-24hr" 86400
                  ltac:(repeat constructor; discriminate) eq_refl
                  (or_introl (conj eq_refl eq_refl)))
           [intro_class] intro_class intro_start eq_refl).
  - constructor.
  - exact intro_class_parses.
  - vm_compute. reflexivity.
  - apply not_elem_of_empty.
Defined.

(** Three iterations of the mail scheduler, the first without database,
    the last two inside the 24-hour window, the middle one with the server
    refusing the mail and with a class behind the one that is due on which
    [localize] raises: one reminder in all. *)
Lemma mail_exactly_once_witness :
  dispatches (Mail.class_key intro_class 24)
    (whole_log
       (Mail.main_loop (rt := calendar_runtime)
          [mail_store_down (day_before - 60 * us);
           mail_world_of day_before [intro_class; ancient_class] unreachable;
           mail_world (day_before + 60 * us) [alice] delivering] ∅).2) = 1%nat.
Proof.
  apply (proj1 (mail_exactly_once (rt := calendar_runtime)
                  [mail_store_down (day_before - 60 * us);
                   mail_world_of day_before [intro_class; ancient_class] unreachable;
                   mail_world (day_before + 60 * us) [alice] delivering]
                  1 (mail_world_of day_before [intro_class; ancient_class] unreachable)
                  ∅ 24 [alice] [intro_class; ancient_class] [] eq_refl
                  (or_introl eq_refl) eq_refl eq_refl eq_refl)
           [] intro_class [ancient_class] intro_start intro_start eq_refl).
  - constructor.
  - exact intro_class_parses.
  - exact intro_class_zone.
  - vm_compute. reflexivity.
  - exact alice_is_selected.
  - apply not_elem_of_empty.
Defined.

(** The same class table the other way round: the class on which
    [localize] raises comes first, the call ends there, and the class that
    is due behind it gets no reminder on that iteration. *)
Example mail_row_raises :
  class_raises (rt := calendar_runtime) ancient_class = true ∧
  Mail.iteration (rt := calendar_runtime)
    (mail_world_of day_before [ancient_class; intro_class] delivering) ∅
  = (∅, [Warning "Error in reminder loop"]) ∧
  dispatches (Mail.class_key intro_class 24)
    (Mail.iteration (rt := calendar_runtime)
       (mail_world_of day_before [intro_class; ancient_class] delivering) ∅).2 = 1%nat ∧
  (Mail.iteration (rt := calendar_runtime)
     (mail_world_of day_before [intro_class; ancient_class] delivering) ∅).1
  = {[ Mail.class_key intro_class 24 ]}.
Proof. repeat split; vm_compute; reflexivity. Qed.

(** Two iterations ten minutes apart, with the 24-hour crossing half way
    between them. *)
Lemma crossing_is_observed_witness :
  Discord.in_window (intro_start - (day_before - 300 * us)) 86400 = true ∧
  Mail.due (day_before + 300 * us) day_before = true.
Proof.
  split.
  - apply (proj1 crossing_is_observed intro_start 86400
             (day_before - 300 * us) (day_before + 300 * us));
      [split |]; vm_compute; congruence.
  - apply (proj2 crossing_is_observed day_before
             (day_before - 300 * us) (day_before + 300 * us));
      [split |]; vm_compute; congruence.
Defined.

(** A class dated [tomorrow] in front of the class of the scenarios. *)
Lemma unreadable_rows_are_skipped_witness :
  (Discord.tick (rt := calendar_runtime)
     (Discord.Build_world day_before (Some ([] ++ undated_class :: [intro_class]))
                          (Some []) delivering true) fresh).1.1
  = (Discord.tick (rt := calendar_runtime)
       (Discord.Build_world day_before (Some ([] ++ [intro_class]))
                            (Some []) delivering true) fresh).1.1 ∧
  reminders (Discord.tick (rt := calendar_runtime)
               (Discord.Build_world day_before
                  (Some ([] ++ undated_class :: [intro_class]))
                  (Some []) delivering true) fresh).1.2
  = reminders (Discord.tick (rt := calendar_runtime)
                 (Discord.Build_world day_before (Some ([] ++ [intro_class]))
                                      (Some []) delivering true) fresh).1.2.
Proof.
  apply (proj1 (unreadable_rows_are_skipped (rt := calendar_runtime))).
  vm_compute. reflexivity.
Defined.

(** The instant of the 24-hour crossing is the one at which both scripts
    find the window open. *)
Lemma windows_side_by_side_witness :
  Discord.in_window (intro_start - day_before) (24 * 3600) = true ∧
  Mail.due day_before (intro_start - Mail.hours 24) = true.
Proof.
  apply (proj2 (proj2 (windows_side_by_side day_before intro_start 24))).
  vm_compute. reflexivity.
Defined.

(** The notifier stopped after the 24-hour reminder and started again a
    minute later, inside the same window. *)
Lemma restart_keeps_the_ledger_witness :
  length (Discord.reminder_loop (rt := calendar_runtime)
            [discord_world day_before delivering] fresh).1.2 = 1%nat ∧
  SentLog.load_sent_log
    (Discord.sent_log (Discord.reminder_loop (rt := calendar_runtime)
                         [discord_world day_before delivering] fresh).1.1)
  = Discord.sent_reminders (Discord.reminder_loop (rt := calendar_runtime)
                              [discord_world day_before delivering] fresh).1.1 ∧
  ∃ r,
    Discord.main (rt := calendar_runtime) discord_env
      (Discord.sent_log (Discord.reminder_loop (rt := calendar_runtime)
                           [discord_world day_before delivering] fresh).1.1)
      true [discord_world (day_before + 60 * us) delivering] = inr r ∧
    dispatches (Discord.class_key intro_class "-24hr") (whole_log r.1.2) = 0%nat.
Proof.
  destruct (restart_keeps_the_ledger (rt := calendar_runtime)
              [discord_world day_before delivering] fresh)
    as (Hlen & Hload & Hagain).
  - discriminate.
  - repeat constructor; discriminate.
  - intros key Hkey.
    assert (Hkeys : Discord.sent_reminders
                      (Discord.reminder_loop (rt := calendar_runtime)
                         [discord_world day_before delivering] fresh).1.1
                    = {[Discord.class_key intro_class "-24hr"]})
      by (vm_compute; reflexivity).
    rewrite Hkeys in Hkey. apply elem_of_singleton in Hkey. subst key.
    vm_compute. repeat split.
  - split; [exact Hlen |]. split; [exact Hload |].
    apply (Hagain discord_env
             {| Discord.TOKEN := "token"; Discord.CHANNEL_ID := 42;
                Discord.DB_PATH := "reminders.db" |}
             true [discord_world (day_before + 60 * us) delivering]).
    + vm_compute. reflexivity.
    + vm_compute. reflexivity.
Defined.

(** The database out of reach on the second of three iterations. *)
Lemma mail_loop_outlives_failures_witness :
  length (Mail.main_loop (rt := calendar_runtime)
            ([mail_world day_before [alice] delivering] ++
             mail_store_down (day_before + 60 * us) ::
             [mail_world hour_before [alice] delivering]) ∅).2
  = length ([mail_world day_before [alice] delivering] ++
            mail_store_down (day_before + 60 * us) ::
            [mail_world hour_before [alice] delivering]) ∧
  (Mail.main_loop (rt := calendar_runtime)
     ([mail_world day_before [alice] delivering] ++
      mail_store_down (day_before + 60 * us) ::
      [mail_world hour_before [alice] delivering]) ∅).1
  = (Mail.main_loop (rt := calendar_runtime)
       ([mail_world day_before [alice] delivering] ++
        [mail_world hour_before [alice] delivering]) ∅).1 ∧
  reminders (whole_log
               (Mail.main_loop (rt := calendar_runtime)
                  ([mail_world day_before [alice] delivering] ++
                   mail_store_down (day_before + 60 * us) ::
                   [mail_world hour_before [alice] delivering]) ∅).2)
  = reminders (whole_log
                 (Mail.main_loop (rt := calendar_runtime)
                    ([mail_world day_before [alice] delivering] ++
                     [mail_world hour_before [alice] delivering]) ∅).2).
Proof.
  apply (mail_loop_outlives_failures (rt := calendar_runtime)).
  left. reflexivity.
Defined.

(** The class of the scenarios and the same class a day later have one
    mail key: the fields the key is made of agree. *)
Lemma mail_keys_determine_fields_witness :
  cls_course intro_class = cls_course intro_class_next_day ∧
  cls_batch_name intro_class = cls_batch_name intro_class_next_day ∧
  py_format (cls_year intro_class) = py_format (cls_year intro_class_next_day) ∧
  PyStr.strip (cls_mode intro_class) = PyStr.strip (cls_mode intro_class_next_day) ∧
  cls_session_name intro_class = cls_session_name intro_class_next_day ∧
  24 = 24.
Proof.
  apply (proj1 mail_keys_determine_fields intro_class intro_class_next_day 24 24);
    try (left; reflexivity); vm_compute; reflexivity.
Defined.

(** An environment with a token, a channel id and a database path. *)
Lemma startup_accepts_witness :
  ∃ cfg, Discord.load_config (rt := calendar_runtime) discord_env = inr cfg.
Proof.
  apply (proj1 (startup_accepts (rt := calendar_runtime)) discord_env).
  split; [vm_compute; reflexivity |]. split; [vm_compute; reflexivity |].
  exists "42", 42. split; [vm_compute; reflexivity |].
  split; [vm_compute; reflexivity | discriminate].
Defined.

End MoreScenarios.
